(** * cognition_benchmark_v2: the three-layer scoring pipeline

    A shallow embedding of the scoring core of [benchmark_v2]
    (structural checks, reference checks, judge rotation with tiebreak,
    the orchestrator loop and the statistics helpers), with the properties
    the specification states about it.

    Conventions of the embedding:
    - Python [float] values are exact rationals ([Q]); [int] values are [Z].
      A statement that could depend on how a double rounds (a comparison at
      its boundary, an underflow, an inexact sum) excludes those inputs by a
      hypothesis.
    - Python [str] values are [string]s whose characters are read as code
      points below 256.
    - A Python [dict] is an insertion-ordered association list ([Py.dict]).
    - The [re] module is outside the repository: it is a parameter
      ([ReEngine]) of everything that calls it.
    - Calls to [logger] are not modelled. *)

From Stdlib Require Import ZArith QArith Qabs Qround String Ascii List Bool Lia Lqa.
From Stdlib Require Import DecimalString.
Import ListNotations.

Set Implicit Arguments.
Open Scope string_scope.
Open Scope Z_scope.

(** ** Python values: numbers, strings, dictionaries *)

Module Py.

(** *** Numbers *)

Definition qltb (x y : Q) : bool := negb (Qle_bool y x).
Definition qleb (x y : Q) : bool := Qle_bool x y.
Definition qeqb (x y : Q) : bool := Qeq_bool x y.

(** [max(a, b)] keeps [a] unless [b > a]; [min(a, b)] keeps [a] unless
    [b < a]. *)
Definition max (a b : Q) : Q := if qltb a b then b else a.
Definition min (a b : Q) : Q := if qltb b a then b else a.

(** [round(x)]: nearest integer, ties to the even one. *)
Definition round (x : Q) : Z :=
  let f := Qfloor x in
  match (x - inject_Z f ?= 1 # 2)%Q with
  | Lt => f
  | Gt => f + 1
  | Eq => if Z.even f then f else f + 1
  end.

(** [round(x, n)]. *)
Definition round_nd (x : Q) (n : nat) : Q :=
  (inject_Z (round (x * inject_Z (10 ^ Z.of_nat n))) / inject_Z (10 ^ Z.of_nat n))%Q.

(** [int(x)] on a float: truncation towards zero. *)
Definition int (x : Q) : Z := Z.quot (Qnum x) (Zpos (Qden x)).

(** [sum(l)]: Python adds from the left, starting at 0. *)
Definition sum (l : list Q) : Q := fold_left Qplus l 0%Q.

Definition len {A} (l : list A) : Z := Z.of_nat (List.length l).

(** [str(z)] of an [int]. *)
Definition str_of_int (z : Z) : string := NilZero.string_of_int (Z.to_int z).

(** [int(s)] for a string of ASCII digits; [None] stands for ValueError. *)
Definition digit_of (c : ascii) : option Z :=
  let n := nat_of_ascii c in
  if ((48 <=? n) && (n <=? 57))%nat then Some (Z.of_nat (n - 48)) else None.

Fixpoint int_of_digits_aux (s : string) (acc : Z) : option Z :=
  match s with
  | EmptyString => Some acc
  | String c s' =>
      match digit_of c with
      | Some d => int_of_digits_aux s' (10 * acc + d)
      | None => None
      end
  end.

Definition int_of_digits (s : string) : option Z :=
  match s with
  | EmptyString => None
  | _ => int_of_digits_aux s 0
  end.

(** [float(s)] for digits with an optional fractional part, the shape the
    number patterns of the evaluators produce; [None] stands for
    ValueError. *)
Definition float_of_str (s : string) : option Q :=
  match index 0 "." s with
  | None =>
      match int_of_digits s with
      | Some z => Some (inject_Z z)
      | None => None
      end
  | Some i =>
      let ip := substring 0 i s in
      let fp := substring (S i) (String.length s - S i) s in
      match int_of_digits_aux ip 0, int_of_digits_aux fp 0 with
      | Some a, Some b =>
          if ((String.length ip =? 0) && (String.length fp =? 0))%nat then None
          else Some (inject_Z a + inject_Z b / inject_Z (10 ^ Z.of_nat (String.length fp)))%Q
      | _, _ => None
      end
  end.

(** *** Strings *)

(** [str.isspace] on one character, for code points below 256. *)
Definition isspace (c : ascii) : bool :=
  let n := nat_of_ascii c in
  (((9 <=? n) && (n <=? 13)) || ((28 <=? n) && (n <=? 32))
   || (n =? 133) || (n =? 160))%nat.

Fixpoint lstrip (s : string) : string :=
  match s with
  | EmptyString => EmptyString
  | String c s' => if isspace c then lstrip s' else s
  end.

Fixpoint rstrip (s : string) : string :=
  match s with
  | EmptyString => EmptyString
  | String c s' =>
      match rstrip s' with
      | EmptyString => if isspace c then EmptyString else String c EmptyString
      | r => String c r
      end
  end.

Definition strip (s : string) : string := rstrip (lstrip s).

(** Truth value of a string: non-empty. *)
Definition truthy (s : string) : bool :=
  match s with EmptyString => false | _ => true end.

(** [s.split(sep)] for a one-character separator: never the empty list. *)
Fixpoint split_on (sep : ascii) (s : string) : list string :=
  match s with
  | EmptyString => [EmptyString]
  | String c s' =>
      if Ascii.eqb c sep then EmptyString :: split_on sep s'
      else match split_on sep s' with
           | [] => [String c EmptyString]
           | w :: ws => String c w :: ws
           end
  end.

(** [s.split()]: the maximal runs of non-space characters. *)
Fixpoint split_ws_aux (s : string) (cur : string) : list string :=
  match s with
  | EmptyString => if truthy cur then [cur] else []
  | String c s' =>
      if isspace c
      then (if truthy cur then cur :: split_ws_aux s' EmptyString
            else split_ws_aux s' EmptyString)
      else split_ws_aux s' (cur ++ String c EmptyString)
  end.
Definition split_ws (s : string) : list string := split_ws_aux s EmptyString.

(** [sep.join(parts)]. *)
Fixpoint join (sep : string) (parts : list string) : string :=
  match parts with
  | [] => EmptyString
  | [p] => p
  | p :: ps => p ++ sep ++ join sep ps
  end.

Definition nl : string := String (ascii_of_nat 10) EmptyString.
Definition dquote : string := String (ascii_of_nat 34) EmptyString.
Definition nl_char : ascii := ascii_of_nat 10.

(** [str.lower] on one character, for code points below 256. *)
Definition lower_char (c : ascii) : ascii :=
  let n := nat_of_ascii c in
  if (((65 <=? n) && (n <=? 90))
      || ((192 <=? n) && (n <=? 222) && negb (n =? 215)))%nat
  then ascii_of_nat (n + 32) else c.

Fixpoint lower (s : string) : string :=
  match s with
  | EmptyString => EmptyString
  | String c s' => String (lower_char c) (lower s')
  end.

Fixpoint startswith (p s : string) : bool :=
  match p, s with
  | EmptyString, _ => true
  | String a p', String b s' => Ascii.eqb a b && startswith p' s'
  | _, EmptyString => false
  end.

(** [sub in s]. *)
Fixpoint contains (sub s : string) : bool :=
  startswith sub s ||
  match s with
  | EmptyString => false
  | String _ s' => contains sub s'
  end.

(** [c in s] for a one-character [c]. *)
Definition has_char (c : ascii) (s : string) : bool :=
  match index 0 (String c EmptyString) s with Some _ => true | None => false end.

(** [s.rindex(c)] when [c] occurs in [s]: the position of its last
    occurrence. *)
Fixpoint rindex_aux (c : ascii) (s : string) (i : Z) (last : Z) : Z :=
  match s with
  | EmptyString => last
  | String a s' => rindex_aux c s' (i + 1) (if Ascii.eqb a c then i else last)
  end.
Definition rindex (c : ascii) (s : string) : Z := rindex_aux c s 0 (-1).

(** [s[:n]]. *)
Definition take (n : nat) (s : string) : string := substring 0 n s.

Definition slen (s : string) : Z := Z.of_nat (String.length s).

(** [s.replace(old, new)] for a one-character [old]. *)
Fixpoint replace_char (old : ascii) (new : string) (s : string) : string :=
  match s with
  | EmptyString => EmptyString
  | String c s' =>
      if Ascii.eqb c old then new ++ replace_char old new s'
      else String c (replace_char old new s')
  end.

Fixpoint zfill (n : nat) (s : string) : string :=
  if (n <=? String.length s)%nat then s
  else match n with
       | O => s
       | S n' => String "0" (zfill n' s)
       end.

(** [format(x, ".nf")]: fixed-point text with [n] decimals. *)
Definition fmt_f (n : nat) (x : Q) : string :=
  let r := round (x * inject_Z (10 ^ Z.of_nat n)) in
  let a := Z.abs r in
  let sign := if r <? 0 then "-" else "" in
  let ip := str_of_int (a / 10 ^ Z.of_nat n) in
  let fp := zfill n (str_of_int (a mod 10 ^ Z.of_nat n)) in
  match n with
  | O => sign ++ ip
  | _ => sign ++ ip ++ "." ++ fp
  end.

(** *** Sets of strings, as duplicate-free lists *)

Definition set_of (l : list string) : list string := nodup string_dec l.
Definition inter (a b : list string) : list string :=
  filter (fun x => if in_dec string_dec x b then true else false) a.
Definition union (a b : list string) : list string :=
  nodup string_dec (a ++ b)%list.

(** *** Insertion-ordered dictionaries *)

Definition dict (V : Type) : Type := list (string * V).

Fixpoint get {V} (d : dict V) (k : string) : option V :=
  match d with
  | [] => None
  | (k', v) :: d' => if String.eqb k' k then Some v else get d' k
  end.

Definition mem {V} (k : string) (d : dict V) : bool :=
  match get d k with Some _ => true | None => false end.

(** [d[k] = v]: overwrite in place, or append a new key at the end. *)
Fixpoint set {V} (d : dict V) (k : string) (v : V) : dict V :=
  match d with
  | [] => [(k, v)]
  | (k', v') :: d' =>
      if String.eqb k' k then (k', v) :: d' else (k', v') :: set d' k v
  end.

Definition keys {V} (d : dict V) : list string := map fst d.
Definition values {V} (d : dict V) : list V := map snd d.

End Py.

(** ** The regular-expression engine (Python's [re], a parameter) *)

Inductive re_flag : Type := IGNORECASE | DOTALL.

Record ReEngine : Type := {
  (** [Some msg] when compiling the pattern raises [re.error(msg)], [None]
      when the call goes through. Exceptions of other classes (an
      [OverflowError] on a huge repeat count, a [RecursionError] on deep
      nesting) are not modelled. *)
  re_error : string -> option string;
  (** [re.search]: the groups of the first match, group 0 first. *)
  re_search : string -> list re_flag -> string -> option (list string);
  (** [re.match]: the same, anchored at the start of the text. *)
  re_match : string -> list re_flag -> string -> option (list string);
  (** [re.findall] for a pattern with at most one group. *)
  re_findall : string -> list re_flag -> string -> list string;
  (** [re.findall] for a pattern with two groups: one pair per match. *)
  re_findall2 : string -> list re_flag -> string -> list (string * string)
}.

(** ** Providers and the outside world *)

Record ProviderResponse : Type := {
  text : string;
  model : string;
  elapsed_seconds : Q;
  input_tokens : Z;
  output_tokens : Z;
  error : option string
}.

(** One message of a conversation: the Python dict with the keys [role],
    [content], [elapsed], [model] and [error]; [None] is an absent key or
    the value [None]. *)
Record Message : Type := {
  msg_role : option string;
  msg_content : option string;
  msg_elapsed : option Q;
  msg_model : option string;
  msg_error : option string
}.

Record QueryArgs : Type := {
  q_prompt : string;
  q_system : option string;
  q_max_tokens : Z;
  q_temperature : Q
}.

(** What a call leaves behind: a value, or a raised exception with its
    message. *)
Inductive outcome (A : Type) : Type :=
| Returned (a : A)
| Raised (e : string).
Arguments Returned {A} a.
Arguments Raised {A} e.

Inductive Event : Type :=
| EvQuery (pid : string) (args : QueryArgs)
| EvQueryMulti (pid : string) (prompts : list string).

(** The outside world: how many provider calls were made, and which. *)
Record World : Type := {
  tick : nat;
  log : list Event
}.

(** A provider is known by its identifier, its display name and what its
    remote model answers; the answer may differ from call to call, so it is
    indexed by the tick of the world. [answer_multi] is [Some] for a provider
    class that overrides [query_multi_round]. *)
Record BaseProvider : Type := {
  provider_id : string;
  display_name : string;
  answer : nat -> QueryArgs -> outcome ProviderResponse;
  answer_multi : option (nat -> list string -> outcome (list Message))
}.

(** Computations that call providers and may raise. *)
Definition M (A : Type) : Type := World -> outcome A * World.

Definition ret {A} (a : A) : M A := fun w => (Returned a, w).
Definition raise {A} (e : string) : M A := fun w => (Raised e, w).
Definition bind {A B} (m : M A) (k : A -> M B) : M B :=
  fun w => match m w with
           | (Returned a, w') => k a w'
           | (Raised e, w') => (Raised e, w')
           end.
(** [try: m  except Exception as e: h e]. *)
Definition try_except {A} (m : M A) (h : string -> M A) : M A :=
  fun w => match m w with
           | (Returned a, w') => (Returned a, w')
           | (Raised e, w') => h e w'
           end.
Definition lift {A} (o : outcome A) : M A := fun w => (o, w).

Declare Scope m_scope.
Delimit Scope m_scope with M.
Notation "x <- m ;; k" := (bind m (fun x => k))
  (at level 61, m at next level, right associativity) : m_scope.
Notation "' p <- m ;; k" := (bind m (fun x => match x with p => k end))
  (at level 61, p pattern, m at next level, right associativity) : m_scope.

Definition perform (ev : Event) {A} (f : nat -> outcome A) : M A :=
  fun w => (f (tick w), {| tick := S (tick w); log := (log w ++ [ev])%list |}).

Module Provider.

(** [provider.query(prompt, system, max_tokens, temperature)]. *)
Definition query (p : BaseProvider) (args : QueryArgs) : M ProviderResponse :=
  perform (EvQuery (provider_id p) args)
          (fun t => answer p t args).

Definition default_args (prompt : string) : QueryArgs :=
  {| q_prompt := prompt; q_system := None;
     q_max_tokens := 2048; q_temperature := 3 # 10 |}.

Definition user_message (prompt : string) : Message :=
  {| msg_role := Some "user"; msg_content := Some prompt;
     msg_elapsed := None; msg_model := None; msg_error := None |}.

Definition assistant_message (r : ProviderResponse) : Message :=
  {| msg_role := Some "assistant"; msg_content := Some (text r);
     msg_elapsed := Some (elapsed_seconds r); msg_model := Some (model r);
     msg_error := error r |}.

Definition _build_conversation_prompt (conversation : list Message) : string :=
  Py.join (Py.nl ++ Py.nl)
    (flat_map
       (fun msg =>
          let role := match msg_role msg with Some r => r | None => "" end in
          let content := match msg_content msg with Some c => c | None => "" end in
          if String.eqb role "user" then ["User: " ++ content]
          else if String.eqb role "assistant" then ["Assistant: " ++ content]
          else [])
       conversation).

(** The loop of [BaseProvider.query_multi_round], threading the
    conversation built so far. *)
Fixpoint multi_round_loop (p : BaseProvider) (prompts : list string)
         (conversation : list Message) : M (list Message) :=
  match prompts with
  | [] => ret conversation
  | prompt_text :: rest =>
      let conversation := (conversation ++ [user_message prompt_text])%list in
      let full_prompt := _build_conversation_prompt conversation in
      (response <- query p (default_args full_prompt) ;;
       multi_round_loop p rest
         (conversation ++ [assistant_message response])%list)%M
  end.

Definition query_multi_round (p : BaseProvider) (prompts : list string)
  : M (list Message) :=
  match answer_multi p with
  | Some f => perform (EvQueryMulti (provider_id p) prompts)
                      (fun t => f t prompts)
  | None => multi_round_loop p prompts []
  end.

End Provider.

(** ** Layer 3: the judge, with rotation and tiebreak ([llm_judge.py]) *)

Module Judge.

Definition JUDGE_ROTATION : Py.dict string :=
  [("claude", "gpt"); ("gpt", "claude"); ("gemini", "claude");
   ("atic_on", "gpt"); ("atic_off", "gpt")].

Definition JUDGE_FALLBACK : Py.dict string :=
  [("claude", "gemini"); ("gpt", "gemini"); ("gemini", "gpt");
   ("atic_on", "claude"); ("atic_off", "claude")].

Definition TIEBREAK_JUDGE : Py.dict string :=
  [("claude", "gemini"); ("gpt", "gemini"); ("gemini", "gpt");
   ("atic_on", "gemini"); ("atic_off", "gemini")].

(** [JUDGE_PROMPT_TEMPLATE.format(...)]. *)
Definition JUDGE_PROMPT_TEMPLATE
           (test_name category prompts responses rubric : string) : string :=
  Py.join Py.nl
    ["You are an expert evaluator assessing an AI model's response quality.";
     "";
     "## Task Description";
     "Test: " ++ test_name;
     "Category: " ++ category;
     "";
     "## User Prompt(s)";
     prompts;
     "";
     "## Model Response(s)";
     responses;
     "";
     "## Evaluation Rubric";
     rubric;
     "";
     "IMPORTANT: Score 0-3 ONLY. Output EXACTLY in this format (nothing else):";
     "SCORE: N";
     "REASON: Your explanation here (1-2 sentences)"].

Record JudgeResult : Type := {
  score_raw : Z;
  normalized : Q;
  reason : string;
  judge_model : string;
  judge_provider_id : string;
  tiebreak_used : bool;
  tiebreak_details : string
}.

Record JudgeAudit : Type := {
  primary_judge : string;
  primary_score : Z;
  primary_reason : string;
  tiebreak_judge : option string;
  tiebreak_score : option Z;
  tiebreak_reason : option string;
  final_source : string
}.

(** [JudgeAudit(primary_judge=..., primary_score=..., primary_reason=...)],
    the other fields at their defaults. *)
Definition mkAudit (judge : string) (score : Z) (why : string) : JudgeAudit :=
  {| primary_judge := judge; primary_score := score; primary_reason := why;
     tiebreak_judge := None; tiebreak_score := None; tiebreak_reason := None;
     final_source := "primary" |}.

(** [t.get(provider_id)] followed by the test
    [x and x in available and x != provider_id and ...]. *)
Definition table_pick (table : Py.dict string) (provider_id : string)
           (available : Py.dict BaseProvider) (excluded : list string)
  : option string :=
  match Py.get table provider_id with
  | Some j =>
      if Py.truthy j && Py.mem j available
         && forallb (fun x => negb (String.eqb j x)) excluded
      then Some j else None
  | None => None
  end.

(** [for pid in available: if pid != a and pid != b ...: return pid]. *)
Fixpoint first_other (pids : list string) (excluded : list string)
  : option string :=
  match pids with
  | [] => None
  | pid :: rest =>
      if forallb (fun x => negb (String.eqb pid x)) excluded
      then Some pid else first_other rest excluded
  end.

Definition _select_judge (provider_id : string)
           (available : Py.dict BaseProvider) : option string :=
  match table_pick JUDGE_ROTATION provider_id available [provider_id] with
  | Some primary => Some primary
  | None =>
      match table_pick JUDGE_FALLBACK provider_id available [provider_id] with
      | Some fallback => Some fallback
      | None => first_other (Py.keys available) [provider_id]
      end
  end.

Definition _select_tiebreak_judge (provider_id primary_judge_id : string)
           (available : Py.dict BaseProvider) : option string :=
  match table_pick TIEBREAK_JUDGE provider_id available
                   [primary_judge_id; provider_id] with
  | Some tb => Some tb
  | None => first_other (Py.keys available) [provider_id; primary_judge_id]
  end.

Definition _needs_tiebreak (judge_score : Z) (structural_norm reference_norm : Q)
  : bool :=
  let judge_norm := (inject_Z judge_score / 3)%Q in
  let layer_avg := ((structural_norm + reference_norm) / 2)%Q in
  let divergence := Qabs (judge_norm - layer_avg) in
  Py.qltb (1 # 2) divergence.

Definition _fallback_result : JudgeResult :=
  {| score_raw := 0; normalized := 0; reason := "No judge available";
     judge_model := "none"; judge_provider_id := "none";
     tiebreak_used := false; tiebreak_details := "" |}.

Definition _format_prompts (prompts : list string) : string :=
  match prompts with
  | [p] => p
  | _ =>
      Py.join Py.nl
        (map (fun ip => "Round " ++ Py.str_of_int (Z.of_nat (fst ip)) ++ ": " ++ snd ip)
             (combine (seq 1 (List.length prompts)) prompts))
  end.

Fixpoint format_responses_loop (rounds : list Message) (round_num : Z)
  : list string :=
  match rounds with
  | [] => []
  | msg :: rest =>
      match msg_role msg with
      | Some "assistant" =>
          let round_num := round_num + 1 in
          let content := match msg_content msg with Some c => c | None => "" end in
          let content :=
            if 2000 <? Py.slen content
            then Py.take 2000 content ++ Py.nl ++ "[... truncated]"
            else content in
          ("Response " ++ Py.str_of_int round_num ++ ":" ++ Py.nl ++ content)
            :: format_responses_loop rest round_num
      | _ => format_responses_loop rest round_num
      end
  end.

Definition _format_responses (rounds : list Message) : string :=
  Py.join (Py.nl ++ Py.nl) (format_responses_loop rounds 0).

Section WithRe.

Variable re : ReEngine.

(** [m.group(1)]; a match without that group raises IndexError. *)
Definition group1 (groups : list string) : outcome string :=
  match nth_error groups 1 with
  | Some g => Returned g
  | None => Raised "no such group"
  end.

Definition int_of (s : string) : outcome Z :=
  match Py.int_of_digits s with
  | Some z => Returned z
  | None => Raised ("invalid literal for int() with base 10: '" ++ s ++ "'")
  end.

Definition _parse_judge_response (text : string) : outcome (Z * string) :=
  let score_match := re_search re "SCORE:\s*(\d)" [] text in
  let reason_match := re_search re "REASON:\s*(.+)" [DOTALL] text in
  let score1 : outcome Z :=
    match score_match with
    | Some groups =>
        match group1 groups with
        | Returned g =>
            match int_of g with
            | Returned raw => Returned (Z.max 0 (Z.min 3 raw))
            | Raised e => Raised e
            end
        | Raised e => Raised e
        end
    | None => Returned 0
    end in
  match score1 with
  | Raised e => Raised e
  | Returned score =>
      let reason1 : outcome string :=
        match reason_match with
        | Some groups =>
            match group1 groups with
            | Returned g => Returned (Py.take 200 (Py.strip g))
            | Raised e => Raised e
            end
        | None => Returned ""
        end in
      match reason1 with
      | Raised e => Raised e
      | Returned reason =>
          match score_match with
          | Some _ => Returned (score, reason)
          | None =>
              let nums := re_findall re "\b([0-3])\b" [] text in
              let reason := "(parse fallback) " ++ Py.take 150 text in
              match nums with
              | n0 :: _ =>
                  match int_of n0 with
                  | Returned s => Returned (s, reason)
                  | Raised e => Raised e
                  end
              | [] => Returned (score, reason)
              end
          end
      end
  end.

Definition judge_args (prompt : string) : QueryArgs :=
  {| q_prompt := prompt;
     q_system := Some "You are an expert AI evaluator. Be objective and fair.";
     q_max_tokens := 200; q_temperature := 1 # 10 |}.

Definition _call_judge (provider : BaseProvider) (prompt : string)
  : M (Z * string) :=
  try_except
    (response <- Provider.query provider (judge_args prompt) ;;
     match error response with
     | Some e =>
         if Py.truthy e then ret (0, "Judge error: " ++ e)
         else lift (_parse_judge_response (text response))
     | None => lift (_parse_judge_response (text response))
     end)%M
    (fun e => ret (0, "Judge exception: " ++ e)).

(** [available_providers[k]]; KeyError when the key is missing. *)
Definition lookup (available : Py.dict BaseProvider) (k : string)
  : M BaseProvider :=
  match Py.get available k with
  | Some p => ret p
  | None => raise ("KeyError: " ++ k)
  end.

Definition evaluate_judge
           (test_name category : string) (prompts : list string)
           (rounds : list Message) (rubric : string)
           (evaluated_provider_id : string)
           (available_providers : Py.dict BaseProvider)
           (structural_normalized reference_normalized : Q)
           (enable_tiebreak : bool) : M (JudgeResult * JudgeAudit) :=
  let no_judge :=
    ret (_fallback_result, mkAudit "none" 0 "No judge available") in
  match _select_judge evaluated_provider_id available_providers with
  | None => no_judge
  | Some judge_id =>
    if negb (Py.truthy judge_id) then no_judge else
    (judge_provider <- lookup available_providers judge_id ;;
     let prompt_text := _format_prompts prompts in
     let response_text := _format_responses rounds in
     let judge_prompt :=
       JUDGE_PROMPT_TEMPLATE test_name category prompt_text response_text rubric in
     ' (primary_score, primary_reason) <- _call_judge judge_provider judge_prompt ;;
     let audit := mkAudit judge_id primary_score primary_reason in
     let without_tiebreak :=
       ret ({| score_raw := primary_score;
               normalized := inject_Z primary_score / 3;
               reason := primary_reason;
               judge_model := display_name judge_provider;
               judge_provider_id := judge_id;
               tiebreak_used := false;
               tiebreak_details := "" |}, audit) in
     if enable_tiebreak
        && _needs_tiebreak primary_score structural_normalized reference_normalized
     then
       match _select_tiebreak_judge evaluated_provider_id judge_id
                                    available_providers with
       | None => without_tiebreak
       | Some tiebreak_id =>
         if negb (Py.truthy tiebreak_id) then without_tiebreak else
         (tiebreak_provider <- lookup available_providers tiebreak_id ;;
          ' (tb_score, tb_reason) <- _call_judge tiebreak_provider judge_prompt ;;
          let layer_avg :=
            ((structural_normalized + reference_normalized) / 2)%Q in
          let layer_score_equiv := Py.round (layer_avg * 3) in
          let '(final_score, source) :=
            if Z.abs (tb_score - primary_score) <=? 1
            then (primary_score, "primary (tiebreak confirmed)")
            else if Z.abs (tb_score - layer_score_equiv) <=? 1
            then (Py.round (inject_Z (primary_score + tb_score) / 2),
                  "average (tiebreak sided with layers)")
            else (Py.round (inject_Z (primary_score + tb_score) / 2),
                  "average (no consensus)") in
          let audit :=
            {| primary_judge := judge_id;
               primary_score := primary_score;
               primary_reason := primary_reason;
               tiebreak_judge := Some tiebreak_id;
               tiebreak_score := Some tb_score;
               tiebreak_reason := Some tb_reason;
               final_source := source |} in
          ret ({| score_raw := final_score;
                  normalized := inject_Z final_score / 3;
                  reason := primary_reason;
                  judge_model := display_name judge_provider;
                  judge_provider_id := judge_id;
                  tiebreak_used := true;
                  tiebreak_details :=
                    "TB judge=" ++ tiebreak_id ++ ", score="
                                ++ Py.str_of_int tb_score |}, audit))
       end
     else without_tiebreak)%M
  end.

End WithRe.

End Judge.

(** ** Test definitions ([test_defs.py]) *)

Record StructuralCheck : Type := {
  check_id : string;
  description : string;
  check_type : string;
  pattern : string;
  threshold : Q;
  threshold_max : Q;
  weight : Q;
  target_round : Z
}.

Record TestDef : Type := {
  test_id : string;
  name : string;
  category : string;
  difficulty : string;
  language : string;
  prompts : list string;
  structural_checks : list StructuralCheck;
  ground_truth : option string;
  reference_keywords : list string;
  reference_anti_keywords : list string;
  reference_numeric_ranges : Py.dict (Q * Q);
  judge_rubric : string;
  anti_hallucination : bool;
  domain : string;
  tags : list string
}.

(** ** Layer 1: structural checks ([structural.py]) *)

Module Structural.

Record CheckResult : Type := {
  r_check_id : string;
  r_description : string;
  passed : bool;
  score : Q;
  detail : string
}.

Record StructuralScore : Type := {
  normalized : Q;
  details : list CheckResult;
  total_weight : Q;
  weighted_score : Q
}.

Definition mkResult (check : StructuralCheck) (p : bool) (s : Q) (d : string)
  : CheckResult :=
  {| r_check_id := check_id check; r_description := description check;
     passed := p; score := s; detail := d |}.

Definition _extract_assistant_texts (rounds : list Message) : list string :=
  flat_map
    (fun msg =>
       match msg_role msg with
       | Some "assistant" =>
           [match msg_content msg with Some c => c | None => "" end]
       | _ => []
       end)
    rounds.

Definition _get_target_text (check : StructuralCheck)
           (assistant_texts : list string) (all_text : string) : string :=
  if target_round check =? -1 then all_text
  else
    let idx := target_round check in
    if (0 <=? idx) && (idx <? Py.len assistant_texts)
    then nth (Z.to_nat idx) assistant_texts all_text
    else all_text.

Definition _check_min_lines (check : StructuralCheck) (text : string)
  : CheckResult :=
  let lines :=
    filter (fun l => Py.truthy (Py.strip l))
           (Py.split_on Py.nl_char (Py.strip text)) in
  let count := Py.len lines in
  let required := Py.int (threshold check) in
  let score :=
    if required <=? count then 1%Q
    else if Py.qleb (inject_Z required * (6 # 10)) (inject_Z count) then (1 # 2)%Q
    else 0%Q in
  mkResult check (required <=? count) score
           (Py.str_of_int count ++ " linhas (minimo: "
              ++ Py.str_of_int required ++ ")").

Section WithRe.

Variable re : ReEngine.

Definition _check_regex_present (check : StructuralCheck) (text : string)
  : CheckResult :=
  match re_error re (pattern check) with
  | Some e => mkResult check false 0 ("Regex invalido: " ++ e)
  | None =>
      let found :=
        match re_search re (pattern check) [IGNORECASE; DOTALL] text with
        | Some _ => true
        | None => false
        end in
      mkResult check found (if found then 1 else 0)
               ("Pattern " ++ (if found then "encontrado" else "nao encontrado")
                  ++ ": " ++ Py.take 60 (pattern check))
  end.

Definition _check_regex_absent (check : StructuralCheck) (text : string)
  : CheckResult :=
  match re_error re (pattern check) with
  | Some e => mkResult check false 0 ("Regex invalido: " ++ e)
  | None =>
      let found :=
        match re_search re (pattern check) [IGNORECASE; DOTALL] text with
        | Some _ => true
        | None => false
        end in
      mkResult check (negb found) (if negb found then 1 else 0)
               ("Pattern "
                  ++ (if negb found then "ausente (bom)" else "presente (ruim)")
                  ++ ": " ++ Py.take 60 (pattern check))
  end.

Definition item_patterns : list string :=
  ["^\s*[-*]\s+"; "^\s*\d+[.)]\s+"; "^\s*[a-zA-Z][.)]\s+"; "^\|.*\|"].

Definition _check_min_items (check : StructuralCheck) (text : string)
  : CheckResult :=
  let combined := Py.join "|" item_patterns in
  let lines := Py.split_on Py.nl_char (Py.strip text) in
  let items :=
    Py.len (filter (fun l => match re_match re combined [] l with
                             | Some _ => true
                             | None => false
                             end) lines) in
  let required := Py.int (threshold check) in
  let score :=
    if required <=? items then 1%Q
    else if Py.qleb (inject_Z required * (6 # 10)) (inject_Z items) then (1 # 2)%Q
    else 0%Q in
  mkResult check (required <=? items) score
           (Py.str_of_int items ++ " itens de lista (minimo: "
              ++ Py.str_of_int required ++ ")").

Definition _check_numeric_in_range (check : StructuralCheck) (text : string)
  : CheckResult :=
  let numbers := re_findall re "[\d]+(?:[.,]\d+)?" [] text in
  let parsed :=
    flat_map (fun n =>
                let cleaned := Py.replace_char "," "." n in
                match Py.float_of_str cleaned with
                | Some x => [x]
                | None => []
                end) numbers in
  let low := threshold check in
  let high :=
    if Py.qltb 0 (threshold_max check) then threshold_max check
    else (threshold check * (11 # 10))%Q in
  let found_in_range :=
    existsb (fun n => Py.qleb low n && Py.qleb n high) parsed in
  mkResult check found_in_range (if found_in_range then 1 else 0)
           ("Range [" ++ Py.fmt_f 2 low ++ ", " ++ Py.fmt_f 2 high
              ++ "], numeros encontrados: " ++ Py.str_of_int (Py.len parsed)).

Definition word_set (text : string) : list string :=
  Py.set_of
    (map Py.lower
         (filter (fun w => 3 <? Py.slen w) (re_findall re "\b\w+\b" [] text))).

(** One similarity per pair of consecutive rounds. *)
Fixpoint similarities (word_sets : list (list string)) : list Q :=
  match word_sets with
  | a :: ((b :: _) as rest) =>
      let intersection := Py.inter a b in
      let union := Py.union a b in
      (match union with
       | [] => 0%Q
       | _ => (inject_Z (Py.len intersection) / inject_Z (Py.len union))%Q
       end) :: similarities rest
  | _ => []
  end.

Definition _check_multi_round_consistency (check : StructuralCheck)
           (assistant_texts : list string) : CheckResult :=
  if Py.len assistant_texts <? 2
  then mkResult check true 1 "Apenas 1 round, consistencia nao aplicavel"
  else
    let word_sets := map word_set assistant_texts in
    let sims := similarities word_sets in
    let avg_sim :=
      match sims with
      | [] => 0%Q
      | _ => (Py.sum sims / inject_Z (Py.len sims))%Q
      end in
    let threshold :=
      if Py.qltb 0 (threshold check) then threshold check else (15 # 100)%Q in
    let score :=
      if Py.qleb threshold avg_sim then 1%Q
      else if Py.qleb (threshold * (5 # 10)) avg_sim then (1 # 2)%Q
      else 0%Q in
    mkResult check (Py.qleb threshold avg_sim) score
             ("Jaccard medio: " ++ Py.fmt_f 3 avg_sim ++ " (threshold: "
                ++ Py.fmt_f 3 threshold ++ ")").

Definition _check_word_count_range (check : StructuralCheck) (text : string)
  : CheckResult :=
  let words := Py.split_ws text in
  let count := Py.len words in
  let min_words := Py.int (threshold check) in
  let max_words :=
    if Py.qltb 0 (threshold_max check) then Py.int (threshold_max check)
    else 9999 in
  let in_range := (min_words <=? count) && (count <=? max_words) in
  let score :=
    if in_range then 1%Q
    else if (count <? min_words)
            && Py.qleb (inject_Z min_words * (6 # 10)) (inject_Z count)
    then (1 # 2)%Q
    else if (max_words <? count)
            && Py.qleb (inject_Z count) (inject_Z max_words * (14 # 10))
    then (1 # 2)%Q
    else 0%Q in
  mkResult check in_range score
           (Py.str_of_int count ++ " palavras (range: "
              ++ Py.str_of_int min_words ++ "-" ++ Py.str_of_int max_words ++ ")").

(** An entry of the dispatch table: the handler, which reads either the
    target text or (for [multi_round_consistency]) all assistant texts. *)
Inductive evaluator : Type :=
| OnText (f : StructuralCheck -> string -> CheckResult)
| OnTexts (f : StructuralCheck -> list string -> CheckResult).

Definition evaluators : Py.dict evaluator :=
  [("regex_present", OnText _check_regex_present);
   ("regex_absent", OnText _check_regex_absent);
   ("min_lines", OnText _check_min_lines);
   ("min_items", OnText _check_min_items);
   ("numeric_in_range", OnText _check_numeric_in_range);
   ("multi_round_consistency", OnTexts _check_multi_round_consistency);
   ("word_count_range", OnText _check_word_count_range)].

Definition _evaluate_single_check (check : StructuralCheck)
           (assistant_texts : list string) (all_text : string) : CheckResult :=
  let target := _get_target_text check assistant_texts all_text in
  match Py.get evaluators (check_type check) with
  | None =>
      mkResult check false 0 ("Tipo desconhecido: " ++ check_type check)
  | Some (OnTexts f) => f check assistant_texts
  | Some (OnText f) => f check target
  end.

Definition evaluate_structural (checks : list StructuralCheck)
           (rounds : list Message) : StructuralScore :=
  match checks with
  | [] => {| normalized := 1; details := [];
             total_weight := 0; weighted_score := 0 |}
  | _ =>
      let assistant_texts := _extract_assistant_texts rounds in
      let all_text := Py.join Py.nl assistant_texts in
      let '(results, total_weight, weighted_score) :=
        fold_left
          (fun acc check =>
             let '(results, total_weight, weighted_score) := acc in
             let result := _evaluate_single_check check assistant_texts all_text in
             ((results ++ [result])%list,
              (total_weight + weight check)%Q,
              (weighted_score + score result * weight check)%Q))
          checks ([], 0%Q, 0%Q) in
      let normalized :=
        if Py.qltb 0 total_weight then (weighted_score / total_weight)%Q
        else 0%Q in
      let normalized := Py.max 0 (Py.min 1 normalized) in
      {| normalized := normalized; details := results;
         total_weight := total_weight; weighted_score := weighted_score |}
  end.

End WithRe.

End Structural.

(** ** Layer 2: reference checks ([reference.py]) *)

Module Reference.

Definition FAKE_CITATION_PATTERNS : list string :=
  ["doi:\s*10\.\d{4,}/[a-z]{2,}\.\d{4}\.\d{6,}";
   "https?://(?:www\.)?(?:journal|research|science)\w+\.(?:com|org)/\w{8,}";
   "(?<!\w)[A-Z][a-z]+\s+et\s+al\.\s*\(\d{4}\)(?!\s*[,;.]?\s*[\"
     ++ Py.dquote ++ "'])";
   "pp?\.\s*\d{4,}-\d{4,}";
   "arXiv:\d{4}\.\d{6,}"].

Record ReferenceScore : Type := {
  normalized : Q;
  sub_scores : Py.dict Q;
  hallucination_flags : list string
}.

Definition _extract_full_response (rounds : list Message) : string :=
  Py.join Py.nl
    (flat_map
       (fun msg =>
          match msg_role msg with
          | Some "assistant" =>
              [match msg_content msg with Some c => c | None => "" end]
          | _ => []
          end)
       rounds).

Definition _keyword_coverage (text : string) (keywords : list string) : Q :=
  match keywords with
  | [] => 1
  | _ =>
      let text_lower := Py.lower text in
      let found :=
        Py.len (filter (fun kw => Py.contains (Py.lower kw) text_lower) keywords) in
      (inject_Z found / inject_Z (Py.len keywords))%Q
  end.

Definition multipliers : Py.dict Q :=
  [("bilh", inject_Z (10 ^ 9)); ("billion", inject_Z (10 ^ 9));
   ("trilh", inject_Z (10 ^ 12)); ("trillion", inject_Z (10 ^ 12));
   ("milh", inject_Z (10 ^ 6)); ("million", inject_Z (10 ^ 6));
   ("mil", inject_Z (10 ^ 3)); ("thousand", inject_Z (10 ^ 3))].

(** [for key, mult in multipliers.items(): if s.startswith(key[:4]): ...;
    break]. *)
Fixpoint apply_multiplier (table : Py.dict Q) (suffix_lower : string) (value : Q)
  : Q :=
  match table with
  | [] => value
  | (key, mult) :: rest =>
      if Py.startswith (Py.take 4 key) suffix_lower then (value * mult)%Q
      else apply_multiplier rest suffix_lower value
  end.

(** The separator clean-up of [_extract_numbers] for one matched text. *)
Definition clean_number (num_str : string) : string :=
  let cleaned := Py.replace_char " " "" num_str in
  if Py.has_char "," cleaned && Py.has_char "." cleaned then
    if Py.rindex "." cleaned <? Py.rindex "," cleaned
    then Py.replace_char "," "." (Py.replace_char "." "" cleaned)
    else Py.replace_char "," "" cleaned
  else if Py.has_char "," cleaned then
    let parts := Py.split_on "," cleaned in
    if (Py.slen (last parts "") =? 3) && (1 <? Py.len parts)
    then Py.replace_char "," "" cleaned
    else Py.replace_char "," "." cleaned
  else if Py.has_char "." cleaned then
    let parts := Py.split_on "." cleaned in
    if forallb (fun p => Py.slen p =? 3) (tl parts) && (2 <? Py.len parts)
    then Py.replace_char "." "" cleaned
    else cleaned
  else cleaned.

Section WithRe.

Variable re : ReEngine.

Definition _anti_keyword_absence (text : string) (anti_keywords : list string)
  : Q :=
  match anti_keywords with
  | [] => 1
  | _ =>
      let text_lower := Py.lower text in
      let violations :=
        Py.len
          (filter
             (fun pattern =>
                match re_error re pattern with
                | None =>
                    match re_search re pattern [IGNORECASE] text_lower with
                    | Some _ => true
                    | None => false
                    end
                | Some _ => Py.contains (Py.lower pattern) text_lower
                end)
             anti_keywords) in
      let penalty := (inject_Z violations / inject_Z (Py.len anti_keywords))%Q in
      Py.max 0 (1 - penalty)
  end.

Definition _extract_numbers (text : string) : list Q :=
  let raw_matches :=
    re_findall2 re
      "(\d[\d.,]*\d|\d+)\s*(?:(bilh|trilh|milh|billion|trillion|million|thousand|mil))?"
      [IGNORECASE] text in
  flat_map
    (fun m =>
       let '(num_str, suffix) := m in
       match Py.float_of_str (clean_number num_str) with
       | None => []
       | Some value =>
           let suffix_lower :=
             if Py.truthy suffix then Py.take 4 (Py.lower suffix) else "" in
           [apply_multiplier multipliers suffix_lower value]
       end)
    raw_matches.

Definition _numeric_accuracy (text : string) (ranges : Py.dict (Q * Q)) : Q :=
  match ranges with
  | [] => 1
  | _ =>
      let numbers := _extract_numbers text in
      let satisfied :=
        Py.len
          (filter
             (fun item =>
                let '(_, (low, high)) := item in
                existsb (fun n => Py.qleb low n && Py.qleb n high) numbers)
             ranges) in
      (inject_Z satisfied / inject_Z (Py.len ranges))%Q
  end.

Fixpoint windows3 (s : string) : list string :=
  match s with
  | String a ((String b (String c _)) as s') =>
      String a (String b (String c EmptyString)) :: windows3 s'
  | _ => []
  end.

Definition _get_trigrams (text : string) : list string :=
  let words := re_findall re "\w+" [] text in
  let joined := Py.join " " words in
  Py.set_of (windows3 joined).

Definition _text_similarity (response ground_truth : string) : Q :=
  let resp_trigrams := _get_trigrams (Py.lower response) in
  let truth_trigrams := _get_trigrams (Py.lower ground_truth) in
  match resp_trigrams, truth_trigrams with
  | [], _ | _, [] => 0
  | _, _ =>
      let intersection := Py.inter resp_trigrams truth_trigrams in
      let union := Py.union resp_trigrams truth_trigrams in
      match union with
      | [] => 0
      | _ => (inject_Z (Py.len intersection) / inject_Z (Py.len union))%Q
      end
  end.

Definition _anti_hallucination_check (text : string) : Q * list string :=
  let flags :=
    flat_map
      (fun pattern =>
         map (fun m => "Citacao suspeita: " ++ Py.take 80 m)
             (re_findall re pattern [IGNORECASE] text))
      FAKE_CITATION_PATTERNS in
  match flags with
  | [] => (1%Q, [])
  | _ =>
      let penalty := Py.min (inject_Z (Py.len flags) * (15 # 100)) 1 in
      (Py.max 0 (1 - penalty), flags)
  end.

Definition evaluate_reference (test : TestDef) (rounds : list Message)
  : ReferenceScore :=
  let full_text := _extract_full_response rounds in
  if negb (Py.truthy (Py.strip full_text))
  then {| normalized := 0; sub_scores := []; hallucination_flags := [] |}
  else
    let sub_scores : Py.dict Q := [] in
    let active_scores := 0 in
    let '(sub_scores, active_scores) :=
      match reference_keywords test with
      | [] => (sub_scores, active_scores)
      | kws => (Py.set sub_scores "keyword_coverage"
                       (_keyword_coverage full_text kws),
                active_scores + 1)
      end in
    let '(sub_scores, active_scores) :=
      match reference_anti_keywords test with
      | [] => (sub_scores, active_scores)
      | aks => (Py.set sub_scores "anti_keyword_absence"
                       (_anti_keyword_absence full_text aks),
                active_scores + 1)
      end in
    let '(sub_scores, active_scores) :=
      match reference_numeric_ranges test with
      | [] => (sub_scores, active_scores)
      | rs => (Py.set sub_scores "numeric_accuracy"
                      (_numeric_accuracy full_text rs),
               active_scores + 1)
      end in
    let '(sub_scores, active_scores) :=
      match ground_truth test with
      | Some (String _ _ as gt) =>
          (Py.set sub_scores "text_similarity" (_text_similarity full_text gt),
           active_scores + 1)
      | _ => (sub_scores, active_scores)
      end in
    let '(sub_scores, active_scores, hallucination_flags) :=
      if anti_hallucination test
      then let '(hal_score, flags) := _anti_hallucination_check full_text in
           (Py.set sub_scores "anti_hallucination" hal_score,
            active_scores + 1, flags)
      else (sub_scores, active_scores, []) in
    let normalized :=
      if 0 <? active_scores
      then (Py.sum (Py.values sub_scores) / inject_Z active_scores)%Q
      else 1%Q in
    let normalized := Py.max 0 (Py.min 1 normalized) in
    {| normalized := normalized; sub_scores := sub_scores;
       hallucination_flags := hallucination_flags |}.

End WithRe.

End Reference.

(** ** The orchestrator ([__main__.py]) *)

(** What a result dictionary may hold. *)
#[warnings="-register-all"] Inductive Value : Type :=
| VNone
| VBool (b : bool)
| VInt (z : Z)
| VFloat (q : Q)
| VStr (s : string)
| VStrs (l : list string)
| VRounds (rounds : list Message)
| VScores (d : Py.dict Q)
| VList (l : list Value)
| VDict (d : list (string * Value)).

Module Orchestrator.

Definition opt_str (o : option string) : Value :=
  match o with Some s => VStr s | None => VNone end.
Definition opt_int (o : option Z) : Value :=
  match o with Some z => VInt z | None => VNone end.

(** [msg.get("error")] is truthy on an assistant message. *)
Definition carries_error (msg : Message) : bool :=
  match msg_role msg, msg_error msg with
  | Some "assistant", Some e => Py.truthy e
  | _, _ => false
  end.

(** [result.get(key, default)] where the stored value is a [str]. *)
Definition get_str (result : Py.dict Value) (key default : string) : string :=
  match Py.get result key with
  | Some (VStr s) => s
  | Some _ => ""
  | None => default
  end.

Definition get_or (result : Py.dict Value) (key : string) (default : Value)
  : Value :=
  match Py.get result key with
  | Some v => v
  | None => default
  end.

(** [result[key]]; KeyError when the key is missing. *)
Definition item (result : Py.dict Value) (key : string) : M Value :=
  match Py.get result key with
  | Some v => ret v
  | None => raise ("KeyError: " ++ key)
  end.

Definition now : M nat := fun w => (Returned (tick w), w).

Fixpoint foldM {A S} (f : S -> A -> M S) (l : list A) (s : S) : M S :=
  match l with
  | [] => ret s
  | x :: l' => (s' <- f s x ;; foldM f l' s')%M
  end.

Section Run.

Variable re : ReEngine.
(** The clocks, read at a tick of the world: [datetime.now().isoformat()]
    and [time.perf_counter()]. *)
Variable now_iso : nat -> string.
Variable perf_counter : nat -> Q.

(** The execution block of [run_single_evaluation]: one call for a
    single prompt, a multi-round exchange otherwise. *)
Definition execute (test : TestDef) (provider : BaseProvider)
  : M (list Message) :=
  if 1 <? Py.len (prompts test)
  then Provider.query_multi_round provider (prompts test)
  else
    match prompts test with
    | [] => raise "IndexError: list index out of range"
    | p0 :: _ =>
        (response <- Provider.query provider (Provider.default_args p0) ;;
         ret [Provider.user_message p0; Provider.assistant_message response])%M
    end.

Definition detail_dict (d : Structural.CheckResult) : Value :=
  VDict [("id", VStr (Structural.r_check_id d));
         ("passed", VBool (Structural.passed d));
         ("score", VFloat (Structural.score d));
         ("detail", VStr (Structural.detail d))].

Definition run_single_evaluation (test : TestDef) (provider : BaseProvider)
           (available_providers : Py.dict BaseProvider)
           (enable_tiebreak : bool) : M (Py.dict Value) :=
  (t0 <- now ;;
   let result : Py.dict Value :=
     [("test_id", VStr (test_id test));
      ("model", VStr (provider_id provider));
      ("timestamp", VStr (now_iso t0))] in
   let start := perf_counter t0 in
   rounds <- execute test provider ;;
   t1 <- now ;;
   let exec_time := (perf_counter t1 - start)%Q in
   let result := Py.set result "rounds" (VRounds rounds) in
   let result := Py.set result "exec_seconds" (VFloat (Py.round_nd exec_time 2)) in
   let has_error := existsb carries_error rounds in
   if has_error then
     let result := Py.set result "error" (VBool true) in
     let result := Py.set result "structural_score" (VFloat 0) in
     let result := Py.set result "reference_score" (VFloat 0) in
     let result := Py.set result "judge_score" (VFloat 0) in
     let result := Py.set result "final_score" (VFloat 0) in
     ret result
   else
     let structural :=
       Structural.evaluate_structural re (structural_checks test) rounds in
     let result :=
       Py.set result "structural_score" (VFloat (Structural.normalized structural)) in
     let result :=
       Py.set result "structural_details"
              (VList (map detail_dict (Structural.details structural))) in
     let reference := Reference.evaluate_reference re test rounds in
     let result :=
       Py.set result "reference_score" (VFloat (Reference.normalized reference)) in
     let result :=
       Py.set result "reference_sub_scores" (VScores (Reference.sub_scores reference)) in
     let result :=
       Py.set result "hallucination_flags"
              (VStrs (Reference.hallucination_flags reference)) in
     ' (judge_result, judge_audit) <-
       Judge.evaluate_judge re (name test) (category test) (prompts test) rounds
         (judge_rubric test) (provider_id provider) available_providers
         (Structural.normalized structural) (Reference.normalized reference)
         enable_tiebreak ;;
     let result := Py.set result "judge_score" (VFloat (Judge.normalized judge_result)) in
     let result := Py.set result "judge_raw" (VInt (Judge.score_raw judge_result)) in
     let result := Py.set result "judge_reason" (VStr (Judge.reason judge_result)) in
     let result :=
       Py.set result "judge_provider" (VStr (Judge.judge_provider_id judge_result)) in
     let result :=
       Py.set result "tiebreak_used" (VBool (Judge.tiebreak_used judge_result)) in
     let result :=
       Py.set result "judge_audit"
         (VDict [("primary_judge", VStr (Judge.primary_judge judge_audit));
                 ("primary_score", VInt (Judge.primary_score judge_audit));
                 ("tiebreak_judge", opt_str (Judge.tiebreak_judge judge_audit));
                 ("tiebreak_score", opt_int (Judge.tiebreak_score judge_audit));
                 ("final_source", VStr (Judge.final_source judge_audit))]) in
     let final :=
       ((Structural.normalized structural * 1
         + Reference.normalized reference * 1
         + Judge.normalized judge_result * 2) / 4)%Q in
     let result := Py.set result "final_score" (VFloat (Py.round_nd final 4)) in
     ret result)%M.

(** The three accumulators of the main loop. *)
Record LoopState : Type := {
  all_evaluations : list (Py.dict Value);
  score_matrix : Py.dict (Py.dict (list Value));
  judge_pairs : Py.dict (list (Value * Value));
  run_count : Z
}.

Definition initial : LoopState :=
  {| all_evaluations := []; score_matrix := [];
     judge_pairs := []; run_count := 0 |}.

(** The body of the innermost loop, for one (seed, test, provider). *)
Definition loop_body (providers : Py.dict BaseProvider) (enable_tiebreak : bool)
           (seed : Z) (test_id : string) (test : TestDef)
           (st : LoopState) (entry : string * BaseProvider) : M LoopState :=
  let '(provider_id, provider) := entry in
  let run_count := run_count st + 1 in
  (result <- run_single_evaluation test provider providers enable_tiebreak ;;
   let result := Py.set result "seed" (VInt seed) in
   let all_evaluations := (all_evaluations st ++ [result])%list in
   let score_matrix :=
     if Py.mem provider_id (score_matrix st) then score_matrix st
     else Py.set (score_matrix st) provider_id [] in
   let row := match Py.get score_matrix provider_id with
              | Some r => r | None => [] end in
   let row := if Py.mem test_id row then row else Py.set row test_id [] in
   final_score <- item result "final_score" ;;
   let cell := match Py.get row test_id with Some c => c | None => [] end in
   let row := Py.set row test_id (cell ++ [final_score])%list in
   let score_matrix := Py.set score_matrix provider_id row in
   let judge_id := get_str result "judge_provider" "" in
   let judge_pairs :=
     if Py.truthy judge_id && negb (String.eqb judge_id provider_id) then
       let pair_key := provider_id ++ "_vs_" ++ judge_id in
       let judge_pairs :=
         if Py.mem pair_key (judge_pairs st) then judge_pairs st
         else Py.set (judge_pairs st) pair_key [] in
       let pairs := match Py.get judge_pairs pair_key with
                    | Some ps => ps | None => [] end in
       Py.set judge_pairs pair_key
              (pairs ++ [(get_or result "judge_raw" (VInt 0),
                          get_or result "judge_raw" (VInt 0))])%list
     else judge_pairs st in
   ret {| all_evaluations := all_evaluations; score_matrix := score_matrix;
          judge_pairs := judge_pairs; run_count := run_count |})%M.

(** Step 4 of [main]: seeds, then tests, then providers. *)
Definition main_loop (seeds : Z) (tests : Py.dict TestDef)
           (providers : Py.dict BaseProvider) (enable_tiebreak : bool)
  : M LoopState :=
  foldM
    (fun st seed =>
       foldM
         (fun st (t : string * TestDef) =>
            foldM (loop_body providers enable_tiebreak seed (fst t) (snd t))
                  providers st)
         tests st)
    (map Z.of_nat (seq 0 (Z.to_nat seeds))) initial.

End Run.

End Orchestrator.

(** ** Statistics ([statistics.py]) *)

Module Statistics.

Definition T_TABLE : list (Z * Q) :=
  [(1, 12706 # 1000); (2, 4303 # 1000); (3, 3182 # 1000); (4, 2776 # 1000);
   (5, 2571 # 1000); (6, 2447 # 1000); (7, 2365 # 1000); (8, 2306 # 1000);
   (9, 2262 # 1000); (10, 2228 # 1000); (15, 2131 # 1000); (20, 2086 # 1000);
   (25, 2060 # 1000); (30, 2042 # 1000); (50, 2009 # 1000); (100, 1984 # 1000)].

Definition Z_95 : Q := 196 # 100.

Fixpoint table_get (t : list (Z * Q)) (k : Z) : option Q :=
  match t with
  | [] => None
  | (k', v) :: t' => if k' =? k then Some v else table_get t' k
  end.

(** The interpolation loop over consecutive (sorted) table entries. *)
Fixpoint interpolate (t : list (Z * Q)) (df : Z) : option Q :=
  match t with
  | (k1, t1) :: (((k2, t2) :: _) as rest) =>
      if (k1 <=? df) && (df <? k2)
      then let frac := (inject_Z (df - k1) / inject_Z (k2 - k1))%Q in
           Some (t1 + frac * (t2 - t1))%Q
      else interpolate rest df
  | _ => None
  end.

Definition _get_t_critical (df : Z) : Q :=
  match table_get T_TABLE df with
  | Some t => t
  | None =>
      match interpolate T_TABLE df with
      | Some t => t
      | None => Z_95
      end
  end.

Section WithSqrt.

(** [math.sqrt], from the standard library of Python. *)
Variable sqrt : Q -> Q.

Definition mean_and_std (values : list Q) : Q * Q :=
  match values with
  | [] => (0, 0)%Q
  | _ =>
      let n := Py.len values in
      let mean := (Py.sum values / inject_Z n)%Q in
      if n <? 2 then (mean, 0%Q)
      else
        let variance :=
          (Py.sum (map (fun x => (x - mean) ^ 2) values) / inject_Z (n - 1))%Q in
        let std := sqrt variance in
        (Py.round_nd mean 4, Py.round_nd std 4)
  end.

Definition confidence_interval_95 (values : list Q) : Q * Q * Q :=
  match values with
  | [] => (0, 0, 0)%Q
  | _ =>
      let n := Py.len values in
      let '(mean, std) := mean_and_std values in
      if (n <? 2) || Py.qeqb std 0 then (mean, mean, mean)
      else
        let df := n - 1 in
        let t_crit := _get_t_critical df in
        let margin := (t_crit * (std / sqrt (inject_Z n)))%Q in
        (Py.round_nd mean 4, Py.round_nd (mean - margin) 4,
         Py.round_nd (mean + margin) 4)
  end.

End WithSqrt.

End Statistics.

(** ** The resolution rule as the specification words it *)

Module Spec.

(** Case 1: the tiebreak is within one point of the primary score.
    Case 2: it is within one point of the layer average on the 0-3 scale.
    Case 3: no consensus. *)
Definition resolution (primary_score tiebreak_score : Z)
           (structural_normalized reference_normalized : Q) : Z * string :=
  let layer_equivalent :=
    Py.round ((structural_normalized + reference_normalized) / 2 * 3) in
  let average := Py.round (inject_Z (primary_score + tiebreak_score) / 2) in
  if Z.abs (tiebreak_score - primary_score) <=? 1
  then (primary_score, "primary (tiebreak confirmed)")
  else if Z.abs (tiebreak_score - layer_equivalent) <=? 1
  then (average, "average (tiebreak sided with layers)")
  else (average, "average (no consensus)").



(** A line is blank when it holds white space only. *)
Fixpoint has_nonspace (l : string) : bool :=
  match l with
  | EmptyString => false
  | String c l' => negb (Py.isspace c) || has_nonspace l'
  end.

(** The number of non-blank lines of a text, its lines being what the
    newline character separates. *)
Definition non_blank_lines (text : string) : Z :=
  Py.len (filter has_nonspace (Py.split_on Py.nl_char text)).

(** Of a text: whether its first line is non-blank, and how many of its
    other lines are. *)
Definition profile (t : string) : bool * nat :=
  (has_nonspace (hd "" (Py.split_on Py.nl_char t)),
   List.length (filter has_nonspace (tl (Py.split_on Py.nl_char t)))).

Definition count_of (pr : bool * nat) : nat :=
  ((if fst pr then 1 else 0) + snd pr)%nat.

(** The scores recorded so far for one (provider, test) cell. *)
Definition cell (score_matrix : Py.dict (Py.dict (list Value)))
           (provider_id test_id : string) : list Value :=
  match Py.get score_matrix provider_id with
  | Some row => match Py.get row test_id with Some c => c | None => [] end
  | None => []
  end.


(** Every stored pair holds the same value twice. *)
Definition pairs_equal (judge_pairs : Py.dict (list (Value * Value))) : Prop :=
  Forall (fun entry => Forall (fun ab => fst ab = snd ab) (snd entry)) judge_pairs.

(** None of the five reference sub-checks applies to the test. *)
Definition no_reference_checks (test : TestDef) : Prop :=
  reference_keywords test = []
  /\ reference_anti_keywords test = []
  /\ reference_numeric_ranges test = []
  /\ (ground_truth test = None \/ ground_truth test = Some "")
  /\ anti_hallucination test = false.

End Spec.

(** ** Concrete providers and a small engine, for running the model *)

Module Sample.

(** The first place in [text] where [key] is followed, after optional
    white space, by a character accepted by [ok]: the rest of the text from
    that character on. *)
Fixpoint after (key : string) (ok : ascii -> bool) (text : string)
  : option string :=
  let here :=
    if Py.startswith key text
    then match Py.lstrip (substring (String.length key)
                                    (String.length text - String.length key) text) with
         | String c rest => if ok c then Some (String c rest) else None
         | EmptyString => None
         end
    else None in
  match here with
  | Some r => Some r
  | None =>
      match text with
      | EmptyString => None
      | String _ text' => after key ok text'
      end
  end.

Definition is_digit (c : ascii) : bool :=
  match Py.digit_of c with Some _ => true | None => false end.

(** An engine that knows the two patterns of the judge reply and finds
    nothing for any other pattern. *)
Definition engine : ReEngine :=
  {| re_error := fun _ => None;
     re_search := fun pat _ text =>
       if String.eqb pat "SCORE:\s*(\d)" then
         match after "SCORE:" is_digit text with
         | Some (String d _) => Some ["SCORE:" ++ String d ""; String d ""]
         | _ => None
         end
       else if String.eqb pat "REASON:\s*(.+)" then
         match after "REASON:" (fun _ => true) text with
         | Some r => Some ["REASON:" ++ r; r]
         | None => None
         end
       else None;
     re_match := fun _ _ _ => None;
     re_findall := fun _ _ _ => [];
     re_findall2 := fun _ _ _ => [] |}.

Definition reply (t : string) : ProviderResponse :=
  {| text := t; model := "m"; elapsed_seconds := 0;
     input_tokens := 0; output_tokens := 0; error := None |}.


(** A provider that always gives the same answer. *)
Definition constant (pid : string) (r : ProviderResponse) : BaseProvider :=
  {| provider_id := pid; display_name := pid;
     answer := fun _ _ => Returned r; answer_multi := None |}.

Definition claude : BaseProvider :=
  constant "claude" (reply ("line one" ++ Py.nl ++ "line two")).
Definition gpt_scores_0 : BaseProvider :=
  constant "gpt" (reply ("SCORE: 0" ++ Py.nl ++ "REASON: wrong")).
Definition gemini_scores_3 : BaseProvider :=
  constant "gemini" (reply ("SCORE: 3" ++ Py.nl ++ "REASON: fine")).

Definition three : Py.dict BaseProvider :=
  [("claude", claude); ("gpt", gpt_scores_0); ("gemini", gemini_scores_3)].
Definition alone : Py.dict BaseProvider := [("claude", claude)].

Definition w0 : World := {| tick := 0; log := [] |}.

Definition now_iso (t : nat) : string := "2025-01-01T00:00:00".
Definition perf_counter (t : nat) : Q := inject_Z (Z.of_nat t).

Definition assistant (t : string) : Message :=
  {| msg_role := Some "assistant"; msg_content := Some t;
     msg_elapsed := None; msg_model := None; msg_error := None |}.

(** A test with one prompt and nothing to check. *)
Definition bare_test : TestDef :=
  {| test_id := "T-01"; name := "bare"; category := "demo";
     difficulty := "easy"; language := "en";
     prompts := ["Say something."]; structural_checks := [];
     ground_truth := None; reference_keywords := [];
     reference_anti_keywords := []; reference_numeric_ranges := [];
     judge_rubric := "Score 0-3."; anti_hallucination := false;
     domain := "general"; tags := [] |}.

Definition min_lines_5 : StructuralCheck :=
  {| check_id := "c1"; description := "at least five lines";
     check_type := "min_lines"; pattern := ""; threshold := 5;
     threshold_max := 0; weight := 1; target_round := -1 |}.

(** Three lines of text around a blank one, with white space at both
    ends. *)
Definition three_lines : string :=
  Py.nl ++ "  alpha" ++ Py.nl ++ "   " ++ Py.nl ++ "beta" ++ Py.nl
        ++ "gamma  " ++ Py.nl ++ " ".


(** An integer square root to eight decimals, standing in for
    [math.sqrt]. *)
Definition sqrt (x : Q) : Q :=
  (inject_Z (Z.sqrt (Qnum x * 10 ^ 16 / Zpos (Qden x))) / inject_Z (10 ^ 8))%Q.

End Sample.

(** ** The three ways a judge evaluation can go

    [path w out w'] describes a run of [evaluate_judge] from world [w]: no
    judge at all, the primary judge alone, or the primary judge followed by
    the tiebreak judge. *)

Module JudgeRun.

Section Paths.

Variable re : ReEngine.
Variables test_name category : string.
Variable prompts : list string.
Variable rounds : list Message.
Variable rubric : string.
Variable p : string.
Variable A : Py.dict BaseProvider.
Variables s r : Q.
Variable enable : bool.

Definition judge_prompt : string :=
  Judge.JUDGE_PROMPT_TEMPLATE test_name category
    (Judge._format_prompts prompts) (Judge._format_responses rounds) rubric.

(** The world once [prov] has been asked to judge. *)
Definition asked (prov : BaseProvider) (w : World) : World :=
  {| tick := S (tick w);
     log := (log w ++ [EvQuery (provider_id prov)
                               (Judge.judge_args judge_prompt)])%list |}.

Definition primary_result (j : string) (pj : BaseProvider) (ps : Z) (pr : string)
  : Judge.JudgeResult :=
  {| Judge.score_raw := ps;
     Judge.normalized := inject_Z ps / 3;
     Judge.reason := pr;
     Judge.judge_model := display_name pj;
     Judge.judge_provider_id := j;
     Judge.tiebreak_used := false;
     Judge.tiebreak_details := "" |}.

Definition tiebreak_result (j : string) (pj : BaseProvider) (pr : string)
           (t : string) (ts final : Z) : Judge.JudgeResult :=
  {| Judge.score_raw := final;
     Judge.normalized := inject_Z final / 3;
     Judge.reason := pr;
     Judge.judge_model := display_name pj;
     Judge.judge_provider_id := j;
     Judge.tiebreak_used := true;
     Judge.tiebreak_details :=
       "TB judge=" ++ t ++ ", score=" ++ Py.str_of_int ts |}.

Definition tiebreak_audit (j : string) (ps : Z) (pr : string)
           (t : string) (ts : Z) (tr : string) (source : string)
  : Judge.JudgeAudit :=
  {| Judge.primary_judge := j;
     Judge.primary_score := ps;
     Judge.primary_reason := pr;
     Judge.tiebreak_judge := Some t;
     Judge.tiebreak_score := Some ts;
     Judge.tiebreak_reason := Some tr;
     Judge.final_source := source |}.

Inductive path : World -> Judge.JudgeResult * Judge.JudgeAudit -> World -> Prop :=
| NoJudge w :
    Judge._select_judge p A = None \/ Judge._select_judge p A = Some "" ->
    path w (Judge._fallback_result,
            Judge.mkAudit "none" 0 "No judge available") w
| PrimaryOnly w j pj ps pr :
    Judge._select_judge p A = Some j -> j <> "" ->
    Py.get A j = Some pj ->
    Judge._call_judge re pj judge_prompt w = (Returned (ps, pr), asked pj w) ->
    enable = false \/ Judge._needs_tiebreak ps s r = false
    \/ Judge._select_tiebreak_judge p j A = None
    \/ Judge._select_tiebreak_judge p j A = Some "" ->
    path w (primary_result j pj ps pr, Judge.mkAudit j ps pr) (asked pj w)
| WithTiebreak w j pj ps pr t pt ts tr :
    Judge._select_judge p A = Some j -> j <> "" ->
    Py.get A j = Some pj ->
    Judge._call_judge re pj judge_prompt w = (Returned (ps, pr), asked pj w) ->
    enable = true -> Judge._needs_tiebreak ps s r = true ->
    Judge._select_tiebreak_judge p j A = Some t -> t <> "" ->
    Py.get A t = Some pt ->
    Judge._call_judge re pt judge_prompt (asked pj w)
    = (Returned (ts, tr), asked pt (asked pj w)) ->
    path w (tiebreak_result j pj pr t ts (fst (Spec.resolution ps ts s r)),
            tiebreak_audit j ps pr t ts tr (snd (Spec.resolution ps ts s r)))
         (asked pt (asked pj w)).

End Paths.

End JudgeRun.

(** ** Agreement, correlation and stability ([statistics.py]) *)

Module Agreement.

(** [l[i] = v] for an index inside the list. *)
Fixpoint list_set {A} (l : list A) (i : nat) (v : A) : list A :=
  match l, i with
  | [], _ => []
  | _ :: l', O => v :: l'
  | x :: l', S i' => x :: list_set l' i' v
  end.

(** [[[0] * k for _ in range(k)]]. *)
Definition zeros (k : Z) : list (list Z) :=
  repeat (repeat 0 (Z.to_nat k)) (Z.to_nat k).

(** [max(0, min(a, k - 1))]. *)
Definition clamp_index (a k : Z) : Z := Z.max 0 (Z.min a (k - 1)).

(** [matrix[a][b] += 1]; [None] stands for IndexError. *)
Definition bump (matrix : list (list Z)) (a b : Z) : option (list (list Z)) :=
  match nth_error matrix (Z.to_nat a) with
  | None => None
  | Some row =>
      match nth_error row (Z.to_nat b) with
      | None => None
      | Some v =>
          Some (list_set matrix (Z.to_nat a) (list_set row (Z.to_nat b) (v + 1)))
      end
  end.

(** The confusion matrix of the zipped ratings. *)
Fixpoint confusion (pairs : list (Z * Z)) (k : Z) (matrix : list (list Z))
  : option (list (list Z)) :=
  match pairs with
  | [] => Some matrix
  | (a, b) :: rest =>
      match bump matrix (clamp_index a k) (clamp_index b k) with
      | Some matrix' => confusion rest k matrix'
      | None => None
      end
  end.

Definition zsum (l : list Z) : Z := fold_left Z.add l 0.

(** [matrix[i][j]] for indices inside the matrix. *)
Definition matrix_at (matrix : list (list Z)) (i j : nat) : Z :=
  nth j (nth i matrix []) 0.

Definition cohens_kappa (ratings_a ratings_b : list Z) (num_categories : Z)
  : outcome Q :=
  if negb (Py.len ratings_a =? Py.len ratings_b)
     || match ratings_a with [] => true | _ => false end
  then Returned 0%Q
  else
    let n := Py.len ratings_a in
    match confusion (combine ratings_a ratings_b) num_categories
                    (zeros num_categories) with
    | None => Raised "IndexError: list index out of range"
    | Some matrix =>
        let range_k := seq 0 (Z.to_nat num_categories) in
        let p_observed :=
          (inject_Z (zsum (map (fun i => matrix_at matrix i i) range_k)) / inject_Z n)%Q in
        let p_expected :=
          fold_left
            (fun acc i =>
               let row_sum := zsum (nth i matrix []) in
               let col_sum := zsum (map (fun j => matrix_at matrix j i) range_k) in
               (acc + inject_Z (row_sum * col_sum) / inject_Z (n * n))%Q)
            range_k 0%Q in
        if Py.qeqb p_expected 1
        then Returned (if Py.qeqb p_observed 1 then 1%Q else 0%Q)
        else
          let kappa := ((p_observed - p_expected) / (1 - p_expected))%Q in
          Returned (Py.round_nd kappa 4)
    end.

Section WithSqrt.

Variable sqrt : Q -> Q.

Definition pearson_correlation (x y : list Q) : Q :=
  if negb (Py.len x =? Py.len y) || (Py.len x <? 2) then 0%Q
  else
    let n := Py.len x in
    let mean_x := (Py.sum x / inject_Z n)%Q in
    let mean_y := (Py.sum y / inject_Z n)%Q in
    let cov :=
      Py.sum (map (fun xy => ((fst xy - mean_x) * (snd xy - mean_y))%Q)
                  (combine x y)) in
    let std_x := sqrt (Py.sum (map (fun xi => ((xi - mean_x) ^ 2)%Q) x)) in
    let std_y := sqrt (Py.sum (map (fun yi => ((yi - mean_y) ^ 2)%Q) y)) in
    if Py.qeqb std_x 0 || Py.qeqb std_y 0 then 0%Q
    else Py.round_nd (cov / (std_x * std_y)) 4.

Definition stability_score (values : list Q) : Q * bool :=
  let '(mean, std) := Statistics.mean_and_std sqrt values in
  if Py.qeqb mean 0 then (0%Q, true)
  else
    let stability := (1 - std / Qabs mean)%Q in
    let stability := Py.max 0 (Py.min 1 stability) in
    let is_unstable := Py.qltb (3 # 10) std in
    (Py.round_nd stability 4, is_unstable).

End WithSqrt.

End Agreement.

(** ** The test registry ([test_defs.py]) *)

Module Registry.

(** [_TEST_REGISTRY], passed explicitly. *)
Definition registry : Type := Py.dict TestDef.

Definition register_test (reg : registry) (test : TestDef) : outcome registry :=
  if Py.mem (test_id test) reg
  then Raised ("Teste duplicado: " ++ test_id test)
  else Returned (Py.set reg (test_id test) test).

(** The loop of [register_tests]: what is registered before a failure stays
    registered, so the registry reached is returned with the outcome. *)
Fixpoint register_tests (reg : registry) (tests : list TestDef)
  : outcome unit * registry :=
  match tests with
  | [] => (Returned tt, reg)
  | t :: rest =>
      match register_test reg t with
      | Returned reg' => register_tests reg' rest
      | Raised e => (Raised e, reg)
      end
  end.

Definition get_test (reg : registry) (test_id : string) : outcome TestDef :=
  match Py.get reg test_id with
  | Some t => Returned t
  | None => Raised ("KeyError: " ++ test_id)
  end.

Definition get_all_tests (reg : registry) : Py.dict TestDef := reg.

Definition get_tests_by_category (reg : registry) (cat : string) : list TestDef :=
  filter (fun t => String.eqb (category t) cat) (Py.values reg).

End Registry.

(** ** Test selection of the command line ([__main__.py]) *)

Module Main.

(** [categories] is [None] when the flag is absent. *)
Definition filter_tests (all_tests : Py.dict TestDef)
           (categories : option (list string)) : Py.dict TestDef :=
  match categories with
  | None | Some [] => all_tests
  | Some cats =>
      let categories_lower := map Py.lower cats in
      filter (fun entry =>
                existsb (String.eqb (Py.lower (category (snd entry))))
                        categories_lower)
             all_tests
  end.

End Main.

(** ** Vocabulary for the properties *)

Module Facts.

Definition is_assistant (msg : Message) : bool :=
  match msg_role msg with
  | Some "assistant" => true
  | _ => false
  end.

Definition content_of (msg : Message) : string :=
  match msg_content msg with Some c => c | None => "" end.

(** The labels a judge audit may carry. *)
Definition labels : list string :=
  ["primary"; "primary (tiebreak confirmed)";
   "average (tiebreak sided with layers)"; "average (no consensus)"].

(** An engine whose answers to the fallback pattern of the judge parser all
    are one digit between 0 and 3, as the pattern requires. *)
Definition digits_0_to_3 (re : ReEngine) : Prop :=
  forall text n,
    In n (re_findall re "\b([0-3])\b" [] text) ->
    In n ["0"; "1"; "2"; "3"].

(** The diagonal matrix with the given entries. *)
Definition diag (d : list Z) : list (list Z) :=
  map (fun i => Agreement.list_set (repeat 0 (List.length d)) i (nth i d 0))
      (seq 0 (List.length d)).

(** The score-matrix cell lengths a completed run must show. *)
Definition every_cell_has (n : nat) (score_matrix : Py.dict (Py.dict (list Value)))
           (providers : list string) (tests : list string) : Prop :=
  forall pid tid, In pid providers -> In tid tests ->
                  List.length (Spec.cell score_matrix pid tid) = n.

(** The value stored is a float between 0 and 1. *)
Definition unit_score (v : Value) : Prop :=
  match v with
  | VFloat q => (0 <= q <= 1)%Q
  | _ => False
  end.

(** The sub-scores of the reference layer that apply to a test, in the
    order the layer computes them. *)
Definition reference_entries (re : ReEngine) (test : TestDef) (text : string)
  : Py.dict Q :=
  ((match reference_keywords test with
    | [] => []
    | kws => [("keyword_coverage", Reference._keyword_coverage text kws)]
    end)
   ++ (match reference_anti_keywords test with
       | [] => []
       | aks => [("anti_keyword_absence", Reference._anti_keyword_absence re text aks)]
       end)
   ++ (match reference_numeric_ranges test with
       | [] => []
       | rs => [("numeric_accuracy", Reference._numeric_accuracy re text rs)]
       end)
   ++ (match ground_truth test with
       | Some (String _ _ as gt) =>
           [("text_similarity", Reference._text_similarity re text gt)]
       | _ => []
       end)
   ++ (if anti_hallucination test
       then [("anti_hallucination",
              fst (Reference._anti_hallucination_check re text))]
       else []))%list.

(** The conversation of prompts answered one by one. *)
Definition exchange (prompts : list string) (replies : list ProviderResponse)
  : list Message :=
  flat_map (fun pr => [Provider.user_message (fst pr);
                       Provider.assistant_message (snd pr)])
           (combine prompts replies).

(** The event of the query that follows the user message at position
    [2 * i] of a conversation: the whole conversation up to that message is
    sent. *)
Definition query_event (pid : string) (conversation : list Message) (skip i : nat)
  : Event :=
  EvQuery pid (Provider.default_args
                 (Provider._build_conversation_prompt
                    (firstn (skip + 2 * i + 1) conversation))).

(** A test as an entry of the registry. *)
Definition entry_of (t : TestDef) : string * TestDef := (test_id t, t).

(** A consistency threshold whose half is still a positive double: not
    positive (the default replaces it), or at least 1e-300. *)
Definition ordinary_threshold (t : Q) : Prop :=
  (t <= 0 \/ Qmake 1 (10 ^ 300) <= t)%Q.

End Facts.

(** ** More sample data *)

Module Sample2.

(** A check that passes on one line but carries no weight. *)
Definition weightless : StructuralCheck :=
  {| check_id := "c0"; description := "at least one line";
     check_type := "min_lines"; pattern := ""; threshold := 1;
     threshold_max := 0; weight := 0; target_round := -1 |}.

(** An engine whose [findall] answers every pattern with the
    white-space-separated words of the text. *)
Definition words : ReEngine :=
  {| re_error := fun _ => None;
     re_search := fun _ _ _ => None;
     re_match := fun _ _ _ => None;
     re_findall := fun _ _ text => Py.split_ws text;
     re_findall2 := fun _ _ _ => [] |}.

(** A provider whose client raises on every call. *)
Definition crashing : BaseProvider :=
  {| provider_id := "claude"; display_name := "claude";
     answer := fun _ _ => Raised "ConnectionError: no route to host";
     answer_multi := None |}.

(** Four values whose squared deviations from the mean add up to 9. *)
Definition square_wave : list Q := [0; 3; 3; 0]%Q.





(** A line check whose threshold is not a whole number. *)
Definition min_lines_2_9 : StructuralCheck :=
  {| check_id := "c2"; description := "about three lines";
     check_type := "min_lines"; pattern := ""; threshold := 29 # 10;
     threshold_max := 0; weight := 1; target_round := -1 |}.

Definition two_lines : string := "alpha" ++ Py.nl ++ "beta".

End Sample2.

(** * Properties *)

Unset Implicit Arguments.

(** ** Dictionaries and monadic runs *)

Lemma mem_keys {V} (d : Py.dict V) (k : string) :
  Py.mem k d = true -> In k (Py.keys d).
Proof.
  unfold Py.mem. induction d as [|[k' v] d IH]; simpl; [discriminate|].
  destruct (String.eqb_spec k' k); auto.
Qed.

Lemma get_of_key {V} (d : Py.dict V) (k : string) :
  In k (Py.keys d) -> exists v, Py.get d k = Some v.
Proof.
  induction d as [|[k' v] d IH]; simpl; [tauto|].
  intros [-> | H].
  - rewrite String.eqb_refl. eauto.
  - destruct (String.eqb k' k); eauto.
Qed.

Lemma none_excluded (j : string) (excluded : list string) :
  forallb (fun x => negb (String.eqb j x)) excluded = true ->
  Forall (fun x => j <> x) excluded.
Proof.
  rewrite forallb_forall, Forall_forall. intros H x Hx Heq.
  specialize (H x Hx). subst. rewrite String.eqb_refl in H. discriminate.
Qed.

(** ** Judge selection *)

Section Selection.

Variable available : Py.dict BaseProvider.

Lemma table_pick_sound table pid excluded j :
  Judge.table_pick table pid available excluded = Some j ->
  j <> "" /\ In j (Py.keys available) /\ Forall (fun x => j <> x) excluded.
Proof.
  unfold Judge.table_pick.
  destruct (Py.get table pid) as [c|]; [|discriminate].
  destruct (Py.truthy c) eqn:Ht; simpl; [|discriminate].
  destruct (Py.mem c available) eqn:Hm; simpl; [|discriminate].
  destruct (forallb _ excluded) eqn:Hf; [|discriminate].
  intros [= <-]. repeat split.
  - intros ->. discriminate.
  - now apply mem_keys.
  - now apply none_excluded.
Qed.

Lemma first_other_sound pids excluded j :
  Judge.first_other pids excluded = Some j ->
  In j pids /\ Forall (fun x => j <> x) excluded.
Proof.
  induction pids as [|pid rest IH]; simpl; [discriminate|].
  destruct (forallb _ excluded) eqn:Hf.
  - intros [= <-]. split; [now left | now apply none_excluded].
  - intros H. destruct (IH H). auto.
Qed.

Lemma first_other_none pids excluded :
  (forall k, In k pids -> In k excluded) ->
  Judge.first_other pids excluded = None.
Proof.
  induction pids as [|pid rest IH]; simpl; intros H; [reflexivity|].
  destruct (forallb _ excluded) eqn:Hf.
  - rewrite forallb_forall in Hf.
    specialize (Hf pid (H pid (or_introl eq_refl))).
    rewrite String.eqb_refl in Hf. discriminate.
  - apply IH. auto.
Qed.

Lemma _select_judge_sound pid j :
  Judge._select_judge pid available = Some j ->
  In j (Py.keys available) /\ j <> pid.
Proof.
  unfold Judge._select_judge.
  destruct (Judge.table_pick Judge.JUDGE_ROTATION _ _ _) eqn:H1.
  { intros [= <-]. apply table_pick_sound in H1 as (_ & Hin & Hex).
    inversion Hex; auto. }
  destruct (Judge.table_pick Judge.JUDGE_FALLBACK _ _ _) eqn:H2.
  { intros [= <-]. apply table_pick_sound in H2 as (_ & Hin & Hex).
    inversion Hex; auto. }
  intros H. apply first_other_sound in H as [Hin Hex].
  inversion Hex; auto.
Qed.

Lemma _select_judge_none pid :
  (forall k, In k (Py.keys available) -> k = pid) ->
  Judge._select_judge pid available = None.
Proof.
  intros Honly.
  destruct (Judge._select_judge pid available) as [j|] eqn:H; [|reflexivity].
  apply _select_judge_sound in H as [Hin Hne].
  elim Hne. auto.
Qed.

End Selection.

(** C1. Judge selection never returns the evaluated provider itself; when
    no identifier other than the evaluated one is available (one provider
    only, or none), no judge is selected and [evaluate_judge] returns, without
    raising and without calling any provider, the degraded result: raw score
    0, normalized score 0.0, reason "No judge available", and an audit whose
    primary judge is "none". *)
Theorem judge_never_self_and_fails_closed :
  (forall (p : string) (A : Py.dict BaseProvider) (j : string),
      Judge._select_judge p A = Some j -> j <> p)
  /\
  (forall (re : ReEngine) (test_name category : string) (prompts : list string)
          (rounds : list Message) (rubric : string)
          (p : string) (A : Py.dict BaseProvider) (s r : Q) (tb : bool) (w : World),
      (forall k, In k (Py.keys A) -> k = p) ->
      Judge._select_judge p A = None
      /\ exists res audit,
          Judge.evaluate_judge re test_name category prompts rounds rubric
                               p A s r tb w = (Returned (res, audit), w)
          /\ Judge.score_raw res = 0
          /\ Judge.normalized res = 0%Q
          /\ Judge.reason res = "No judge available"
          /\ Judge.primary_judge audit = "none"
          /\ Judge.primary_score audit = 0
          /\ Judge.primary_reason audit = "No judge available").
Proof.
  split.
  - intros p A j H. now apply _select_judge_sound in H.
  - intros re test_name category prompts rounds rubric p A s r tb w Honly.
    pose proof (_select_judge_none A p Honly) as Hnone.
    split; [exact Hnone|].
    unfold Judge.evaluate_judge. rewrite Hnone.
    eexists _, _. split; [reflexivity|]. cbn. repeat split.
Qed.

Lemma judge_never_self_and_fails_closed_witness :
  (Judge._select_judge "claude" Sample.three = Some "gpt" /\ "gpt" <> "claude")
  /\ (forall k, In k (Py.keys Sample.alone) -> k = "claude")
  /\ Judge._select_judge "claude" Sample.alone = None.
Proof.
  assert (Honly : forall k, In k (Py.keys Sample.alone) -> k = "claude").
  { simpl. intros k [<- | []]. reflexivity. }
  split; [split | split].
  - reflexivity.
  - exact (proj1 judge_never_self_and_fails_closed
                 "claude" Sample.three "gpt" eq_refl).
  - exact Honly.
  - exact (proj1 (proj2 judge_never_self_and_fails_closed
                        Sample.engine "bare" "demo" ["Say something."] []
                        "Score 0-3." "claude" Sample.alone 1%Q 1%Q true
                        Sample.w0 Honly)).
Defined.

(** ** Runs of the judge *)

Lemma _call_judge_returns re prov prompt w :
  exists sc why,
    Judge._call_judge re prov prompt w
    = (Returned (sc, why),
       {| tick := S (tick w);
          log := (log w ++ [EvQuery (provider_id prov) (Judge.judge_args prompt)])%list |}).
Proof.
  unfold Judge._call_judge, try_except, bind, Provider.query, perform, lift, ret.
  destruct (answer prov (tick w) (Judge.judge_args prompt)) as [resp|e]; [|eauto].
  destruct (error resp) as [e|].
  - destruct (Py.truthy e); [eauto|].
    destruct (Judge._parse_judge_response re (text resp)) as [[sc why]|e']; eauto.
  - destruct (Judge._parse_judge_response re (text resp)) as [[sc why]|e']; eauto.
Qed.

Lemma qltb_iff (x y : Q) : Py.qltb x y = true <-> (x < y)%Q.
Proof.
  unfold Py.qltb. rewrite negb_true_iff, <- not_true_iff_false, Qle_bool_iff.
  split; [apply Qnot_le_lt | apply Qlt_not_le].
Qed.


Lemma truthy_iff (s : string) : Py.truthy s = true <-> s <> "".
Proof. destruct s; simpl; split; congruence. Qed.

Section JudgePaths.

Variable re : ReEngine.
Variables test_name category : string.
Variable prompts : list string.
Variable rounds : list Message.
Variable rubric : string.
Variable p : string.
Variable A : Py.dict BaseProvider.
Variables s r : Q.
Variable enable : bool.

Let run := Judge.evaluate_judge re test_name category prompts rounds rubric
                                p A s r enable.
Let path := JudgeRun.path re test_name category prompts rounds rubric p A s r enable.

Lemma selected_is_available j :
  Judge._select_judge p A = Some j -> exists pj, Py.get A j = Some pj.
Proof.
  intros H. apply _select_judge_sound in H as [Hin _].
  now apply get_of_key.
Qed.

Lemma tiebreak_is_available j t :
  Judge._select_tiebreak_judge p j A = Some t ->
  exists pt, Py.get A t = Some pt.
Proof.
  unfold Judge._select_tiebreak_judge.
  destruct (Judge.table_pick Judge.TIEBREAK_JUDGE _ _ _) eqn:H1.
  - intros [= <-]. apply table_pick_sound in H1 as (_ & Hin & _).
    now apply get_of_key.
  - intros H. apply first_other_sound in H as [Hin _].
    now apply get_of_key.
Qed.

(** Every run returns, along one of the three paths. *)
Lemma evaluate_judge_path w :
  exists out w', run w = (Returned out, w') /\ path w out w'.
Proof.
  subst run path. unfold Judge.evaluate_judge.
  destruct (Judge._select_judge p A) as [j|] eqn:Hsel.
  2:{ eexists _, _. split; [reflexivity|]. constructor. now left. }
  destruct (Py.truthy j) eqn:Hj; cbn [negb].
  2:{ eexists _, _. split; [reflexivity|]. constructor. right.
      destruct j; [exact Hsel | discriminate]. }
  apply truthy_iff in Hj.
  destruct (selected_is_available j Hsel) as [pj Hpj].
  unfold bind at 1. unfold Judge.lookup. rewrite Hpj. unfold ret at 1.
  fold (JudgeRun.judge_prompt test_name category prompts rounds rubric).
  set (jp := JudgeRun.judge_prompt test_name category prompts rounds rubric).
  destruct (_call_judge_returns re pj jp w) as (ps & pr & Hcall).
  unfold bind at 1. rewrite Hcall.
  assert (Hplain :
            forall w1, ret (JudgeRun.primary_result j pj ps pr,
                            Judge.mkAudit j ps pr) w1
                       = (Returned (JudgeRun.primary_result j pj ps pr,
                                    Judge.mkAudit j ps pr), w1))
    by reflexivity.
  destruct enable eqn:Hen; cbn [andb].
  2:{ eexists _, _. split; [apply Hplain|].
      eapply JudgeRun.PrimaryOnly; eauto. }
  destruct (Judge._needs_tiebreak ps s r) eqn:Hneed.
  2:{ eexists _, _. split; [apply Hplain|].
      eapply JudgeRun.PrimaryOnly; eauto. }
  destruct (Judge._select_tiebreak_judge p j A) as [t|] eqn:Htb.
  2:{ eexists _, _. split; [apply Hplain|].
      eapply JudgeRun.PrimaryOnly; eauto. }
  destruct (Py.truthy t) eqn:Ht; cbn [negb].
  2:{ eexists _, _. split; [apply Hplain|].
      eapply JudgeRun.PrimaryOnly; eauto.
      do 3 right. destruct t; [exact Htb | discriminate]. }
  apply truthy_iff in Ht.
  destruct (tiebreak_is_available j t Htb) as [pt Hpt].
  unfold bind at 1. rewrite Hpt. unfold ret at 1.
  unfold bind at 1.
  match goal with
  | |- context [Judge._call_judge re pt jp ?w1] =>
      destruct (_call_judge_returns re pt jp w1) as (ts & tr & Hcall2)
  end.
  rewrite Hcall2.
  eexists _, _. split.
  2:{ eapply JudgeRun.WithTiebreak with (t := t) (ts := ts) (tr := tr); eauto. }
  unfold Spec.resolution, JudgeRun.tiebreak_result, JudgeRun.tiebreak_audit, ret.
  destruct (Z.abs (ts - ps) <=? 1); [reflexivity|].
  destruct (Z.abs (ts - _) <=? 1); reflexivity.
Qed.

End JudgePaths.


(** C2. Once the tiebreak judge has been invoked, the final raw score and
    the label of the audit are the resolution rule of the specification
    applied to the primary score, the tiebreak score and the two layer scores;
    the judge-layer score is that raw score over 3. For primary 0, layers 1.0
    and 1.0 and tiebreak 3 the outcome is 2, "average (tiebreak sided with
    layers)". *)
Theorem tiebreak_resolution_is_spec_rule :
  (forall (re : ReEngine) (test_name category : string) (prompts : list string)
          (rounds : list Message) (rubric p : string) (A : Py.dict BaseProvider)
          (s r : Q) (enable : bool) (w w' : World)
          (res : Judge.JudgeResult) (audit : Judge.JudgeAudit),
      Judge.evaluate_judge re test_name category prompts rounds rubric
                           p A s r enable w = (Returned (res, audit), w') ->
      Judge.tiebreak_used res = true ->
      exists tb_score,
        Judge.tiebreak_score audit = Some tb_score
        /\ (Judge.score_raw res, Judge.final_source audit)
           = Spec.resolution (Judge.primary_score audit) tb_score s r
        /\ Judge.normalized res = (inject_Z (Judge.score_raw res) / 3)%Q)
  /\ Spec.resolution 0 3 1 1 = (2, "average (tiebreak sided with layers)").
Proof.
  split; [|reflexivity].
  intros re tn cat prompts rounds rubric p A s r enable w w' res audit Hrun Hused.
  destruct (evaluate_judge_path re tn cat prompts rounds rubric p A s r enable w)
    as (out & w2 & Hrun' & Hpath).
  rewrite Hrun in Hrun'. injection Hrun' as <- <-.
  inversion Hpath; subst; try discriminate Hused.
  exists ts. cbn. repeat split.
  now destruct (Spec.resolution ps ts s r).
Qed.

Lemma tiebreak_resolution_is_spec_rule_witness :
  exists res audit w',
    Judge.evaluate_judge Sample.engine "bare" "demo" ["Say something."]
                         [Sample.assistant "hello"] "Score 0-3."
                         "claude" Sample.three 1 1 true Sample.w0
    = (Returned (res, audit), w')
    /\ Judge.tiebreak_used res = true
    /\ Judge.primary_score audit = 0
    /\ Judge.tiebreak_score audit = Some 3
    /\ Judge.score_raw res = 2
    /\ Judge.final_source audit = "average (tiebreak sided with layers)".
Proof.
  match eval vm_compute in
        (Judge.evaluate_judge Sample.engine "bare" "demo" ["Say something."]
                              [Sample.assistant "hello"] "Score 0-3."
                              "claude" Sample.three 1 1 true Sample.w0) with
  | (Returned (?res, ?audit), ?w') =>
      assert (E : Judge.evaluate_judge Sample.engine "bare" "demo" ["Say something."]
                    [Sample.assistant "hello"] "Score 0-3."
                    "claude" Sample.three 1 1 true Sample.w0
                  = (Returned (res, audit), w')) by (vm_compute; reflexivity);
      exists res, audit, w'
  end.
  split; [exact E|].
  destruct (proj1 tiebreak_resolution_is_spec_rule _ _ _ _ _ _ _ _ _ _ _ _ _ _ _
                  E eq_refl) as (tb & Htb & Hres & _).
  cbn in Htb, Hres. injection Htb as <-.
  rewrite (proj2 tiebreak_resolution_is_spec_rule) in Hres.
  repeat split; congruence.
Defined.




(** ** Layer scores *)

Lemma qleb_iff (x y : Q) : Py.qleb x y = true <-> (x <= y)%Q.
Proof. unfold Py.qleb. apply Qle_bool_iff. Qed.

Lemma clamp_bounds (x : Q) : (0 <= Py.max 0 (Py.min 1 x) <= 1)%Q.
Proof.
  unfold Py.max, Py.min.
  destruct (Py.qltb x 1) eqn:H1.
  - apply qltb_iff in H1.
    destruct (Py.qltb 0 x) eqn:H0.
    + apply qltb_iff in H0. split; lra.
    + split; lra.
  - destruct (Py.qltb 0 1) eqn:H0; split; lra.
Qed.

(** C6. Whatever the checks (their kinds, scores and weights, zero and
    negative weights included) and whatever the conversation, the normalized
    structural score lies in [0.0, 1.0]; with no checks it is exactly 1.0. *)
Theorem structural_score_bounds :
  forall (re : ReEngine) (checks : list StructuralCheck) (rounds : list Message),
    (0 <= Structural.normalized (Structural.evaluate_structural re checks rounds) <= 1)%Q
    /\ Structural.normalized (Structural.evaluate_structural re [] rounds) = 1%Q.
Proof.
  intros re checks rounds. split; [|reflexivity].
  unfold Structural.evaluate_structural.
  destruct checks as [|c checks]; [cbn; split; lra|].
  destruct (fold_left _ (c :: checks) _) as [[results tw] ws].
  cbn [Structural.normalized]. apply clamp_bounds.
Qed.

(** C7, as the specification states it, fails: for a test without any
    reference requirement and a conversation without assistant text the score
    is 0.0, not 1.0. *)
Lemma reference_without_subchecks_not_always_perfect :
  ~ (forall (re : ReEngine) (test : TestDef) (rounds : list Message),
        Spec.no_reference_checks test ->
        Reference.normalized (Reference.evaluate_reference re test rounds) = 1%Q).
Proof.
  intros H.
  specialize (H Sample.engine Sample.bare_test []).
  assert (Hn : Spec.no_reference_checks Sample.bare_test)
    by (unfold Spec.no_reference_checks; cbn; auto 6).
  apply H in Hn. vm_compute in Hn. discriminate Hn.
Qed.

(** C7, amended. When none of the five sub-checks applies and the assistant
    text is not blank, the reference score is exactly 1.0; when the assistant
    text is blank (empty or white space only) it is 0.0, whatever the test. *)
Theorem reference_without_subchecks :
  forall (re : ReEngine) (test : TestDef) (rounds : list Message),
    (Spec.no_reference_checks test ->
     Py.strip (Reference._extract_full_response rounds) <> "" ->
     Reference.normalized (Reference.evaluate_reference re test rounds) = 1%Q)
    /\ (Py.strip (Reference._extract_full_response rounds) = "" ->
        Reference.normalized (Reference.evaluate_reference re test rounds) = 0%Q).
Proof.
  intros re test rounds. unfold Reference.evaluate_reference. split.
  - intros (Hk & Ha & Hr & Hg & Hh) Htext.
    apply truthy_iff in Htext. rewrite Htext. cbn [negb].
    rewrite Hk, Ha, Hr, Hh.
    destruct Hg as [-> | ->]; reflexivity.
  - intros ->. reflexivity.
Qed.

Lemma reference_without_subchecks_witness :
  Spec.no_reference_checks Sample.bare_test
  /\ Py.strip (Reference._extract_full_response [Sample.assistant "hello"]) <> ""
  /\ Reference.normalized
       (Reference.evaluate_reference Sample.engine Sample.bare_test
                                     [Sample.assistant "hello"]) = 1%Q.
Proof.
  assert (Hn : Spec.no_reference_checks Sample.bare_test)
    by (unfold Spec.no_reference_checks; cbn; auto 6).
  assert (Ht : Py.strip (Reference._extract_full_response [Sample.assistant "hello"]) <> "")
    by (vm_compute; discriminate).
  split; [exact Hn|]. split; [exact Ht|].
  exact (proj1 (reference_without_subchecks Sample.engine Sample.bare_test
                  [Sample.assistant "hello"]) Hn Ht).
Defined.



(** ** Counting lines *)

Section Lines.

Local Abbreviation nb := Spec.has_nonspace.
Local Abbreviation lines := (Py.split_on Py.nl_char).
Local Abbreviation profile := Spec.profile.
Local Abbreviation count_of := Spec.count_of.

Lemma truthy_rstrip (l : string) : Py.truthy (Py.rstrip l) = nb l.
Proof.
  induction l as [|c l IH]; [reflexivity|].
  simpl. rewrite <- IH.
  destruct (Py.rstrip l); destruct (Py.isspace c); reflexivity.
Qed.

Lemma nb_lstrip (l : string) : nb (Py.lstrip l) = nb l.
Proof.
  induction l as [|c l IH]; [reflexivity|].
  simpl. destruct (Py.isspace c) eqn:Hc; [exact IH | simpl; now rewrite Hc].
Qed.

Lemma truthy_strip (l : string) : Py.truthy (Py.strip l) = nb l.
Proof. unfold Py.strip. now rewrite truthy_rstrip, nb_lstrip. Qed.

Lemma lines_cons (c : ascii) (t : string) :
  lines (String c t)
  = if Ascii.eqb c Py.nl_char then "" :: lines t
    else String c (hd "" (lines t)) :: tl (lines t).
Proof.
  simpl.
  destruct (Ascii.eqb c Py.nl_char); [reflexivity|].
  destruct (Py.split_on Py.nl_char t) eqn:H; [|reflexivity].
  destruct t; simpl in H; [discriminate|].
  destruct (Ascii.eqb a Py.nl_char); [discriminate|].
  destruct (Py.split_on Py.nl_char t); discriminate.
Qed.

Lemma lines_hd_tl (t : string) : lines t = hd "" (lines t) :: tl (lines t).
Proof.
  destruct t as [|c t]; [reflexivity|].
  rewrite lines_cons. destruct (Ascii.eqb c Py.nl_char); reflexivity.
Qed.

Lemma nl_is_space (c : ascii) : Ascii.eqb c Py.nl_char = true -> Py.isspace c = true.
Proof. intros H. apply Ascii.eqb_eq in H. subst c. reflexivity. Qed.

Lemma count_profile (t : string) :
  List.length (filter nb (lines t)) = count_of (profile t).
Proof.
  unfold Spec.count_of, Spec.profile. rewrite (lines_hd_tl t) at 1. simpl.
  destruct (nb (hd "" (lines t))); reflexivity.
Qed.

Lemma profile_cons (c : ascii) (t : string) :
  profile (String c t)
  = if Ascii.eqb c Py.nl_char then (false, count_of (profile t))
    else (negb (Py.isspace c) || fst (profile t), snd (profile t)).
Proof.
  unfold Spec.profile at 1. rewrite lines_cons.
  destruct (Ascii.eqb c Py.nl_char); simpl.
  - now rewrite count_profile.
  - reflexivity.
Qed.

Lemma profile_blank (t : string) : nb t = false -> profile t = (false, 0%nat).
Proof.
  induction t as [|c t IH]; [reflexivity|].
  simpl. intros H. apply orb_false_iff in H as [Hc Ht].
  rewrite profile_cons, (IH Ht), Hc.
  destruct (Ascii.eqb c Py.nl_char); reflexivity.
Qed.

Lemma count_lstrip (t : string) :
  count_of (profile (Py.lstrip t)) = count_of (profile t).
Proof.
  induction t as [|c t IH]; [reflexivity|].
  cbn [Py.lstrip]. destruct (Py.isspace c) eqn:Hc; [|reflexivity].
  rewrite IH, profile_cons, Hc. cbn [negb orb].
  destruct (Ascii.eqb c Py.nl_char); [reflexivity|].
  now destruct (Spec.profile t).
Qed.

Lemma rstrip_blank (t : string) : Py.rstrip t = "" -> nb t = false.
Proof. intros H. rewrite <- truthy_rstrip, H. reflexivity. Qed.

Lemma profile_rstrip (t : string) : profile (Py.rstrip t) = profile t.
Proof.
  induction t as [|c t IH]; [reflexivity|].
  cbn [Py.rstrip]. destruct (Py.rstrip t) as [|a r] eqn:Hr.
  - apply rstrip_blank in Hr.
    rewrite profile_cons, (profile_blank t Hr).
    destruct (Py.isspace c) eqn:Hc.
    + destruct (Ascii.eqb c Py.nl_char); reflexivity.
    + destruct (Ascii.eqb c Py.nl_char) eqn:Hnl.
      * apply nl_is_space in Hnl. congruence.
      * rewrite profile_cons, Hnl, Hc. reflexivity.
  - rewrite (profile_cons c (String a r)), (profile_cons c t), IH. reflexivity.
Qed.

(** Stripping the text first does not change how many of its lines are
    non-blank. *)
Lemma count_strip (t : string) :
  List.length (filter nb (lines (Py.strip t))) = List.length (filter nb (lines t)).
Proof.
  unfold Py.strip.
  now rewrite !count_profile, profile_rstrip, count_lstrip.
Qed.

End Lines.

Lemma min_lines_count (text : string) :
  Py.len (filter (fun l => Py.truthy (Py.strip l))
                 (Py.split_on Py.nl_char (Py.strip text)))
  = Spec.non_blank_lines text.
Proof.
  unfold Spec.non_blank_lines, Py.len. f_equal.
  rewrite (filter_ext _ Spec.has_nonspace) by apply truthy_strip.
  apply count_strip.
Qed.

Lemma int_of_integer (q : Q) (z : Z) : (q == inject_Z z)%Q -> Py.int q = z.
Proof.
  unfold Py.int, Qeq. destruct q as [n d]. simpl. intros H.
  rewrite Z.mul_1_r in H. subst n. apply Z.quot_mul. discriminate.
Qed.

(** C8, as the specification states it, fails: with threshold 2.9 and two
    non-blank lines the count is below the threshold and above 60% of it,
    yet the check passes with score 1.0, since the code compares with
    [int(2.9)], which is 2. *)
Lemma min_lines_tiers_on_threshold_fails :
  ~ (forall (check : StructuralCheck) (text : string),
        let count := Spec.non_blank_lines text in
        let result := Structural._check_min_lines check text in
        ((threshold check <= inject_Z count)%Q ->
         Structural.score result = 1%Q /\ Structural.passed result = true)
        /\ ((inject_Z count < threshold check)%Q ->
            (threshold check * (6 # 10) <= inject_Z count)%Q ->
            Structural.score result = (1 # 2)%Q
            /\ Structural.passed result = false)
        /\ ((inject_Z count < threshold check * (6 # 10))%Q ->
            Structural.score result = 0%Q /\ Structural.passed result = false)).
Proof.
  intros H.
  destruct (H Sample2.min_lines_2_9 Sample2.two_lines) as (_ & Hhalf & _).
  destruct Hhalf as [_ Hpassed].
  - vm_compute. reflexivity.
  - vm_compute. discriminate.
  - vm_compute in Hpassed. discriminate Hpassed.
Qed.

(** C8, amended. [min_lines] counts the non-blank lines of the target text
    against the required count, [int(threshold)] (the threshold truncated
    to an integer, which is the threshold itself when that is a whole
    number): score 1.0 and
    passed at or above it, score 0.5 and not passed from 60% of it up to it,
    score 0.0 and not passed below that. With threshold 5 and exactly 3
    non-blank lines the result is score 0.5, not passed. The dispatcher sends
    a check of type "min_lines" to this function. *)
Theorem min_lines_tiers :
  forall (check : StructuralCheck) (text : string),
    let count := Spec.non_blank_lines text in
    let required := Py.int (threshold check) in
    let result := Structural._check_min_lines check text in
    (required <= count ->
     Structural.score result = 1%Q /\ Structural.passed result = true)
    /\ (count < required -> (inject_Z required * (6 # 10) <= inject_Z count)%Q ->
        Structural.score result = (1 # 2)%Q /\ Structural.passed result = false)
    /\ (count < required -> (inject_Z count < inject_Z required * (6 # 10))%Q ->
        Structural.score result = 0%Q /\ Structural.passed result = false)
    /\ (forall n : Z, (threshold check == inject_Z n)%Q -> required = n)
    /\ ((threshold check == 5)%Q -> count = 3 ->
        Structural.score result = (1 # 2)%Q /\ Structural.passed result = false)
    /\ (forall (re : ReEngine) (assistant_texts : list string) (all_text : string),
           check_type check = "min_lines" ->
           Structural._evaluate_single_check re check assistant_texts all_text
           = Structural._check_min_lines
               check (Structural._get_target_text check assistant_texts all_text)).
Proof.
  intros check text count required result.
  assert (Hs : Structural.score result
               = if required <=? count then 1%Q
                 else if Py.qleb (inject_Z required * (6 # 10)) (inject_Z count)
                      then (1 # 2)%Q else 0%Q).
  { subst result count required. unfold Structural._check_min_lines.
    cbn [Structural.score Structural.mkResult]. now rewrite min_lines_count. }
  assert (Hp : Structural.passed result = (required <=? count)).
  { subst result count required. unfold Structural._check_min_lines.
    cbn [Structural.passed Structural.mkResult]. now rewrite min_lines_count. }
  rewrite Hs, Hp. clear Hs Hp.
  assert (Hhalf : count < required ->
                  (inject_Z required * (6 # 10) <= inject_Z count)%Q ->
                  (if required <=? count then 1%Q
                   else if Py.qleb (inject_Z required * (6 # 10)) (inject_Z count)
                        then (1 # 2)%Q else 0%Q) = (1 # 2)%Q
                  /\ (required <=? count) = false).
  { intros Hlt Hge.
    destruct (Z.leb_spec required count); [lia|].
    apply qleb_iff in Hge. rewrite Hge. auto. }
  assert (Hfive : (threshold check == 5)%Q -> count = 3 ->
                  count < required
                  /\ (inject_Z required * (6 # 10) <= inject_Z count)%Q).
  { intros H5 H3. subst required.
    rewrite (int_of_integer _ 5 H5), H3. split; [lia|].
    unfold Qle; simpl; lia. }
  split; [|split; [|split; [|split; [|split]]]].
  - intros H. destruct (Z.leb_spec required count); [auto | lia].
  - exact Hhalf.
  - intros Hlt Hq. destruct (Z.leb_spec required count); [lia|].
    destruct (Py.qleb _ _) eqn:Hq'; [|auto].
    apply qleb_iff in Hq'. lra.
  - intros n Hn. now apply int_of_integer.
  - intros H5 H3. destruct (Hfive H5 H3). now apply Hhalf.
  - intros re texts all_text Hty.
    unfold Structural._evaluate_single_check. rewrite Hty. reflexivity.
Qed.

Lemma min_lines_tiers_witness :
  ((threshold Sample.min_lines_5 == 5)%Q
   /\ Spec.non_blank_lines Sample.three_lines = 3)
  /\ Structural.score (Structural._check_min_lines Sample.min_lines_5 Sample.three_lines)
     = (1 # 2)%Q
  /\ Structural.passed (Structural._check_min_lines Sample.min_lines_5 Sample.three_lines)
     = false.
Proof.
  assert (Ht : (threshold Sample.min_lines_5 == 5)%Q) by reflexivity.
  assert (Hc : Spec.non_blank_lines Sample.three_lines = 3) by reflexivity.
  split; [split; assumption|].
  exact (proj1 (proj2 (proj2 (proj2 (proj2
           (min_lines_tiers Sample.min_lines_5 Sample.three_lines))))) Ht Hc).
Defined.

(** ** Statistics *)

Lemma round_close (y : Q) : (Qabs (inject_Z (Py.round y) - y) <= 1 # 2)%Q.
Proof.
  unfold Py.round.
  pose proof (Qfloor_le y) as Hlo.
  pose proof (Qlt_floor y) as Hhi.
  rewrite inject_Z_plus in Hhi. change (inject_Z 1) with 1%Q in Hhi.
  apply Qabs_Qle_condition.
  destruct (y - inject_Z (Qfloor y) ?= 1 # 2)%Q eqn:Hc.
  - apply Qeq_alt in Hc.
    destruct (Z.even (Qfloor y)).
    + split; lra.
    + rewrite inject_Z_plus. change (inject_Z 1) with 1%Q. split; lra.
  - apply Qlt_alt in Hc. split; lra.
  - apply Qgt_alt in Hc. rewrite inject_Z_plus. change (inject_Z 1) with 1%Q.
    split; lra.
Qed.

Lemma round_nd_4_close (x : Q) : (Qabs (Py.round_nd x 4 - x) <= 1 # 20000)%Q.
Proof.
  unfold Py.round_nd.
  change (inject_Z (10 ^ Z.of_nat 4)) with (10000 # 1)%Q.
  pose proof (round_close (x * (10000 # 1))) as H.
  apply Qabs_Qle_condition in H. apply Qabs_Qle_condition.
  set (k := inject_Z (Py.round (x * (10000 # 1)))) in *.
  assert (Hdiv : (k / (10000 # 1) == k * (1 # 10000))%Q) by (field).
  rewrite Hdiv. split; lra.
Qed.

Lemma sum_singleton (x : Q) : (Py.sum [x] == x)%Q.
Proof. unfold Py.sum; simpl. ring. Qed.

(** C9. For a one-element sample the interval is (x, x, x). More generally,
    when the sample has fewer than two elements or the standard deviation
    that [mean_and_std] reports is 0, the interval is (mean, mean, mean) for
    the mean that [mean_and_std] reports; that mean is the arithmetic mean of
    the sample, exactly for fewer than two elements and to within 0.00005
    (it is rounded to four decimals) otherwise. *)
Theorem confidence_interval_collapses :
  forall (sqrt : Q -> Q),
    (forall x : Q,
        let '(m, lo, hi) := Statistics.confidence_interval_95 sqrt [x] in
        (m == x /\ lo == x /\ hi == x)%Q)
    /\ (forall values : list Q,
           Py.len values < 2
           \/ (snd (Statistics.mean_and_std sqrt values) == 0)%Q ->
           let m := fst (Statistics.mean_and_std sqrt values) in
           Statistics.confidence_interval_95 sqrt values = (m, m, m))
    /\ (forall values : list Q,
           values <> [] ->
           let m := fst (Statistics.mean_and_std sqrt values) in
           let exact := (Py.sum values / inject_Z (Py.len values))%Q in
           (Py.len values < 2 -> m = exact)
           /\ (Qabs (m - exact) <= 1 # 20000)%Q).
Proof.
  intros sqrt. split; [|split].
  - intros x. cbn.
    assert (H : ((0 + x) / 1 == x)%Q) by field.
    auto.
  - intros values Hc m. subst m.
    unfold Statistics.confidence_interval_95.
    destruct values as [|v values]; [reflexivity|].
    destruct (Statistics.mean_and_std sqrt (v :: values)) as [mean std] eqn:Hms.
    cbn [fst snd] in *.
    destruct (Z.ltb_spec (Py.len (v :: values)) 2); [reflexivity|].
    destruct Hc as [Hc | Hc]; [lia|].
    cbn [orb]. unfold Py.qeqb.
    now rewrite (Qeq_eq_bool _ _ Hc).
  - intros values Hne m exact. subst m exact.
    unfold Statistics.mean_and_std.
    destruct values as [|v values]; [congruence|].
    destruct (Z.ltb_spec (Py.len (v :: values)) 2); cbn [fst].
    + split; [reflexivity|].
      setoid_replace (Py.sum (v :: values) / inject_Z (Py.len (v :: values))
                      - Py.sum (v :: values) / inject_Z (Py.len (v :: values)))%Q
        with 0%Q by ring.
      discriminate.
    + split; [lia|]. apply round_nd_4_close.
Qed.

Lemma confidence_interval_collapses_witness :
  (Py.len [3 # 4] < 2
   /\ Statistics.confidence_interval_95 Sample.sqrt [3 # 4]
      = (fst (Statistics.mean_and_std Sample.sqrt [3 # 4]),
         fst (Statistics.mean_and_std Sample.sqrt [3 # 4]),
         fst (Statistics.mean_and_std Sample.sqrt [3 # 4])))
  /\ ((snd (Statistics.mean_and_std Sample.sqrt [1 # 4; 1 # 4; 1 # 4]) == 0)%Q
      /\ Statistics.confidence_interval_95 Sample.sqrt [1 # 4; 1 # 4; 1 # 4]
         = (fst (Statistics.mean_and_std Sample.sqrt [1 # 4; 1 # 4; 1 # 4]),
            fst (Statistics.mean_and_std Sample.sqrt [1 # 4; 1 # 4; 1 # 4]),
            fst (Statistics.mean_and_std Sample.sqrt [1 # 4; 1 # 4; 1 # 4]))).
Proof.
  assert (H1 : Py.len [3 # 4] < 2) by (cbn; lia).
  assert (H2 : (snd (Statistics.mean_and_std Sample.sqrt [1 # 4; 1 # 4; 1 # 4]) == 0)%Q)
    by (vm_compute; reflexivity).
  split; (split; [assumption|]).
  - exact (proj1 (proj2 (confidence_interval_collapses Sample.sqrt))
                 [3 # 4] (or_introl H1)).
  - exact (proj1 (proj2 (confidence_interval_collapses Sample.sqrt))
                 [1 # 4; 1 # 4; 1 # 4] (or_intror H2)).
Defined.

(** ** The orchestrator *)

Lemma get_set_same {V} (d : Py.dict V) (k : string) (v : V) :
  Py.get (Py.set d k v) k = Some v.
Proof.
  induction d as [|[k' v'] d IH]; simpl.
  - now rewrite String.eqb_refl.
  - destruct (String.eqb k' k) eqn:H; simpl; now rewrite H.
Qed.


Section ErrorRuns.

Variable re : ReEngine.
Variable now_iso : nat -> string.
Variable perf_counter : nat -> Q.
Variable test : TestDef.
Variable provider : BaseProvider.
Variable available : Py.dict BaseProvider.
Variable enable : bool.

Let run := Orchestrator.run_single_evaluation re now_iso perf_counter
                                              test provider available enable.


Variable seed : Z.
Variable tid pid : string.


End ErrorRuns.




(** ** The judge-pair table *)

Lemma pairs_equal_set (d : Py.dict (list (Value * Value))) (k : string)
      (ps : list (Value * Value)) :
  Spec.pairs_equal d ->
  Forall (fun ab => fst ab = snd ab) ps ->
  Spec.pairs_equal (Py.set d k ps).
Proof.
  unfold Spec.pairs_equal. intros Hd Hps.
  induction d as [|[k' v'] d IH]; simpl.
  - constructor; [exact Hps | constructor].
  - inversion Hd; subst.
    destruct (String.eqb k' k); constructor; auto.
Qed.

Lemma pairs_equal_get (d : Py.dict (list (Value * Value))) (k : string)
      (ps : list (Value * Value)) :
  Spec.pairs_equal d -> Py.get d k = Some ps ->
  Forall (fun ab => fst ab = snd ab) ps.
Proof.
  unfold Spec.pairs_equal. intros Hd.
  induction Hd as [|[k' v'] d Hv Hd IH]; simpl; [discriminate|].
  destruct (String.eqb k' k); [intros [= <-]; exact Hv | exact IH].
Qed.

Section PairInvariant.

Variable re : ReEngine.
Variable now_iso : nat -> string.
Variable perf_counter : nat -> Q.
Variable providers : Py.dict BaseProvider.
Variable enable : bool.

Let body := Orchestrator.loop_body re now_iso perf_counter providers enable.
Let inv (st : Orchestrator.LoopState) : Prop :=
  Spec.pairs_equal (Orchestrator.judge_pairs st).

(** One pass through the loop body leaves the table as it was, or appends
    the raw judge score of the run, twice, to one cell. *)
Lemma body_appends_twice seed tid test st entry w st' w' :
  body seed tid test st entry w = (Returned st', w') ->
  Orchestrator.judge_pairs st' = Orchestrator.judge_pairs st
  \/ exists key old raw result,
      Orchestrator.judge_pairs st'
      = Py.set (if Py.mem key (Orchestrator.judge_pairs st)
                then Orchestrator.judge_pairs st
                else Py.set (Orchestrator.judge_pairs st) key [])
               key (old ++ [(raw, raw)])%list
      /\ (Py.get (Orchestrator.judge_pairs st) key = Some old
          \/ (Py.get (Orchestrator.judge_pairs st) key = None /\ old = []))
      /\ Orchestrator.run_single_evaluation re now_iso perf_counter test
           (snd entry) providers enable w = (Returned result, w')
      /\ raw = Orchestrator.get_or (Py.set result "seed" (VInt seed))
                                   "judge_raw" (VInt 0).
Proof.
  subst body. unfold Orchestrator.loop_body. destruct entry as [pid provider].
  unfold bind at 1.
  destruct (Orchestrator.run_single_evaluation _ _ _ _ _ _ _ w)
    as [[result|e] w1] eqn:Hrun; [|discriminate].
  unfold bind at 1. unfold Orchestrator.item.
  destruct (Py.get (Py.set result "seed" (VInt seed)) "final_score")
    as [final|]; [|discriminate].
  unfold ret. intros [= <- <-].
  cbn [Orchestrator.judge_pairs].
  destruct (Py.truthy _ && negb _); [right | now left].
  match goal with
  | |- context [Py.mem ?k (Orchestrator.judge_pairs st)] => set (key := k)
  end.
  match goal with
  | |- context [(?r, ?r)] => set (raw := r)
  end.
  unfold Py.mem.
  destruct (Py.get (Orchestrator.judge_pairs st) key) as [old|] eqn:Hold.
  - exists key, old, raw, result. rewrite Hold. cbn [snd]. auto.
  - exists key, [], raw, result. rewrite Hold, get_set_same. cbn [snd]. auto 6.
Qed.

Lemma body_keeps_pairs_equal seed tid test st entry w st' w' :
  inv st -> body seed tid test st entry w = (Returned st', w') -> inv st'.
Proof.
  subst inv. cbv beta. intros Hinv Hbody.
  apply body_appends_twice in Hbody
      as [-> | (key & old & raw & result & -> & Hold & _)];
    [exact Hinv|].
  apply pairs_equal_set.
  - destruct (Py.mem key (Orchestrator.judge_pairs st)); [exact Hinv|].
    apply pairs_equal_set; [exact Hinv | constructor].
  - apply Forall_app. split.
    + destruct Hold as [Hold | [_ ->]]; [|constructor].
      eapply pairs_equal_get; eauto.
    + constructor; [reflexivity | constructor].
Qed.

(** A fold keeps what each of its steps keeps. *)
Lemma foldM_invariant {A} (f : Orchestrator.LoopState -> A -> M Orchestrator.LoopState)
      (l : list A) :
  (forall st x w st' w', inv st -> f st x w = (Returned st', w') -> inv st') ->
  forall st w st' w',
    inv st -> Orchestrator.foldM f l st w = (Returned st', w') -> inv st'.
Proof.
  intros Hstep. induction l as [|x l IH]; intros st w st' w' Hinv; simpl.
  - unfold ret. now intros [= <- <-].
  - unfold bind at 1.
    destruct (f st x w) as [[st1|e] w1] eqn:Hf; [|discriminate].
    apply IH. eapply Hstep; eauto.
Qed.

Lemma main_loop_pairs_equal seeds tests w st w' :
  Orchestrator.main_loop re now_iso perf_counter seeds tests providers enable w
  = (Returned st, w') ->
  inv st.
Proof.
  unfold Orchestrator.main_loop.
  apply foldM_invariant; [|constructor].
  intros st0 seed w0 st1 w1. apply foldM_invariant.
  intros st2 [tid test] w2 st3 w3. apply foldM_invariant.
  intros st4 entry w4 st5 w5. apply body_keeps_pairs_equal.
Qed.

End PairInvariant.

(** C4. Each pass through the loop body either leaves the judge-pair table
    unchanged or appends to one of its cells the pair (judge_raw, judge_raw),
    the raw score of the run's judge layer stored twice; hence after a
    completed run every pair (a, b) in every cell satisfies a = b. *)
Theorem judge_pairs_hold_one_value_twice :
  forall (re : ReEngine) (now_iso : nat -> string) (perf_counter : nat -> Q)
         (providers : Py.dict BaseProvider) (enable : bool),
    (forall (seed : Z) (tid : string) (test : TestDef)
            (st st' : Orchestrator.LoopState) (entry : string * BaseProvider)
            (w w' : World),
        Orchestrator.loop_body re now_iso perf_counter providers enable
                               seed tid test st entry w = (Returned st', w') ->
        Orchestrator.judge_pairs st' = Orchestrator.judge_pairs st
        \/ exists key old raw result,
            Orchestrator.judge_pairs st'
            = Py.set (if Py.mem key (Orchestrator.judge_pairs st)
                      then Orchestrator.judge_pairs st
                      else Py.set (Orchestrator.judge_pairs st) key [])
                     key (old ++ [(raw, raw)])%list
            /\ (Py.get (Orchestrator.judge_pairs st) key = Some old
                \/ (Py.get (Orchestrator.judge_pairs st) key = None /\ old = []))
            /\ Orchestrator.run_single_evaluation re now_iso perf_counter test
                 (snd entry) providers enable w = (Returned result, w')
            /\ raw = Orchestrator.get_or (Py.set result "seed" (VInt seed))
                                         "judge_raw" (VInt 0))
    /\ (forall (seeds : Z) (tests : Py.dict TestDef) (w w' : World)
               (st : Orchestrator.LoopState),
           Orchestrator.main_loop re now_iso perf_counter seeds tests providers
                                  enable w = (Returned st, w') ->
           forall (key : string) (pairs : list (Value * Value)) (a b : Value),
             In (key, pairs) (Orchestrator.judge_pairs st) ->
             In (a, b) pairs -> a = b).
Proof.
  intros re now_iso perf_counter providers enable. split.
  - intros seed tid test st st' entry w w'. apply body_appends_twice.
  - intros seeds tests w w' st Hrun key pairs a b Hcell Hpair.
    apply main_loop_pairs_equal in Hrun. unfold Spec.pairs_equal in Hrun.
    rewrite Forall_forall in Hrun. specialize (Hrun _ Hcell).
    rewrite Forall_forall in Hrun. exact (Hrun _ Hpair).
Qed.

Lemma judge_pairs_hold_one_value_twice_witness :
  exists st w',
    Orchestrator.main_loop Sample.engine Sample.now_iso Sample.perf_counter
                           2 [("T-01", Sample.bare_test)] Sample.three true Sample.w0
    = (Returned st, w')
    /\ In ("claude_vs_gpt", [(VInt 2, VInt 2); (VInt 2, VInt 2)])
          (Orchestrator.judge_pairs st)
    /\ VInt 2 = VInt 2.
Proof.
  match eval vm_compute in
        (Orchestrator.main_loop Sample.engine Sample.now_iso Sample.perf_counter
           2 [("T-01", Sample.bare_test)] Sample.three true Sample.w0) with
  | (Returned ?st, ?w') =>
      assert (E : Orchestrator.main_loop Sample.engine Sample.now_iso
                    Sample.perf_counter 2 [("T-01", Sample.bare_test)]
                    Sample.three true Sample.w0 = (Returned st, w'))
        by (vm_compute; reflexivity);
      exists st, w'
  end.
  assert (Hcell : In ("claude_vs_gpt", [(VInt 2, VInt 2); (VInt 2, VInt 2)])
                     (Orchestrator.judge_pairs
                        (match fst (Orchestrator.main_loop Sample.engine
                                      Sample.now_iso Sample.perf_counter 2
                                      [("T-01", Sample.bare_test)] Sample.three
                                      true Sample.w0) with
                         | Returned st => st
                         | Raised _ => Orchestrator.initial
                         end)))
    by (vm_compute; auto).
  rewrite E in Hcell. cbn [fst] in Hcell.
  split; [exact E|]. split; [exact Hcell|].
  exact (proj2 (judge_pairs_hold_one_value_twice _ _ _ _ _) _ _ _ _ _ E
           "claude_vs_gpt" _ (VInt 2) (VInt 2) Hcell (or_introl eq_refl)).
Defined.


(** * Further properties *)

(** ** Judge selection, continued *)

Lemma first_other_complete pids excluded :
  Judge.first_other pids excluded = None ->
  forall k, In k pids -> In k excluded.
Proof.
  induction pids as [|pid rest IH]; simpl; [tauto|].
  destruct (forallb _ excluded) eqn:Hf; [discriminate|].
  intros Hnone k [<- | Hin]; [|now apply IH].
  destruct (in_dec string_dec pid excluded) as [Hin | Hout]; [exact Hin|].
  exfalso. apply not_true_iff_false in Hf. apply Hf.
  apply forallb_forall. intros x Hx.
  destruct (String.eqb_spec pid x); [subst; contradiction | reflexivity].
Qed.

Lemma _select_tiebreak_judge_sound (p j : string) (A : Py.dict BaseProvider) t :
  Judge._select_tiebreak_judge p j A = Some t ->
  In t (Py.keys A) /\ t <> p /\ t <> j.
Proof.
  unfold Judge._select_tiebreak_judge.
  destruct (Judge.table_pick Judge.TIEBREAK_JUDGE _ _ _) eqn:H1.
  - intros [= <-]. apply table_pick_sound in H1 as (_ & Hin & Hex).
    inversion Hex as [|? ? Hj Hex']; subst. inversion Hex'; subst. auto.
  - intros H. apply first_other_sound in H as [Hin Hex].
    inversion Hex as [|? ? Hp Hex']; subst. inversion Hex'; subst. auto.
Qed.

(** X1. The tiebreak judge is always an available provider other than the
    evaluated provider and the primary judge, and one is found exactly when
    such a provider is available. *)
Theorem tiebreak_judge_is_a_third_provider :
  forall (p j : string) (A : Py.dict BaseProvider),
    (forall t, Judge._select_tiebreak_judge p j A = Some t ->
               In t (Py.keys A) /\ t <> p /\ t <> j)
    /\ (Judge._select_tiebreak_judge p j A = None
        <-> forall k, In k (Py.keys A) -> k = p \/ k = j).
Proof.
  intros p j A.
  split; [apply _select_tiebreak_judge_sound|]. split.
  - unfold Judge._select_tiebreak_judge.
    destruct (Judge.table_pick Judge.TIEBREAK_JUDGE _ _ _); [discriminate|].
    intros Hnone k Hin.
    destruct (first_other_complete _ _ Hnone k Hin) as [<- | [<- | []]]; auto.
  - intros Honly.
    destruct (Judge._select_tiebreak_judge p j A) as [t|] eqn:Ht; [|reflexivity].
    destruct (_select_tiebreak_judge_sound _ _ _ _ Ht) as (Hin & Hp & Hj).
    destruct (Honly t Hin); congruence.
Qed.

(** X2. A primary judge is found exactly when some available provider
    differs from the evaluated one, and the judge found is an available
    provider, so looking it up cannot fail. *)
Theorem primary_judge_found_iff_another_provider :
  forall (p : string) (A : Py.dict BaseProvider),
    (Judge._select_judge p A <> None
     <-> exists k, In k (Py.keys A) /\ k <> p)
    /\ (forall j, Judge._select_judge p A = Some j ->
                  exists provider, Py.get A j = Some provider).
Proof.
  intros p A. split; [split|].
  - destruct (Judge._select_judge p A) as [j|] eqn:Hj; [|congruence].
    intros _. apply _select_judge_sound in Hj. exists j. exact Hj.
  - intros (k & Hin & Hne) Hnone. revert Hnone.
    unfold Judge._select_judge.
    destruct (Judge.table_pick Judge.JUDGE_ROTATION _ _ _); [discriminate|].
    destruct (Judge.table_pick Judge.JUDGE_FALLBACK _ _ _); [discriminate|].
    intros Hnone.
    destruct (first_other_complete _ _ Hnone k Hin) as [<- | []]. congruence.
  - intros j Hj. now apply selected_is_available in Hj.
Qed.

Lemma mem_of_key {V} (d : Py.dict V) (k : string) :
  In k (Py.keys d) -> Py.mem k d = true.
Proof.
  intros H. apply get_of_key in H as [v Hv]. unfold Py.mem. now rewrite Hv.
Qed.

(** X3. The order of preference: the judge of the rotation table is taken
    whenever it is available; otherwise the judge of the fallback table
    whenever that one is available; in both tables a provider is never its
    own judge. *)
Theorem judge_preference_order :
  forall (p : string) (A : Py.dict BaseProvider),
    (forall j, Py.get Judge.JUDGE_ROTATION p = Some j ->
               In j (Py.keys A) ->
               Judge._select_judge p A = Some j)
    /\ (forall j f, Py.get Judge.JUDGE_ROTATION p = Some j ->
                    ~ In j (Py.keys A) ->
                    Py.get Judge.JUDGE_FALLBACK p = Some f ->
                    In f (Py.keys A) ->
                    Judge._select_judge p A = Some f)
    /\ (forall j, Py.get Judge.JUDGE_ROTATION p = Some j
                  \/ Py.get Judge.JUDGE_FALLBACK p = Some j
                  \/ Py.get Judge.TIEBREAK_JUDGE p = Some j ->
                  j <> p /\ j <> "").
Proof.
  intros p A.
  assert (Htables : forall j, Py.get Judge.JUDGE_ROTATION p = Some j
                              \/ Py.get Judge.JUDGE_FALLBACK p = Some j
                              \/ Py.get Judge.TIEBREAK_JUDGE p = Some j ->
                              j <> p /\ j <> "").
  { intros j. unfold Judge.JUDGE_ROTATION, Judge.JUDGE_FALLBACK,
                Judge.TIEBREAK_JUDGE. cbn [Py.get].
    repeat match goal with
           | |- context [String.eqb ?a p] => destruct (String.eqb_spec a p)
           end;
      subst; intros [H | [H | H]]; try discriminate H;
      injection H as <-; split; discriminate. }
  assert (Hpick : forall table j,
             Py.get table p = Some j -> j <> p -> j <> "" ->
             In j (Py.keys A) ->
             Judge.table_pick table p A [p] = Some j).
  { intros table j Hget Hp He Hin. unfold Judge.table_pick. rewrite Hget.
    apply truthy_iff in He. rewrite He, (mem_of_key _ _ Hin). cbn.
    destruct (String.eqb_spec j p); [contradiction | reflexivity]. }
  split; [|split]; [| |exact Htables].
  - intros j Hget Hin. destruct (Htables j (or_introl Hget)) as [Hp He].
    unfold Judge._select_judge. now rewrite (Hpick _ j Hget Hp He Hin).
  - intros j f Hr Hout Hf Hin.
    destruct (Htables f (or_intror (or_introl Hf))) as [Hp He].
    unfold Judge._select_judge.
    destruct (Judge.table_pick Judge.JUDGE_ROTATION p A [p]) as [j'|] eqn:H1.
    + exfalso. pose proof (table_pick_sound _ _ _ _ _ H1) as (_ & Hin' & _).
      unfold Judge.table_pick in H1. rewrite Hr in H1.
      destruct (_ && _ && _); [|discriminate]. injection H1 as <-. contradiction.
    + now rewrite (Hpick _ f Hf Hp He Hin).
Qed.

Lemma judge_preference_order_witness :
  (Py.get Judge.JUDGE_ROTATION "gemini" = Some "claude"
   /\ In "claude" (Py.keys Sample.three))
  /\ Judge._select_judge "gemini" Sample.three = Some "claude".
Proof.
  assert (Hg : Py.get Judge.JUDGE_ROTATION "gemini" = Some "claude") by reflexivity.
  assert (Hin : In "claude" (Py.keys Sample.three)) by (cbn; auto).
  split; [split; assumption|].
  exact (proj1 (judge_preference_order "gemini" Sample.three) "claude" Hg Hin).
Defined.

(** ** Judge calls *)

(** X4. A judge call never raises: an exception of the provider gives score
    0 with the reason "Judge exception: ..." and an error response gives
    score 0 with the reason "Judge error: ..."; in every case exactly one
    query is sent, with the evaluator system prompt, 200 tokens and
    temperature 0.1. *)
Theorem judge_call_absorbs_failures :
  forall (re : ReEngine) (provider : BaseProvider) (prompt : string) (w : World),
    let w' := {| tick := S (tick w);
                 log := (log w ++ [EvQuery (provider_id provider)
                                           (Judge.judge_args prompt)])%list |} in
    (exists score reason,
        Judge._call_judge re provider prompt w = (Returned (score, reason), w'))
    /\ (forall e,
           answer provider (tick w) (Judge.judge_args prompt) = Raised e ->
           Judge._call_judge re provider prompt w
           = (Returned (0, "Judge exception: " ++ e), w'))
    /\ (forall resp e,
           answer provider (tick w) (Judge.judge_args prompt) = Returned resp ->
           error resp = Some e -> e <> "" ->
           Judge._call_judge re provider prompt w
           = (Returned (0, "Judge error: " ++ e), w')).
Proof.
  intros re provider prompt w w'. split; [|split].
  - apply _call_judge_returns.
  - intros e He.
    unfold Judge._call_judge, try_except, bind, Provider.query, perform.
    now rewrite He.
  - intros resp e Hr He Hne.
    unfold Judge._call_judge, try_except, bind, Provider.query, perform.
    rewrite Hr, He. apply truthy_iff in Hne. now rewrite Hne.
Qed.

(** X5. Whatever the providers do (answer, report an error, raise),
    [evaluate_judge] returns a result, after at most two provider calls. *)
Theorem evaluate_judge_never_raises :
  forall (re : ReEngine) (test_name category : string) (prompts : list string)
         (rounds : list Message) (rubric p : string) (A : Py.dict BaseProvider)
         (s r : Q) (enable : bool) (w : World),
  exists res audit w',
    Judge.evaluate_judge re test_name category prompts rounds rubric
                         p A s r enable w = (Returned (res, audit), w')
    /\ (tick w <= tick w' <= tick w + 2)%nat
    /\ exists calls, log w' = (log w ++ calls)%list
                     /\ List.length calls = (tick w' - tick w)%nat.
Proof.
  intros re tn cat prompts rounds rubric p A s r enable w.
  destruct (evaluate_judge_path re tn cat prompts rounds rubric p A s r enable w)
    as ([res audit] & w' & Hrun & Hpath).
  exists res, audit, w'. split; [exact Hrun|].
  inversion Hpath; subst; unfold JudgeRun.asked; cbn [tick log].
  - split; [lia|]. exists []. rewrite app_nil_r.
    split; [reflexivity | cbn [List.length]; lia].
  - split; [lia|]. eexists. split; [reflexivity | cbn [List.length]; lia].
  - split; [lia|]. eexists. rewrite <- app_assoc.
    split; [reflexivity | cbn [List.length app]; lia].
Qed.

(** ** Rounding *)

Lemma round_floor_or_next (x : Q) :
  Py.round x = Qfloor x \/ Py.round x = Qfloor x + 1.
Proof.
  unfold Py.round.
  destruct (x - inject_Z (Qfloor x) ?= 1 # 2)%Q; auto.
  destruct (Z.even (Qfloor x)); auto.
Qed.

Lemma round_mono (x y : Q) : (x <= y)%Q -> Py.round x <= Py.round y.
Proof.
  intros Hxy.
  pose proof (Qfloor_resp_le x y Hxy) as Hf.
  destruct (Z.eq_dec (Qfloor x) (Qfloor y)) as [Heq | Hne].
  - unfold Py.round. rewrite <- Heq.
    destruct (x - inject_Z (Qfloor x) ?= 1 # 2)%Q eqn:Hx;
      destruct (y - inject_Z (Qfloor x) ?= 1 # 2)%Q eqn:Hy;
      first [apply Qeq_alt in Hx | apply Qlt_alt in Hx | apply Qgt_alt in Hx];
      first [apply Qeq_alt in Hy | apply Qlt_alt in Hy | apply Qgt_alt in Hy];
      try (destruct (Z.even (Qfloor x))); try lia; exfalso; lra.
  - destruct (round_floor_or_next x) as [-> | ->];
      destruct (round_floor_or_next y) as [-> | ->]; lia.
Qed.

Lemma round_integer (z : Z) : Py.round (inject_Z z) = z.
Proof.
  unfold Py.round. rewrite Qfloor_Z.
  destruct (inject_Z z - inject_Z z ?= 1 # 2)%Q eqn:Hc;
    [apply Qeq_alt in Hc; lra | reflexivity | apply Qgt_alt in Hc; lra].
Qed.

Lemma round_between (a b : Z) (x : Q) :
  (inject_Z a <= x <= inject_Z b)%Q -> a <= Py.round x <= b.
Proof.
  intros [Ha Hb]. apply round_mono in Ha, Hb.
  rewrite round_integer in Ha, Hb. lia.
Qed.

Lemma round_nd_between (a b : Z) (x : Q) (n : nat) :
  (inject_Z a <= x <= inject_Z b)%Q ->
  (inject_Z a <= Py.round_nd x n <= inject_Z b)%Q.
Proof.
  intros [Ha Hb]. unfold Py.round_nd.
  set (s := 10 ^ Z.of_nat n).
  assert (Hs : 0 < s) by (apply Z.pow_pos_nonneg; lia).
  assert (HsQ : (0 < inject_Z s)%Q)
    by (change (inject_Z 0 < inject_Z s)%Q; rewrite <- Zlt_Qlt; exact Hs).
  assert (Hr : a * s <= Py.round (x * inject_Z s) <= b * s).
  { apply round_between. rewrite !inject_Z_mult. split; nra. }
  destruct Hr as [Hlo Hhi].
  rewrite Zle_Qle in Hlo, Hhi. rewrite inject_Z_mult in Hlo, Hhi.
  set (k := inject_Z (Py.round (x * inject_Z s))) in *.
  split.
  - apply Qle_shift_div_l; assumption.
  - apply Qle_shift_div_r; assumption.
Qed.

(** ** Scores of the judge *)

Lemma take_length (n : nat) (s : string) : (String.length (Py.take n s) <= n)%nat.
Proof.
  unfold Py.take. revert s. induction n as [|n IH]; intros [|c s]; simpl; try lia.
  specialize (IH s). lia.
Qed.

Lemma str_length_app (a b : string) :
  String.length (a ++ b) = (String.length a + String.length b)%nat.
Proof. induction a as [|c a IH]; simpl; [reflexivity | now rewrite IH]. Qed.

Lemma int_of_digit_0_to_3 (n : string) (z : Z) :
  In n ["0"; "1"; "2"; "3"] -> Judge.int_of n = Returned z -> 0 <= z <= 3.
Proof.
  intros [<- | [<- | [<- | [<- | []]]]]; cbn; intros [= <-]; lia.
Qed.

Lemma parse_range (re : ReEngine) (text : string) (score : Z) (reason : string) :
  Facts.digits_0_to_3 re ->
  Judge._parse_judge_response re text = Returned (score, reason) ->
  0 <= score <= 3 /\ (String.length reason <= 200)%nat.
Proof.
  intros Hdig.
  unfold Judge._parse_judge_response.
  destruct (re_search re "SCORE:\s*(\d)" [] text) as [groups|].
  - destruct (Judge.group1 groups) as [g|]; [|discriminate].
    destruct (Judge.int_of g) as [raw|]; [|discriminate].
    destruct (re_search re "REASON:\s*(.+)" [DOTALL] text) as [rgroups|].
    + destruct (Judge.group1 rgroups) as [rg|]; [|discriminate].
      intros [= <- <-]. split; [lia | apply take_length].
    + intros [= <- <-]. split; [lia | cbn; lia].
  - assert (Hlen : (String.length ("(parse fallback) " ++ Py.take 150 text) <= 200)%nat).
    { rewrite str_length_app. pose proof (take_length 150 text). cbn. lia. }
    destruct (re_search re "REASON:\s*(.+)" [DOTALL] text) as [rgroups|].
    + destruct (Judge.group1 rgroups) as [rg|]; [|discriminate].
      destruct (re_findall re "\b([0-3])\b" [] text) as [|n0 ns] eqn:Hnums.
      * intros [= <- <-]. split; [lia | exact Hlen].
      * destruct (Judge.int_of n0) as [z|] eqn:Hz; [|discriminate].
        intros [= <- <-]. split; [|exact Hlen].
        apply (int_of_digit_0_to_3 n0); [|exact Hz].
        apply (Hdig text). rewrite Hnums. now left.
    + destruct (re_findall re "\b([0-3])\b" [] text) as [|n0 ns] eqn:Hnums.
      * intros [= <- <-]. split; [lia | exact Hlen].
      * destruct (Judge.int_of n0) as [z|] eqn:Hz; [|discriminate].
        intros [= <- <-]. split; [|exact Hlen].
        apply (int_of_digit_0_to_3 n0); [|exact Hz].
        apply (Hdig text). rewrite Hnums. now left.
Qed.

(** X6. When the parser returns, the score lies between 0 and 3 and the
    reason has at most 200 characters, whatever the judge wrote. *)
Theorem parsed_judge_score_in_range :
  forall (re : ReEngine) (text : string) (score : Z) (reason : string),
    Facts.digits_0_to_3 re ->
    Judge._parse_judge_response re text = Returned (score, reason) ->
    0 <= score <= 3 /\ (String.length reason <= 200)%nat.
Proof. exact parse_range. Qed.

Lemma sample_engine_digits : Facts.digits_0_to_3 Sample.engine.
Proof. intros text n []. Qed.

Lemma parsed_judge_score_in_range_witness :
  (Facts.digits_0_to_3 Sample.engine
   /\ Judge._parse_judge_response Sample.engine
        ("SCORE: 9" ++ Py.nl ++ "REASON: beyond the scale")
      = Returned (3, "beyond the scale"))
  /\ 0 <= 3 <= 3.
Proof.
  assert (Hrun : Judge._parse_judge_response Sample.engine
                   ("SCORE: 9" ++ Py.nl ++ "REASON: beyond the scale")
                 = Returned (3, "beyond the scale")) by reflexivity.
  split; [split; [exact sample_engine_digits | exact Hrun]|].
  exact (proj1 (parsed_judge_score_in_range Sample.engine _ _ _
                  sample_engine_digits Hrun)).
Defined.

Lemma call_judge_score_range re provider prompt w score reason w' :
  Facts.digits_0_to_3 re ->
  Judge._call_judge re provider prompt w = (Returned (score, reason), w') ->
  0 <= score <= 3.
Proof.
  intros Hdig.
  unfold Judge._call_judge, try_except, bind, Provider.query, perform, lift, ret.
  destruct (answer provider (tick w) (Judge.judge_args prompt)) as [resp|e].
  2:{ intros [= <- _ _]. lia. }
  destruct (Judge._parse_judge_response re (text resp)) as [[sc why]|e'] eqn:Hp.
  - pose proof (proj1 (parse_range re (text resp) sc why Hdig Hp)) as Hsc.
    destruct (error resp) as [e|]; [destruct (Py.truthy e)|];
      intros [= <- _ _]; lia.
  - destruct (error resp) as [e|]; [destruct (Py.truthy e)|];
      intros [= <- _ _]; lia.
Qed.

Lemma resolution_between (p t : Z) (s r : Q) :
  Z.min p t <= fst (Spec.resolution p t s r) <= Z.max p t.
Proof.
  assert (Havg : Z.min p t <= Py.round (inject_Z (p + t) / 2) <= Z.max p t).
  { apply round_between. rewrite inject_Z_plus.
    pose proof (Z.le_min_l p t) as H1. pose proof (Z.le_min_r p t) as H2.
    pose proof (Z.le_max_l p t) as H3. pose proof (Z.le_max_r p t) as H4.
    rewrite Zle_Qle in H1, H2, H3, H4.
    split.
    - apply Qle_shift_div_l; lra.
    - apply Qle_shift_div_r; lra. }
  unfold Spec.resolution.
  destruct (Z.abs (t - p) <=? 1); [cbn; lia|].
  destruct (Z.abs (t - _) <=? 1); cbn; exact Havg.
Qed.

Lemma judge_scores_range :
  forall (re : ReEngine) (test_name category : string) (prompts : list string)
         (rounds : list Message) (rubric p : string) (A : Py.dict BaseProvider)
         (s r : Q) (enable : bool) (w w' : World)
         (res : Judge.JudgeResult) (audit : Judge.JudgeAudit),
    Facts.digits_0_to_3 re ->
    Judge.evaluate_judge re test_name category prompts rounds rubric
                         p A s r enable w = (Returned (res, audit), w') ->
    0 <= Judge.score_raw res <= 3
    /\ (0 <= Judge.normalized res <= 1)%Q
    /\ 0 <= Judge.primary_score audit <= 3.
Proof.
  intros re tn cat prompts rounds rubric p A s r enable w w' res audit Hdig Hrun.
  destruct (evaluate_judge_path re tn cat prompts rounds rubric p A s r enable w)
    as (out & w2 & Hrun' & Hpath).
  rewrite Hrun in Hrun'. injection Hrun' as <- <-.
  assert (Hnorm : forall z, 0 <= z <= 3 -> (0 <= inject_Z z / 3 <= 1)%Q).
  { intros z [H0 H3]. rewrite Zle_Qle in H0, H3.
    change (inject_Z 0) with 0%Q in H0. change (inject_Z 3) with 3%Q in H3. split.
    - apply Qle_shift_div_l; lra.
    - apply Qle_shift_div_r; lra. }
  inversion Hpath; subst; cbn.
  - repeat split; try lia; lra.
  - match goal with
    | H : Judge._call_judge _ _ _ _ = _ |- _ =>
        pose proof (call_judge_score_range _ _ _ _ _ _ _ Hdig H) as Hps
    end.
    repeat split; try lia; now apply Hnorm.
  - repeat match goal with
           | H : Judge._call_judge _ _ _ _ = _ |- _ =>
               apply (call_judge_score_range _ _ _ _ _ _ _ Hdig) in H
           end.
    pose proof (resolution_between ps ts s r) as Hres.
    assert (Hfinal : 0 <= fst (Spec.resolution ps ts s r) <= 3) by lia.
    repeat split; try lia; now apply Hnorm.
Qed.

(** X7. With an engine that answers the digit pattern as the pattern
    requires, the raw score of every judge evaluation lies between 0 and 3
    and the judge-layer score between 0.0 and 1.0. *)
Theorem judge_layer_score_in_unit_interval :
  forall (re : ReEngine) (test_name category : string) (prompts : list string)
         (rounds : list Message) (rubric p : string) (A : Py.dict BaseProvider)
         (s r : Q) (enable : bool) (w w' : World)
         (res : Judge.JudgeResult) (audit : Judge.JudgeAudit),
    Facts.digits_0_to_3 re ->
    Judge.evaluate_judge re test_name category prompts rounds rubric
                         p A s r enable w = (Returned (res, audit), w') ->
    0 <= Judge.score_raw res <= 3
    /\ (0 <= Judge.normalized res <= 1)%Q
    /\ 0 <= Judge.primary_score audit <= 3.
Proof. exact judge_scores_range. Qed.

Lemma judge_layer_score_in_unit_interval_witness :
  exists res audit w',
    Judge.evaluate_judge Sample.engine "bare" "demo" ["Say something."]
                         [Sample.assistant "hello"] "Score 0-3."
                         "claude" Sample.three 1 1 true Sample.w0
    = (Returned (res, audit), w')
    /\ Facts.digits_0_to_3 Sample.engine
    /\ (0 <= Judge.normalized res <= 1)%Q.
Proof.
  destruct (evaluate_judge_path Sample.engine "bare" "demo"
              ["Say something."] [Sample.assistant "hello"] "Score 0-3."
              "claude" Sample.three 1 1 true Sample.w0)
    as ([res audit] & w' & Hrun & _).
  exists res, audit, w'. split; [exact Hrun|]. split; [exact sample_engine_digits|].
  exact (proj1 (proj2 (judge_layer_score_in_unit_interval _ _ _ _ _ _ _ _ _ _ _ _ _ _ _
                         sample_engine_digits Hrun))).
Defined.

(** X8. A tiebreak never moves the final raw score outside the two judges'
    scores: it lies between the primary and the tiebreak score, and it is the
    primary score itself when the two differ by at most one point. *)
Theorem tiebreak_result_between_the_judges :
  forall (re : ReEngine) (test_name category : string) (prompts : list string)
         (rounds : list Message) (rubric p : string) (A : Py.dict BaseProvider)
         (s r : Q) (enable : bool) (w w' : World)
         (res : Judge.JudgeResult) (audit : Judge.JudgeAudit),
    Judge.evaluate_judge re test_name category prompts rounds rubric
                         p A s r enable w = (Returned (res, audit), w') ->
    Judge.tiebreak_used res = true ->
    exists tb,
      Judge.tiebreak_score audit = Some tb
      /\ Z.min (Judge.primary_score audit) tb <= Judge.score_raw res
         <= Z.max (Judge.primary_score audit) tb
      /\ (Z.abs (tb - Judge.primary_score audit) <= 1 ->
          Judge.score_raw res = Judge.primary_score audit).
Proof.
  intros re tn cat prompts rounds rubric p A s r enable w w' res audit Hrun Hused.
  destruct (evaluate_judge_path re tn cat prompts rounds rubric p A s r enable w)
    as (out & w2 & Hrun' & Hpath).
  rewrite Hrun in Hrun'. injection Hrun' as <- <-.
  inversion Hpath; subst; try discriminate Hused.
  exists ts. cbn. split; [reflexivity|]. split.
  - apply resolution_between.
  - intros Hclose. unfold Spec.resolution.
    apply Z.leb_le in Hclose. now rewrite Hclose.
Qed.

Lemma tiebreak_result_between_the_judges_witness :
  exists res audit w',
    Judge.evaluate_judge Sample.engine "bare" "demo" ["Say something."]
                         [Sample.assistant "hello"] "Score 0-3."
                         "claude" Sample.three 1 1 true Sample.w0
    = (Returned (res, audit), w')
    /\ Judge.tiebreak_used res = true
    /\ exists tb, Judge.tiebreak_score audit = Some tb
                  /\ Z.min (Judge.primary_score audit) tb <= Judge.score_raw res
                     <= Z.max (Judge.primary_score audit) tb.
Proof.
  match eval vm_compute in
        (Judge.evaluate_judge Sample.engine "bare" "demo" ["Say something."]
                              [Sample.assistant "hello"] "Score 0-3."
                              "claude" Sample.three 1 1 true Sample.w0) with
  | (Returned (?res, ?audit), ?w') =>
      assert (E : Judge.evaluate_judge Sample.engine "bare" "demo" ["Say something."]
                    [Sample.assistant "hello"] "Score 0-3."
                    "claude" Sample.three 1 1 true Sample.w0
                  = (Returned (res, audit), w')) by (vm_compute; reflexivity);
      exists res, audit, w'
  end.
  split; [exact E|]. split; [reflexivity|].
  destruct (tiebreak_result_between_the_judges _ _ _ _ _ _ _ _ _ _ _ _ _ _ _
              E eq_refl) as (tb & Htb & Hbetween & _).
  exists tb. split; assumption.
Defined.

(** X9. The audit is consistent with the result: it names the same primary
    judge; its label is one of the four resolution labels and is "primary"
    exactly when no tiebreak took place; the three tiebreak fields are set
    together, exactly when a tiebreak took place; without a tiebreak the
    final raw score is the primary score. *)
Theorem judge_audit_is_consistent :
  forall (re : ReEngine) (test_name category : string) (prompts : list string)
         (rounds : list Message) (rubric p : string) (A : Py.dict BaseProvider)
         (s r : Q) (enable : bool) (w : World),
  exists res audit w',
    Judge.evaluate_judge re test_name category prompts rounds rubric
                         p A s r enable w = (Returned (res, audit), w')
    /\ Judge.primary_judge audit = Judge.judge_provider_id res
    /\ In (Judge.final_source audit) Facts.labels
    /\ (Judge.final_source audit = "primary" <-> Judge.tiebreak_used res = false)
    /\ (if Judge.tiebreak_used res
        then Judge.tiebreak_judge audit <> None
             /\ Judge.tiebreak_score audit <> None
             /\ Judge.tiebreak_reason audit <> None
        else Judge.tiebreak_judge audit = None
             /\ Judge.tiebreak_score audit = None
             /\ Judge.tiebreak_reason audit = None
             /\ Judge.score_raw res = Judge.primary_score audit).
Proof.
  intros re tn cat prompts rounds rubric p A s r enable w.
  destruct (evaluate_judge_path re tn cat prompts rounds rubric p A s r enable w)
    as ([res audit] & w' & Hrun & Hpath).
  exists res, audit, w'. split; [exact Hrun|].
  inversion Hpath; subst; cbn - [Spec.resolution].
  - repeat split; auto.
  - repeat split; auto.
  - unfold Spec.resolution.
    destruct (Z.abs (ts - ps) <=? 1); [|destruct (Z.abs (ts - _) <=? 1)];
      cbn; repeat split; auto; try discriminate.
Qed.

(** X10. No provider judges itself: unless it is itself called "none" (the
    marker of a missing judge), the evaluated provider is never the judge of
    the result, and it is never the tiebreak judge; the tiebreak judge also
    differs from the primary judge. *)
Theorem no_provider_judges_itself :
  forall (re : ReEngine) (test_name category : string) (prompts : list string)
         (rounds : list Message) (rubric p : string) (A : Py.dict BaseProvider)
         (s r : Q) (enable : bool) (w : World),
  exists res audit w',
    Judge.evaluate_judge re test_name category prompts rounds rubric
                         p A s r enable w = (Returned (res, audit), w')
    /\ (Judge.judge_provider_id res = p -> p = "none")
    /\ Judge.tiebreak_judge audit <> Some p
    /\ Judge.tiebreak_judge audit <> Some (Judge.primary_judge audit).
Proof.
  intros re tn cat prompts rounds rubric p A s r enable w.
  destruct (evaluate_judge_path re tn cat prompts rounds rubric p A s r enable w)
    as ([res audit] & w' & Hrun & Hpath).
  exists res, audit, w'. split; [exact Hrun|].
  inversion Hpath; subst; cbn.
  - repeat split; auto; discriminate.
  - match goal with
    | H : Judge._select_judge _ _ = Some _ |- _ =>
        apply _select_judge_sound in H as [_ Hne]
    end.
    repeat split; try discriminate; try congruence; intros ->; contradiction.
  - match goal with
    | H : Judge._select_judge _ _ = Some _ |- _ =>
        apply _select_judge_sound in H as [_ Hne]
    end.
    match goal with
    | H : Judge._select_tiebreak_judge _ _ _ = Some _ |- _ =>
        apply _select_tiebreak_judge_sound in H as (_ & Hp & Hj)
    end.
    repeat split; try congruence; intros ->; contradiction.
Qed.

(** ** Structural checks, continued *)

Section CheckResults.

Variable re : ReEngine.

Lemma regex_present_result check text :
  let r := Structural._check_regex_present re check text in
  (Structural.score r = 0%Q \/ Structural.score r = (1 # 2)%Q
   \/ Structural.score r = 1%Q)
  /\ (Structural.passed r = true <-> Structural.score r = 1%Q).
Proof.
  unfold Structural._check_regex_present.
  destruct (re_error re (pattern check)); [cbn; split; [auto | split; discriminate]|].
  destruct (re_search re _ _ text); cbn; split; auto; split; auto; discriminate.
Qed.

Lemma regex_absent_result check text :
  let r := Structural._check_regex_absent re check text in
  (Structural.score r = 0%Q \/ Structural.score r = (1 # 2)%Q
   \/ Structural.score r = 1%Q)
  /\ (Structural.passed r = true <-> Structural.score r = 1%Q).
Proof.
  unfold Structural._check_regex_absent.
  destruct (re_error re (pattern check)); [cbn; split; [auto | split; discriminate]|].
  destruct (re_search re _ _ text); cbn; split; auto; split; auto; discriminate.
Qed.

Lemma min_lines_result check text :
  let r := Structural._check_min_lines check text in
  (Structural.score r = 0%Q \/ Structural.score r = (1 # 2)%Q
   \/ Structural.score r = 1%Q)
  /\ (Structural.passed r = true <-> Structural.score r = 1%Q).
Proof.
  unfold Structural._check_min_lines. cbn [Structural.mkResult Structural.score
                                             Structural.passed].
  destruct (_ <=? _); [split; auto; split; auto|].
  destruct (Py.qleb _ _); split; auto; split; discriminate.
Qed.

Lemma min_items_result check text :
  let r := Structural._check_min_items re check text in
  (Structural.score r = 0%Q \/ Structural.score r = (1 # 2)%Q
   \/ Structural.score r = 1%Q)
  /\ (Structural.passed r = true <-> Structural.score r = 1%Q).
Proof.
  unfold Structural._check_min_items. cbn [Structural.mkResult Structural.score
                                             Structural.passed].
  destruct (_ <=? _); [split; auto; split; auto|].
  destruct (Py.qleb _ _); split; auto; split; discriminate.
Qed.

Lemma numeric_in_range_result check text :
  let r := Structural._check_numeric_in_range re check text in
  (Structural.score r = 0%Q \/ Structural.score r = (1 # 2)%Q
   \/ Structural.score r = 1%Q)
  /\ (Structural.passed r = true <-> Structural.score r = 1%Q).
Proof.
  unfold Structural._check_numeric_in_range.
  cbn [Structural.mkResult Structural.score Structural.passed].
  destruct (existsb _ _); split; auto; split; auto; discriminate.
Qed.

Lemma consistency_result check texts :
  let r := Structural._check_multi_round_consistency re check texts in
  (Structural.score r = 0%Q \/ Structural.score r = (1 # 2)%Q
   \/ Structural.score r = 1%Q)
  /\ (Structural.passed r = true <-> Structural.score r = 1%Q).
Proof.
  unfold Structural._check_multi_round_consistency.
  destruct (_ <? 2); [cbn; split; auto; split; auto|].
  cbn [Structural.mkResult Structural.score Structural.passed].
  destruct (Py.qleb _ _); [split; auto; split; auto|].
  destruct (Py.qleb _ _); split; auto; split; discriminate.
Qed.

Lemma word_count_result check text :
  let r := Structural._check_word_count_range check text in
  (Structural.score r = 0%Q \/ Structural.score r = (1 # 2)%Q
   \/ Structural.score r = 1%Q)
  /\ (Structural.passed r = true <-> Structural.score r = 1%Q).
Proof.
  unfold Structural._check_word_count_range.
  cbn [Structural.mkResult Structural.score Structural.passed].
  destruct ((_ <=? _) && (_ <=? _)); [split; auto; split; auto|].
  repeat match goal with
         | |- context [if ?b then _ else _] => destruct b
         end;
    split; auto; split; discriminate.
Qed.

Lemma single_check_result check texts all_text :
  let r := Structural._evaluate_single_check re check texts all_text in
  (Structural.score r = 0%Q \/ Structural.score r = (1 # 2)%Q
   \/ Structural.score r = 1%Q)
  /\ (Structural.passed r = true <-> Structural.score r = 1%Q).
Proof.
  unfold Structural._evaluate_single_check, Structural.evaluators.
  cbn [Py.get].
  repeat match goal with
         | |- context [String.eqb ?a (check_type check)] =>
             destruct (String.eqb a (check_type check))
         end;
    first [apply regex_present_result | apply regex_absent_result
           | apply min_lines_result | apply min_items_result
           | apply numeric_in_range_result | apply consistency_result
           | apply word_count_result
           | cbn; split; [auto | split; discriminate]].
Qed.

End CheckResults.

(** X11. Every check, of whatever kind (an unknown kind and an invalid
    pattern included), scores 0.0, 0.5 or 1.0, and it is marked passed
    exactly when it scores 1.0. *)
Theorem check_scores_are_three_valued :
  forall (re : ReEngine) (check : StructuralCheck)
         (assistant_texts : list string) (all_text : string),
    let r := Structural._evaluate_single_check re check assistant_texts all_text in
    (Structural.score r = 0%Q \/ Structural.score r = (1 # 2)%Q
     \/ Structural.score r = 1%Q)
    /\ (Structural.passed r = true <-> Structural.score r = 1%Q).
Proof. exact single_check_result. Qed.

(** X12. When the engine rejects the pattern with [re.error], the error is
    caught: the presence check and the absence check both return a failed
    result with score 0.0 whose detail is "Regex invalido: " followed by the
    error. When the engine accepts the pattern and the search returns, the
    two checks are complementary: one passes exactly when the other fails.
    Exceptions of other classes are not caught by either check and are
    outside this statement. *)
Theorem regex_checks_complementary_or_both_failed :
  forall (re : ReEngine) (check : StructuralCheck) (text : string),
    let present := Structural._check_regex_present re check text in
    let absent := Structural._check_regex_absent re check text in
    (forall e, re_error re (pattern check) = Some e ->
               Structural.passed present = false
               /\ Structural.score present = 0%Q
               /\ Structural.detail present = "Regex invalido: " ++ e
               /\ Structural.passed absent = false
               /\ Structural.score absent = 0%Q
               /\ Structural.detail absent = "Regex invalido: " ++ e)
    /\ (re_error re (pattern check) = None ->
        Structural.passed present = negb (Structural.passed absent)
        /\ (Structural.score present + Structural.score absent == 1)%Q).
Proof.
  intros re check text present absent. subst present absent.
  unfold Structural._check_regex_present, Structural._check_regex_absent.
  destruct (re_error re (pattern check)) as [e|].
  - split; [|discriminate].
    intros e' [= <-]. cbn. repeat split.
  - split; [discriminate | intros _].
    destruct (re_search re _ _ text); cbn; split; reflexivity.
Qed.

(** ** The weighted aggregate *)

Lemma sum_from (l : list Q) (a : Q) :
  (fold_left Qplus l a == a + fold_left Qplus l 0)%Q.
Proof.
  revert a. induction l as [|x l IH]; intros a; simpl; [ring|].
  rewrite (IH (a + x)%Q), (IH (0 + x)%Q). ring.
Qed.

Lemma sum_cons (x : Q) (l : list Q) : (Py.sum (x :: l) == x + Py.sum l)%Q.
Proof. unfold Py.sum. simpl. rewrite sum_from. ring. Qed.

Lemma clamp_inside (x : Q) : (0 <= x <= 1)%Q -> (Py.max 0 (Py.min 1 x) == x)%Q.
Proof.
  intros [H0 H1]. unfold Py.max, Py.min.
  destruct (Py.qltb x 1) eqn:Hx.
  - destruct (Py.qltb 0 x) eqn:Hx0; [reflexivity|].
    apply not_true_iff_false in Hx0. rewrite qltb_iff in Hx0.
    apply Qnot_lt_le in Hx0. lra.
  - apply not_true_iff_false in Hx. rewrite qltb_iff in Hx.
    apply Qnot_lt_le in Hx. change (Py.qltb 0 1) with true. cbv iota. lra.
Qed.

Lemma weighted_bounds re texts all_text (cs : list StructuralCheck) :
  Forall (fun c => (0 <= weight c)%Q) cs ->
  (0 <= Py.sum (map (fun c =>
                       (Structural.score
                          (Structural._evaluate_single_check re c texts all_text)
                        * weight c)%Q) cs)
   <= Py.sum (map weight cs))%Q.
Proof.
  induction 1 as [|c cs Hc Hw IH]; [cbn; split; apply Qle_refl|].
  cbn [map]. rewrite !sum_cons.
  destruct (single_check_result re c texts all_text) as [[-> | [-> | ->]] _]; lra.
Qed.

Section Aggregate.

Variable re : ReEngine.
Variable checks : list StructuralCheck.
Variable rounds : list Message.

Let texts := Structural._extract_assistant_texts rounds.
Let all_text := Py.join Py.nl texts.
Let eval (c : StructuralCheck) :=
  Structural._evaluate_single_check re c texts all_text.
Let out := Structural.evaluate_structural re checks rounds.

Lemma aggregate_fold (cs : list StructuralCheck) results tw ws :
  fold_left
    (fun acc check =>
       let '(results, total_weight, weighted_score) := acc in
       let result := Structural._evaluate_single_check re check texts all_text in
       ((results ++ [result])%list, (total_weight + weight check)%Q,
        (weighted_score + Structural.score result * weight check)%Q))
    cs (results, tw, ws)
  = ((results ++ map eval cs)%list,
     fold_left Qplus (map weight cs) tw,
     fold_left Qplus (map (fun c => (Structural.score (eval c) * weight c)%Q) cs) ws).
Proof.
  revert results tw ws. induction cs as [|c cs IH]; intros results tw ws; simpl.
  - now rewrite app_nil_r.
  - rewrite IH. now rewrite <- app_assoc.
Qed.

Lemma aggregate_fields :
  Structural.details out = map eval checks
  /\ Structural.total_weight out = Py.sum (map weight checks)
  /\ Structural.weighted_score out
     = Py.sum (map (fun c => (Structural.score (eval c) * weight c)%Q) checks).
Proof.
  subst out. unfold Structural.evaluate_structural.
  destruct checks as [|c cs] eqn:Hcs; [cbn; auto|].
  fold texts. fold all_text. rewrite aggregate_fold. cbn. auto.
Qed.

Lemma aggregate_normalized :
  checks <> [] ->
  Structural.normalized out
  = Py.max 0 (Py.min 1 (if Py.qltb 0 (Structural.total_weight out)
                        then (Structural.weighted_score out
                              / Structural.total_weight out)%Q
                        else 0%Q)).
Proof.
  subst out. unfold Structural.evaluate_structural.
  destruct checks as [|c cs] eqn:Hcs; [congruence|]. intros _.
  fold texts. fold all_text. rewrite aggregate_fold. reflexivity.
Qed.

End Aggregate.

(** X13. The structural layer reports one result per check, in order; its
    total weight is the sum of the weights and its weighted score the sum of
    score times weight. When no weight is negative and the total is positive
    the normalized score is the weighted mean itself: the clamp changes
    nothing. *)
Theorem structural_score_is_weighted_mean :
  forall (re : ReEngine) (checks : list StructuralCheck) (rounds : list Message),
    let texts := Structural._extract_assistant_texts rounds in
    let eval c :=
      Structural._evaluate_single_check re c texts (Py.join Py.nl texts) in
    let out := Structural.evaluate_structural re checks rounds in
    Structural.details out = map eval checks
    /\ Structural.total_weight out = Py.sum (map weight checks)
    /\ Structural.weighted_score out
       = Py.sum (map (fun c => (Structural.score (eval c) * weight c)%Q) checks)
    /\ (Forall (fun c => (0 <= weight c)%Q) checks ->
        (0 < Structural.total_weight out)%Q ->
        (Structural.normalized out
         == Structural.weighted_score out / Structural.total_weight out)%Q).
Proof.
  intros re checks rounds texts eval out. subst out.
  destruct (aggregate_fields re checks rounds) as (Hd & Ht & Hs).
  repeat split; try assumption.
  intros Hw Hpos.
  assert (Hne : checks <> []).
  { intros ->. cbn in Hpos. lra. }
  set (out := Structural.evaluate_structural re checks rounds) in *.
  assert (Hb : (0 <= Structural.weighted_score out
                <= Structural.total_weight out)%Q).
  { rewrite Hs, Ht. apply weighted_bounds. exact Hw. }
  destruct Hb as [H0 H1].
  subst out. rewrite (aggregate_normalized re checks rounds Hne).
  apply qltb_iff in Hpos. rewrite Hpos. apply qltb_iff in Hpos.
  apply clamp_inside.
  split.
  - apply Qle_shift_div_l; lra.
  - apply Qle_shift_div_r; lra.
Qed.

Lemma weights_sum_nonpositive (checks : list StructuralCheck) :
  Forall (fun c => (weight c <= 0)%Q) checks ->
  (Py.sum (map weight checks) <= 0)%Q.
Proof.
  induction 1 as [|c checks Hc _ IH]; [cbn; lra|].
  cbn [map]. rewrite sum_cons. lra.
Qed.

(** X14. When no check of a non-empty list has a positive weight (every
    weight is zero or negative, so that the running total of the weights
    never exceeds zero), the normalized score is 0.0, even if every check
    passes; the empty list scores 1.0. *)
Theorem structural_score_zero_without_positive_weight :
  forall (re : ReEngine) (checks : list StructuralCheck) (rounds : list Message),
    checks <> [] ->
    Forall (fun c => (weight c <= 0)%Q) checks ->
    Structural.normalized (Structural.evaluate_structural re checks rounds) = 0%Q
    /\ Structural.normalized (Structural.evaluate_structural re [] rounds) = 1%Q.
Proof.
  intros re checks rounds Hne Hall.
  split; [|reflexivity].
  pose proof (weights_sum_nonpositive checks Hall) as Hsum.
  rewrite (aggregate_normalized re checks rounds Hne).
  destruct (aggregate_fields re checks rounds) as (_ & -> & _).
  destruct (Py.qltb 0 (Py.sum (map weight checks))) eqn:Hq; [|reflexivity].
  apply qltb_iff in Hq. lra.
Qed.

Lemma structural_score_zero_without_positive_weight_witness :
  (([Sample2.weightless] : list StructuralCheck) <> []
   /\ Forall (fun c => (weight c <= 0)%Q) [Sample2.weightless])
  /\ Structural.passed
       (Structural._check_min_lines Sample2.weightless Sample.three_lines) = true
  /\ Structural.normalized
       (Structural.evaluate_structural Sample.engine [Sample2.weightless]
          [Sample.assistant Sample.three_lines]) = 0%Q.
Proof.
  assert (Hne : ([Sample2.weightless] : list StructuralCheck) <> []) by discriminate.
  assert (Hsum : Forall (fun c => (weight c <= 0)%Q) [Sample2.weightless])
    by (repeat constructor; vm_compute; discriminate).
  split; [split; assumption|]. split; [reflexivity|].
  exact (proj1 (structural_score_zero_without_positive_weight Sample.engine
                  [Sample2.weightless] [Sample.assistant Sample.three_lines]
                  Hne Hsum)).
Defined.

(** ** What the layers read of a conversation *)

Lemma assistant_match {A} (msg : Message) (x y : A) :
  match msg_role msg with
  | Some "assistant" => x
  | _ => y
  end = if Facts.is_assistant msg then x else y.
Proof.
  unfold Facts.is_assistant.
  destruct (msg_role msg) as [ro|]; [|reflexivity].
  repeat (destruct ro as [|[[] [] [] [] [] [] [] []] ro]; try reflexivity).
Qed.

Lemma assistant_texts_filter (rounds : list Message) :
  Structural._extract_assistant_texts (filter Facts.is_assistant rounds)
  = Structural._extract_assistant_texts rounds.
Proof.
  unfold Structural._extract_assistant_texts.
  induction rounds as [|msg rounds IH]; [reflexivity|].
  cbn [filter flat_map]. rewrite (assistant_match msg).
  destruct (Facts.is_assistant msg) eqn:Hm.
  - cbn [flat_map]. rewrite (assistant_match msg), Hm, IH. reflexivity.
  - exact IH.
Qed.

Lemma assistant_texts_are_contents (rounds : list Message) :
  Structural._extract_assistant_texts rounds
  = map Facts.content_of (filter Facts.is_assistant rounds).
Proof.
  unfold Structural._extract_assistant_texts.
  induction rounds as [|msg rounds IH]; [reflexivity|].
  cbn [filter flat_map]. rewrite (assistant_match msg).
  destruct (Facts.is_assistant msg); cbn; now rewrite IH.
Qed.

Lemma full_response_is_join (rounds : list Message) :
  Reference._extract_full_response rounds
  = Py.join Py.nl (Structural._extract_assistant_texts rounds).
Proof. reflexivity. Qed.

Lemma format_responses_filter (rounds : list Message) (n : Z) :
  Judge.format_responses_loop (filter Facts.is_assistant rounds) n
  = Judge.format_responses_loop rounds n.
Proof.
  revert n. induction rounds as [|msg rounds IH]; intros n; [reflexivity|].
  cbn [filter Judge.format_responses_loop]. rewrite (assistant_match msg).
  destruct (Facts.is_assistant msg) eqn:Hm.
  - cbn [Judge.format_responses_loop]. rewrite (assistant_match msg), Hm, IH.
    reflexivity.
  - apply IH.
Qed.

(** X15. Only assistant messages count: the structural score, the reference
    score and the responses shown to the judge are the same for a
    conversation and for its assistant messages alone; the texts checked are
    the contents of the assistant messages, in order. *)
Theorem layers_read_assistant_messages_only :
  forall (re : ReEngine) (checks : list StructuralCheck) (test : TestDef)
         (rounds : list Message),
    Structural.evaluate_structural re checks (filter Facts.is_assistant rounds)
    = Structural.evaluate_structural re checks rounds
    /\ Reference.evaluate_reference re test (filter Facts.is_assistant rounds)
       = Reference.evaluate_reference re test rounds
    /\ Judge._format_responses (filter Facts.is_assistant rounds)
       = Judge._format_responses rounds
    /\ Structural._extract_assistant_texts rounds
       = map Facts.content_of (filter Facts.is_assistant rounds).
Proof.
  intros re checks test rounds. repeat split.
  - unfold Structural.evaluate_structural. now rewrite assistant_texts_filter.
  - unfold Reference.evaluate_reference.
    now rewrite !full_response_is_join, assistant_texts_filter.
  - unfold Judge._format_responses. now rewrite format_responses_filter.
  - apply assistant_texts_are_contents.
Qed.

(** X16. Two assistant rounds that share no word of more than three
    characters fail the consistency check with score 0.0, for every
    threshold that is zero or negative (the default 0.15 is used) or at
    least 1e-300 (so that half of it is still a positive double). *)
Theorem disjoint_rounds_are_inconsistent :
  forall (re : ReEngine) (check : StructuralCheck) (first second : string),
    Py.inter (Structural.word_set re first) (Structural.word_set re second) = [] ->
    Facts.ordinary_threshold (threshold check) ->
    let r := Structural._check_multi_round_consistency re check [first; second] in
    Structural.score r = 0%Q /\ Structural.passed r = false.
Proof.
  intros re check first second Hdis _ r. subst r.
  unfold Structural._check_multi_round_consistency.
  cbn [Py.len List.length Z.of_nat Pos.of_succ_nat Pos.succ Z.ltb Z.compare
       Pos.compare Pos.compare_cont map Structural.similarities].
  rewrite Hdis.
  set (sim := match Py.union _ _ with [] => 0%Q | _ => _ end).
  assert (Hsim : (sim == 0)%Q).
  { subst sim. destruct (Py.union _ _); [reflexivity|]. cbn. reflexivity. }
  set (avg := (Py.sum [sim] / inject_Z 1)%Q).
  assert (Havg : (avg == 0)%Q).
  { subst avg. rewrite sum_cons. cbn. rewrite Hsim. reflexivity. }
  set (threshold := if Py.qltb 0 (threshold check) then _ else _).
  assert (Hpos : (0 < threshold)%Q).
  { subst threshold. destruct (Py.qltb 0 _) eqn:Ht; [now apply qltb_iff | reflexivity]. }
  cbn [Structural.mkResult Structural.score Structural.passed].
  assert (H1 : Py.qleb threshold avg = false).
  { apply not_true_iff_false. rewrite qleb_iff. lra. }
  assert (H2 : Py.qleb (threshold * (5 # 10)) avg = false).
  { apply not_true_iff_false. rewrite qleb_iff. lra. }
  rewrite H1, H2. auto.
Qed.

Lemma disjoint_rounds_are_inconsistent_witness :
  (Py.inter (Structural.word_set Sample2.words "alpha beta gamma")
            (Structural.word_set Sample2.words "delta epsilon") = []
   /\ Facts.ordinary_threshold (threshold Sample.min_lines_5))
  /\ Structural.score
       (Structural._check_multi_round_consistency
          Sample2.words Sample.min_lines_5 ["alpha beta gamma"; "delta epsilon"])
     = 0%Q.
Proof.
  assert (H : Py.inter (Structural.word_set Sample2.words "alpha beta gamma")
                       (Structural.word_set Sample2.words "delta epsilon") = [])
    by reflexivity.
  assert (Ht : Facts.ordinary_threshold (threshold Sample.min_lines_5))
    by (right; vm_compute; discriminate).
  split; [split; assumption|].
  exact (proj1 (disjoint_rounds_are_inconsistent Sample2.words Sample.min_lines_5
                  "alpha beta gamma" "delta epsilon" H Ht)).
Defined.

(** ** Reference checks, continued *)

Lemma ratio_unit (a b : Z) :
  0 <= a <= b -> 0 < b -> (0 <= inject_Z a / inject_Z b <= 1)%Q.
Proof.
  intros [Ha Hab] Hb.
  rewrite Zle_Qle in Ha, Hab. rewrite Zlt_Qlt in Hb.
  change (inject_Z 0) with 0%Q in *.
  split.
  - apply Qle_shift_div_l; lra.
  - apply Qle_shift_div_r; lra.
Qed.

Lemma count_ratio_unit {A} (f : A -> bool) (l : list A) :
  l <> [] ->
  (0 <= inject_Z (Py.len (filter f l)) / inject_Z (Py.len l) <= 1)%Q.
Proof.
  intros Hne. apply ratio_unit; unfold Py.len.
  - pose proof (filter_length_le f l). lia.
  - destruct l; [congruence | cbn; lia].
Qed.

Lemma max0_unit (x : Q) : (x <= 1)%Q -> (0 <= Py.max 0 x <= 1)%Q.
Proof.
  intros Hx. unfold Py.max.
  destruct (Py.qltb 0 x) eqn:H0.
  - apply qltb_iff in H0. split; lra.
  - split; lra.
Qed.

Lemma inter_le_union (a b : list string) :
  NoDup a -> (List.length (Py.inter a b) <= List.length (Py.union a b))%nat.
Proof.
  intros Ha. unfold Py.inter, Py.union.
  apply NoDup_incl_length.
  - now apply NoDup_filter.
  - intros x Hx. apply filter_In in Hx as [Hx _].
    apply nodup_In. apply in_or_app. now left.
Qed.

Lemma jaccard_unit (a b : list string) :
  NoDup a ->
  (0 <= match Py.union a b with
        | [] => 0
        | _ => inject_Z (Py.len (Py.inter a b)) / inject_Z (Py.len (Py.union a b))
        end <= 1)%Q.
Proof.
  intros Ha. pose proof (inter_le_union a b Ha) as Hle.
  destruct (Py.union a b) as [|u us] eqn:Hu; [split; lra|].
  apply ratio_unit; unfold Py.len; cbn [List.length] in *; lia.
Qed.

Section SubScores.

Variable re : ReEngine.

Lemma keyword_coverage_unit text keywords :
  (0 <= Reference._keyword_coverage text keywords <= 1)%Q.
Proof.
  unfold Reference._keyword_coverage.
  destruct keywords as [|k ks] eqn:Hk; [split; lra|].
  apply count_ratio_unit. discriminate.
Qed.

Lemma anti_keyword_unit text anti :
  (0 <= Reference._anti_keyword_absence re text anti <= 1)%Q.
Proof.
  unfold Reference._anti_keyword_absence.
  destruct anti as [|k ks] eqn:Hk; [split; lra|].
  apply max0_unit.
  match goal with
  | |- context [(inject_Z (Py.len (filter ?f ?l)) / _)%Q] =>
      pose proof (@count_ratio_unit _ f l ltac:(discriminate)) as H
  end.
  lra.
Qed.

Lemma numeric_accuracy_unit text ranges :
  (0 <= Reference._numeric_accuracy re text ranges <= 1)%Q.
Proof.
  unfold Reference._numeric_accuracy.
  destruct ranges as [|k ks] eqn:Hk; [split; lra|].
  apply count_ratio_unit. discriminate.
Qed.

Lemma text_similarity_unit response truth :
  (0 <= Reference._text_similarity re response truth <= 1)%Q.
Proof.
  unfold Reference._text_similarity.
  assert (Ha : NoDup (Reference._get_trigrams re (Py.lower response)))
    by apply NoDup_nodup.
  destruct (Reference._get_trigrams re (Py.lower response)) as [|x a];
    [split; lra|].
  destruct (Reference._get_trigrams re (Py.lower truth)) as [|y b];
    [split; lra|].
  now apply jaccard_unit.
Qed.

Lemma anti_hallucination_unit text :
  (0 <= fst (Reference._anti_hallucination_check re text) <= 1)%Q.
Proof.
  unfold Reference._anti_hallucination_check.
  destruct (flat_map _ _) as [|f fs]; [cbn; split; lra|].
  cbn [fst]. apply max0_unit.
  unfold Py.min.
  destruct (Py.qltb 1 _); [lra|].
  assert (H : (0 <= inject_Z (Py.len (f :: fs)) * (15 # 100))%Q).
  { assert (Hl : 0 <= Py.len (f :: fs)) by (unfold Py.len; lia).
    rewrite Zle_Qle in Hl. change (inject_Z 0) with 0%Q in Hl. nra. }
  lra.
Qed.

End SubScores.

Lemma Forall_set {V} (P : V -> Prop) (d : Py.dict V) (k : string) (v : V) :
  Forall (fun kv => P (snd kv)) d -> P v ->
  Forall (fun kv => P (snd kv)) (Py.set d k v).
Proof.
  intros Hd Hv. induction Hd as [|[k' v'] d Hk Hd IH]; simpl.
  - constructor; [exact Hv | constructor].
  - destruct (String.eqb k' k); constructor; auto.
Qed.

Lemma mean_unit (l : list Q) :
  Forall (fun q => (0 <= q <= 1)%Q) l -> l <> [] ->
  (0 <= Py.sum l / inject_Z (Py.len l) <= 1)%Q.
Proof.
  intros Hl Hne.
  assert (Hsum : (0 <= Py.sum l <= inject_Z (Py.len l))%Q).
  { clear Hne. induction Hl as [|x l Hx Hl IH]; [split; apply Qle_refl|].
    rewrite sum_cons. unfold Py.len in *. cbn [List.length].
    rewrite Nat2Z.inj_succ. unfold Z.succ. rewrite inject_Z_plus.
    change (inject_Z 1) with 1%Q. lra. }
  assert (Hpos : (0 < inject_Z (Py.len l))%Q).
  { change 0%Q with (inject_Z 0). rewrite <- Zlt_Qlt.
    destruct l; [congruence | unfold Py.len; cbn; lia]. }
  split.
  - apply Qle_shift_div_l; lra.
  - apply Qle_shift_div_r; lra.
Qed.

Lemma evaluate_reference_entries re test rounds :
  let text := Reference._extract_full_response rounds in
  let out := Reference.evaluate_reference re test rounds in
  let entries := Facts.reference_entries re test text in
  Py.strip text <> "" ->
  Reference.sub_scores out = entries
  /\ Reference.normalized out
     = Py.max 0 (Py.min 1 (match entries with
                           | [] => 1%Q
                           | _ => (Py.sum (Py.values entries)
                                   / inject_Z (Py.len entries))%Q
                           end))
  /\ Reference.hallucination_flags out
     = if anti_hallucination test
       then snd (Reference._anti_hallucination_check re text) else [].
Proof.
  intros text out entries Htext. subst out entries.
  unfold Reference.evaluate_reference, Facts.reference_entries.
  fold text. apply truthy_iff in Htext. rewrite Htext. cbn [negb].
  destruct (reference_keywords test) as [|kw kws];
    destruct (reference_anti_keywords test) as [|ak aks];
    destruct (reference_numeric_ranges test) as [|nr nrs];
    destruct (ground_truth test) as [[|g gt]|];
    destruct (anti_hallucination test);
    try destruct (Reference._anti_hallucination_check re text) as [hal flags];
    repeat split.
Qed.

Lemma reference_entries_unit re test text :
  Forall (fun kv => (0 <= snd kv <= 1)%Q) (Facts.reference_entries re test text).
Proof.
  unfold Facts.reference_entries.
  repeat (apply Forall_app; split).
  - destruct (reference_keywords test); repeat constructor;
      apply keyword_coverage_unit.
  - destruct (reference_anti_keywords test); repeat constructor;
      apply anti_keyword_unit.
  - destruct (reference_numeric_ranges test); repeat constructor;
      apply numeric_accuracy_unit.
  - destruct (ground_truth test) as [[|g gt]|]; repeat constructor;
      apply text_similarity_unit.
  - destruct (anti_hallucination test); repeat constructor;
      apply anti_hallucination_unit.
Qed.

(** X17. The reference score always lies in [0.0, 1.0]. On a non-blank
    assistant text the recorded sub-scores are those of the applicable
    sub-checks, in the order keyword coverage, anti-keyword absence, numeric
    accuracy, text similarity, anti-hallucination; each lies in [0.0, 1.0],
    and when there is at least one the score is their plain mean (the clamp
    changes nothing). Hallucination flags are reported only for a test that
    asks for the anti-hallucination check. *)
Theorem reference_score_is_mean_of_unit_subscores :
  forall (re : ReEngine) (test : TestDef) (rounds : list Message),
    let text := Reference._extract_full_response rounds in
    let out := Reference.evaluate_reference re test rounds in
    (0 <= Reference.normalized out <= 1)%Q
    /\ (Py.strip text <> "" ->
        Reference.sub_scores out = Facts.reference_entries re test text
        /\ Forall (fun kv => (0 <= snd kv <= 1)%Q) (Reference.sub_scores out)
        /\ (Reference.sub_scores out <> [] ->
            (Reference.normalized out
             == Py.sum (Py.values (Reference.sub_scores out))
                / inject_Z (Py.len (Reference.sub_scores out)))%Q))
    /\ (anti_hallucination test = false -> Reference.hallucination_flags out = []).
Proof.
  intros re test rounds text out.
  destruct (string_dec (Py.strip text) "") as [Hblank | Htext].
  - subst out text. unfold Reference.evaluate_reference. rewrite Hblank. cbn.
    repeat split; try lra; try congruence.
  - destruct (evaluate_reference_entries re test rounds Htext) as (Hs & Hn & Hf).
    fold text in Hs, Hn, Hf. fold out in Hs, Hn, Hf.
    pose proof (reference_entries_unit re test text) as Hunit.
    split; [rewrite Hn; apply clamp_bounds|]. split.
    + intros _. rewrite Hs. split; [reflexivity|]. split; [exact Hunit|].
      intros Hne. rewrite Hn.
      destruct (Facts.reference_entries re test text) as [|e es] eqn:He;
        [congruence|].
      apply clamp_inside.
      replace (Py.len (e :: es)) with (Py.len (Py.values (e :: es)))
        by (unfold Py.len, Py.values; now rewrite length_map).
      apply mean_unit; [|discriminate].
      unfold Py.values. rewrite Forall_map. exact Hunit.
    + intros Hoff. rewrite Hf, Hoff. reflexivity.
Qed.

(** X18. The anti-hallucination score is 1.0 without flags and loses 0.15
    per flag: it is 1 - 0.15 n for n up to 6 flags and 0.0 from 7 flags on.
    Every flag is a matched text, cut to 80 characters, behind the prefix
    "Citacao suspeita: ". *)
Theorem hallucination_penalty_per_flag :
  forall (re : ReEngine) (text : string),
    let score := fst (Reference._anti_hallucination_check re text) in
    let flags := snd (Reference._anti_hallucination_check re text) in
    let n := Py.len flags in
    (n = 0 -> score = 1%Q)
    /\ (n <= 6 -> (score == 1 - inject_Z n * (15 # 100))%Q)
    /\ (7 <= n -> (score == 0)%Q)
    /\ flags
       = flat_map (fun pattern =>
                     map (fun m => "Citacao suspeita: " ++ Py.take 80 m)
                         (re_findall re pattern [IGNORECASE] text))
                  Reference.FAKE_CITATION_PATTERNS.
Proof.
  intros re text score flags n. subst score flags n.
  unfold Reference._anti_hallucination_check.
  destruct (flat_map _ _) as [|f fs] eqn:Hflags.
  - cbn. repeat split; auto; try lra. lia.
  - cbn [fst snd].
    set (n := Py.len (f :: fs)).
    assert (Hn : 1 <= n) by (subst n; unfold Py.len; cbn; lia).
    repeat split; try lia.
    + intros H6. rewrite Zle_Qle in H6, Hn.
      change (inject_Z 6) with 6%Q in H6. change (inject_Z 1) with 1%Q in Hn.
      unfold Py.max, Py.min.
      destruct (Py.qltb 1 _) eqn:H1.
      { apply qltb_iff in H1. lra. }
      destruct (Py.qltb 0 _) eqn:H0; [reflexivity|].
      apply not_true_iff_false in H0. rewrite qltb_iff in H0. lra.
    + intros H7. rewrite Zle_Qle in H7. change (inject_Z 7) with 7%Q in H7.
      unfold Py.max, Py.min.
      destruct (Py.qltb 1 _) eqn:H1.
      * reflexivity.
      * apply not_true_iff_false in H1. rewrite qltb_iff in H1. lra.
Qed.

(** ** Critical values and intervals *)

Lemma t_table_checked :
  forallb (fun n =>
             let df := Z.of_nat n in
             Py.qleb (Statistics._get_t_critical (df + 1))
                     (Statistics._get_t_critical df)
             && Py.qleb Statistics.Z_95 (Statistics._get_t_critical df)
             && Py.qleb (Statistics._get_t_critical df) (12706 # 1000))
          (seq 1 100) = true.
Proof. vm_compute. reflexivity. Qed.

Lemma t_inside_table (df : Z) :
  1 <= df <= 100 ->
  (Statistics._get_t_critical (df + 1) <= Statistics._get_t_critical df)%Q
  /\ (Statistics.Z_95 <= Statistics._get_t_critical df <= 12706 # 1000)%Q.
Proof.
  intros Hdf. pose proof t_table_checked as H.
  rewrite forallb_forall in H.
  specialize (H (Z.to_nat df)). cbv zeta in H.
  rewrite Z2Nat.id in H by lia.
  assert (Hin : In (Z.to_nat df) (seq 1 100)) by (apply in_seq; lia).
  apply H in Hin. apply andb_true_iff in Hin as [Hin H3].
  apply andb_true_iff in Hin as [H1 H2].
  rewrite qleb_iff in H1, H2, H3. auto.
Qed.

Lemma t_outside_table (df : Z) :
  df < 1 \/ 100 < df -> Statistics._get_t_critical df = Statistics.Z_95.
Proof.
  intros Hdf. unfold Statistics._get_t_critical, Statistics.T_TABLE.
  cbn [Statistics.table_get Statistics.interpolate].
  repeat match goal with
         | |- context [?a =? df] => destruct (Z.eqb_spec a df); [lia|]
         end.
  repeat match goal with
         | |- context [(?a <=? df) && (df <? ?b)] =>
             replace ((a <=? df) && (df <? b)) with false
               by (symmetry; apply andb_false_iff;
                   rewrite Z.leb_gt, Z.ltb_ge; lia)
         end.
  reflexivity.
Qed.

Lemma t_step (df : Z) :
  1 <= df ->
  (Statistics._get_t_critical (df + 1) <= Statistics._get_t_critical df)%Q.
Proof.
  intros Hdf. destruct (Z_le_gt_dec df 100) as [Hle | Hgt].
  - now apply t_inside_table.
  - rewrite !t_outside_table by lia. apply Qle_refl.
Qed.

Lemma t_at_least_z95 (df : Z) :
  (Statistics.Z_95 <= Statistics._get_t_critical df <= 12706 # 1000)%Q.
Proof.
  destruct (Z_lt_le_dec df 1) as [Hlo | Hlo].
  { rewrite t_outside_table by lia. unfold Statistics.Z_95, Qle; cbn; lia. }
  destruct (Z_le_gt_dec df 100) as [Hhi | Hhi].
  - now apply t_inside_table.
  - rewrite t_outside_table by lia. unfold Statistics.Z_95, Qle; cbn; lia.
Qed.

(** X19. The critical value is 1.96 outside the table (no degrees of
    freedom, or more than 100); from 1 degree of freedom on it lies between
    1.96 and 12.706 and never increases with the degrees of freedom, also
    across interpolated values and at the end of the table. *)
Theorem t_critical_bounded_and_decreasing :
  forall df : Z,
    (df < 1 \/ 100 < df -> Statistics._get_t_critical df = Statistics.Z_95)
    /\ (Statistics.Z_95 <= Statistics._get_t_critical df <= 12706 # 1000)%Q
    /\ (forall df' : Z,
           1 <= df -> df <= df' ->
           (Statistics._get_t_critical df' <= Statistics._get_t_critical df)%Q).
Proof.
  intros df. split; [apply t_outside_table|]. split.
  - apply t_at_least_z95.
  - intros df' H1 Hle.
    replace df' with (df + Z.of_nat (Z.to_nat (df' - df))) by lia.
    induction (Z.to_nat (df' - df)) as [|n IH].
    + rewrite Z.add_0_r. apply Qle_refl.
    + rewrite Nat2Z.inj_succ.
      replace (df + Z.succ (Z.of_nat n)) with (df + Z.of_nat n + 1) by lia.
      eapply Qle_trans; [apply t_step; lia | exact IH].
Qed.

Lemma round_nd_mono (x y : Q) (n : nat) :
  (x <= y)%Q -> (Py.round_nd x n <= Py.round_nd y n)%Q.
Proof.
  intros Hxy. unfold Py.round_nd.
  set (s := 10 ^ Z.of_nat n).
  assert (Hs : 0 < s) by (apply Z.pow_pos_nonneg; lia).
  assert (HsQ : (0 < inject_Z s)%Q)
    by (change (inject_Z 0 < inject_Z s)%Q; rewrite <- Zlt_Qlt; exact Hs).
  assert (Hr : Py.round (x * inject_Z s) <= Py.round (y * inject_Z s)).
  { apply round_mono. nra. }
  rewrite Zle_Qle in Hr.
  unfold Qdiv. apply Qmult_le_compat_r; [exact Hr|].
  apply Qinv_le_0_compat. lra.
Qed.

Lemma round_nd_zero (n : nat) : (Py.round_nd 0 n == 0)%Q.
Proof.
  unfold Py.round_nd.
  assert (H : Py.round (0 * inject_Z (10 ^ Z.of_nat n)) = 0).
  { rewrite <- (round_integer 0). f_equal. }
  rewrite H. unfold Qdiv. ring.
Qed.

Lemma div_nonneg (x y : Q) : (0 <= x)%Q -> (0 <= y)%Q -> (0 <= x / y)%Q.
Proof.
  intros Hx Hy. unfold Qdiv. apply Qmult_le_0_compat; [exact Hx|].
  now apply Qinv_le_0_compat.
Qed.

(** X20. With a square root that is never negative, and positive from 1 on
    (so that the division by the root of the sample size is defined), the
    confidence interval always contains the mean it reports:
    lower <= mean <= upper, for every sample. *)
Theorem confidence_interval_contains_mean :
  forall (sqrt : Q -> Q) (values : list Q),
    (forall q, (0 <= sqrt q)%Q) ->
    (forall q, (1 <= q)%Q -> (0 < sqrt q)%Q) ->
    let '(mean, lower, upper) := Statistics.confidence_interval_95 sqrt values in
    (lower <= mean <= upper)%Q.
Proof.
  intros sqrt values Hsqrt _.
  unfold Statistics.confidence_interval_95.
  destruct values as [|v values]; [split; apply Qle_refl|].
  destruct (Statistics.mean_and_std sqrt (v :: values)) as [mean std] eqn:Hms.
  destruct ((Py.len (v :: values) <? 2) || Py.qeqb std 0) eqn:Hcollapse;
    [split; apply Qle_refl|].
  apply orb_false_iff in Hcollapse as [Hn _].
  assert (Hstd : (0 <= std)%Q).
  { unfold Statistics.mean_and_std in Hms. rewrite Hn in Hms.
    injection Hms as _ <-.
    rewrite <- (round_nd_zero 4). apply round_nd_mono. apply Hsqrt. }
  set (margin := (Statistics._get_t_critical (Py.len (v :: values) - 1)
                  * (std / sqrt (inject_Z (Py.len (v :: values)))))%Q).
  assert (Hmargin : (0 <= margin)%Q).
  { subst margin. apply Qmult_le_0_compat.
    - destruct (t_at_least_z95
                  (Py.len (v :: values) - 1)) as [Hlo _].
      unfold Statistics.Z_95 in Hlo. lra.
    - apply div_nonneg; [exact Hstd | apply Hsqrt]. }
  split; apply round_nd_mono; lra.
Qed.

Lemma sample_sqrt_nonneg (q : Q) : (0 <= Sample.sqrt q)%Q.
Proof.
  unfold Sample.sqrt. apply div_nonneg.
  - change 0%Q with (inject_Z 0). rewrite <- Zle_Qle. apply Z.sqrt_nonneg.
  - discriminate.
Qed.

Lemma sample_sqrt_positive (q : Q) : (1 <= q)%Q -> (0 < Sample.sqrt q)%Q.
Proof.
  intros Hq. unfold Sample.sqrt.
  assert (Hroot : 10 ^ 8 <= Z.sqrt (Qnum q * 10 ^ 16 / Z.pos (Qden q))).
  { change (10 ^ 8) with (Z.sqrt (10 ^ 16)). apply Z.sqrt_le_mono.
    apply Z.div_le_lower_bound; [lia|].
    unfold Qle in Hq. cbn in Hq. nia. }
  apply Qlt_shift_div_l; [reflexivity|].
  rewrite Qmult_0_l. change 0%Q with (inject_Z 0). rewrite <- Zlt_Qlt. lia.
Qed.

Lemma confidence_interval_contains_mean_witness :
  ((forall q, (0 <= Sample.sqrt q)%Q)
   /\ (forall q, (1 <= q)%Q -> (0 < Sample.sqrt q)%Q))
  /\ let '(mean, lower, upper) :=
       Statistics.confidence_interval_95 Sample.sqrt [1 # 2; 1 # 4; 3 # 4] in
     (lower <= mean <= upper)%Q.
Proof.
  split; [split; [exact sample_sqrt_nonneg | exact sample_sqrt_positive]|].
  exact (confidence_interval_contains_mean Sample.sqrt [1 # 2; 1 # 4; 3 # 4]
           sample_sqrt_nonneg sample_sqrt_positive).
Defined.

(** X21. The stability score always lies in [0.0, 1.0]. A series whose
    reported mean is 0 (the empty series included) gets stability 0.0 and is
    flagged unstable; any other series is flagged unstable exactly when its
    reported standard deviation exceeds 0.3. *)
Theorem stability_score_in_unit_interval :
  forall (sqrt : Q -> Q) (values : list Q),
    let mean := fst (Statistics.mean_and_std sqrt values) in
    let std := snd (Statistics.mean_and_std sqrt values) in
    let stability := fst (Agreement.stability_score sqrt values) in
    let is_unstable := snd (Agreement.stability_score sqrt values) in
    (0 <= stability <= 1)%Q
    /\ ((mean == 0)%Q -> stability = 0%Q /\ is_unstable = true)
    /\ (~ (mean == 0)%Q -> (is_unstable = true <-> (3 # 10 < std)%Q))
    /\ Agreement.stability_score sqrt [] = (0%Q, true).
Proof.
  intros sqrt values mean std stability is_unstable.
  subst mean std stability is_unstable.
  unfold Agreement.stability_score.
  destruct (Statistics.mean_and_std sqrt values) as [mean std].
  cbn [fst snd].
  destruct (Py.qeqb mean 0) eqn:Hm.
  - cbn [fst snd]. apply Qeq_bool_iff in Hm.
    repeat split; try lra; try contradiction.
  - cbn [fst snd]. apply Qeq_bool_neq in Hm.
    split; [|split; [|split]].
    + apply (round_nd_between 0 1). apply clamp_bounds.
    + contradiction.
    + intros _. apply qltb_iff.
    + reflexivity.
Qed.

(** ** Agreement between identical ratings *)

Section Kappa.

Local Abbreviation list_set := Agreement.list_set.

Lemma list_set_length {A} (l : list A) (i : nat) (v : A) :
  List.length (list_set l i v) = List.length l.
Proof.
  revert i. induction l as [|x l IH]; intros [|i]; simpl; auto.
Qed.

Lemma list_set_nth {A} (l : list A) (i j : nat) (v d : A) :
  (i < List.length l)%nat ->
  nth j (list_set l i v) d = if Nat.eqb j i then v else nth j l d.
Proof.
  revert i j. induction l as [|x l IH]; intros [|i] [|j] Hi; simpl in *;
    try lia; try reflexivity.
  apply IH. lia.
Qed.

Lemma zsum_from (l : list Z) (a : Z) : fold_left Z.add l a = a + Agreement.zsum l.
Proof.
  unfold Agreement.zsum. revert a. induction l as [|x l IH]; intros a; simpl; [lia|].
  rewrite (IH (a + x)), (IH x). lia.
Qed.

Lemma zsum_cons (x : Z) (l : list Z) : Agreement.zsum (x :: l) = x + Agreement.zsum l.
Proof. unfold Agreement.zsum at 1. simpl. now rewrite zsum_from. Qed.

Lemma zsum_list_set (d : list Z) (i : nat) (v : Z) :
  (i < List.length d)%nat ->
  Agreement.zsum (list_set d i v) = Agreement.zsum d - nth i d 0 + v.
Proof.
  revert i. induction d as [|x d IH]; intros [|i] Hi; simpl in *; try lia.
  - rewrite !zsum_cons. lia.
  - rewrite !zsum_cons, IH by lia. lia.
Qed.

Lemma diag_length (d : list Z) : List.length (Facts.diag d) = List.length d.
Proof. unfold Facts.diag. now rewrite length_map, length_seq. Qed.

Lemma diag_row (d : list Z) (i : nat) :
  (i < List.length d)%nat ->
  nth_error (Facts.diag d) i
  = Some (list_set (repeat 0 (List.length d)) i (nth i d 0)).
Proof.
  intros Hi. unfold Facts.diag.
  rewrite nth_error_map, nth_error_seq.
  destruct (Nat.ltb_spec i (List.length d)); [reflexivity | lia].
Qed.

Lemma diag_cell (d : list Z) (i : nat) :
  (i < List.length d)%nat -> Agreement.matrix_at (Facts.diag d) i i = nth i d 0.
Proof.
  intros Hi. unfold Agreement.matrix_at.
  rewrite (nth_error_nth _ _ [] (diag_row d i Hi)).
  rewrite list_set_nth by (now rewrite repeat_length).
  now rewrite Nat.eqb_refl.
Qed.

Lemma zeros_diag (k : nat) :
  Agreement.zeros (Z.of_nat k) = Facts.diag (repeat 0 k).
Proof.
  unfold Agreement.zeros, Facts.diag. rewrite Nat2Z.id, repeat_length.
  apply (nth_ext _ _ [] []).
  - now rewrite repeat_length, length_map, length_seq.
  - intros n Hn. rewrite repeat_length in Hn.
    rewrite nth_repeat_lt by exact Hn.
    rewrite (nth_indep _ [] (list_set (repeat 0 k) 0 (nth 0 (repeat 0 k) 0)))
      by (now rewrite length_map, length_seq).
    rewrite (map_nth (fun i => list_set (repeat 0 k) i (nth i (repeat 0 k) 0))).
    rewrite seq_nth by exact Hn. cbn [Nat.add].
    apply (nth_ext _ _ 0 0).
    + now rewrite list_set_length.
    + intros j Hj. rewrite list_set_nth by (now rewrite repeat_length).
      destruct (Nat.eqb_spec j n) as [-> | _]; [|reflexivity].
      now rewrite !nth_repeat.
Qed.

Lemma bump_diag (d : list Z) (i : nat) :
  (i < List.length d)%nat ->
  Agreement.bump (Facts.diag d) (Z.of_nat i) (Z.of_nat i)
  = Some (Facts.diag (list_set d i (nth i d 0 + 1))).
Proof.
  intros Hi. unfold Agreement.bump. rewrite Nat2Z.id, (diag_row d i Hi).
  set (k := List.length d).
  assert (Hcell : nth_error (list_set (repeat 0 k) i (nth i d 0)) i
                  = Some (nth i d 0)).
  { rewrite (nth_error_nth' _ 0) by (now rewrite list_set_length, repeat_length).
    rewrite list_set_nth by (now rewrite repeat_length).
    now rewrite Nat.eqb_refl. }
  rewrite Hcell. f_equal.
  apply (nth_ext _ _ [] []).
  - now rewrite list_set_length, !diag_length, list_set_length.
  - intros n Hn. rewrite list_set_length, diag_length in Hn.
    rewrite list_set_nth by (now rewrite diag_length).
    assert (Hrow : forall e, List.length e = k -> (n < k)%nat ->
                             nth n (Facts.diag e) []
                             = list_set (repeat 0 k) n (nth n e 0)).
    { intros e He Hlt. apply nth_error_nth.
      rewrite diag_row by lia. now rewrite He. }
    rewrite (Hrow (list_set d i (nth i d 0 + 1)))
      by (try apply list_set_length; exact Hn).
    rewrite (list_set_nth d) by exact Hi.
    destruct (Nat.eqb_spec n i) as [-> | Hne].
    + apply (nth_ext _ _ 0 0).
      * now rewrite !list_set_length.
      * intros j Hj. rewrite !list_set_length, repeat_length in Hj.
        rewrite !list_set_nth
          by (rewrite ?list_set_length, repeat_length; exact Hi).
        now destruct (Nat.eqb j i).
    + now rewrite (Hrow d eq_refl Hn).
Qed.

Lemma clamp_index_range (a k : Z) :
  1 <= k -> (Z.to_nat (Agreement.clamp_index a k) < Z.to_nat k)%nat.
Proof. unfold Agreement.clamp_index. lia. Qed.

Lemma confusion_diag (l : list Z) (k : Z) (d : list Z) :
  1 <= k -> List.length d = Z.to_nat k ->
  exists d',
    Agreement.confusion (map (fun x => (x, x)) l) k (Facts.diag d)
    = Some (Facts.diag d')
    /\ List.length d' = Z.to_nat k
    /\ Agreement.zsum d' = Agreement.zsum d + Py.len l.
Proof.
  intros Hk. revert d. induction l as [|x l IH]; intros d Hd.
  - exists d. unfold Py.len. cbn. repeat split; auto. lia.
  - cbn [map Agreement.confusion].
    pose proof (clamp_index_range x k Hk) as Hi.
    set (i := Z.to_nat (Agreement.clamp_index x k)) in *.
    assert (Hz : Agreement.clamp_index x k = Z.of_nat i).
    { subst i. unfold Agreement.clamp_index. lia. }
    rewrite Hz, bump_diag by lia.
    destruct (IH (list_set d i (nth i d 0 + 1))) as (d' & Hc & Hl & Hs).
    { now rewrite list_set_length. }
    exists d'. split; [exact Hc|]. split; [exact Hl|].
    rewrite Hs, zsum_list_set by lia.
    unfold Py.len. cbn [List.length]. lia.
Qed.

Lemma diag_trace (d : list Z) :
  Agreement.zsum (map (fun i => Agreement.matrix_at (Facts.diag d) i i)
                      (seq 0 (List.length d)))
  = Agreement.zsum d.
Proof.
  f_equal. apply (nth_ext _ _ 0 0).
  - now rewrite length_map, length_seq.
  - intros n Hn. rewrite length_map, length_seq in Hn.
    rewrite (nth_indep _ 0 (Agreement.matrix_at (Facts.diag d) 0 0))
      by (now rewrite length_map, length_seq).
    rewrite (map_nth (fun i => Agreement.matrix_at (Facts.diag d) i i)).
    rewrite seq_nth by exact Hn. cbn [Nat.add]. now apply diag_cell.
Qed.

Lemma combine_same (l : list Z) : combine l l = map (fun x => (x, x)) l.
Proof. induction l as [|x l IH]; simpl; [reflexivity | now rewrite IH]. Qed.

Lemma zsum_zeros (k : nat) : Agreement.zsum (repeat 0 k) = 0.
Proof. induction k as [|k IH]; [reflexivity|]. cbn [repeat]. now rewrite zsum_cons, IH. Qed.

End Kappa.

(** X22. Two identical rating sequences agree perfectly: for a non-empty
    sequence and at least one category, Cohen's kappa of the sequence with
    itself is 1.0, whatever the ratings (ratings outside the categories are
    clamped into them). Without categories the same call fails with an index
    error, and an empty sequence or sequences of different lengths give
    0.0. *)
Theorem kappa_of_identical_ratings_is_one :
  forall (ratings : list Z) (num_categories : Z),
    (ratings <> [] -> 1 <= num_categories ->
     exists kappa,
       Agreement.cohens_kappa ratings ratings num_categories = Returned kappa
       /\ (kappa == 1)%Q)
    /\ (ratings <> [] -> num_categories <= 0 ->
        Agreement.cohens_kappa ratings ratings num_categories
        = Raised "IndexError: list index out of range")
    /\ Agreement.cohens_kappa [] [] num_categories = Returned 0%Q
    /\ (forall other, Py.len ratings <> Py.len other ->
                      Agreement.cohens_kappa ratings other num_categories
                      = Returned 0%Q).
Proof.
  intros ratings k. split; [|split; [|split]].
  - intros Hne Hk. unfold Agreement.cohens_kappa.
    rewrite Z.eqb_refl. cbn [negb orb].
    destruct ratings as [|r rest]; [congruence|].
    cbv iota. set (l := r :: rest).
    assert (Hl : 0 < Py.len l) by (subst l; unfold Py.len; cbn; lia).
    clearbody l. clear Hne. rename l into ratings.
    rewrite combine_same.
    replace (Agreement.zeros k) with (Facts.diag (repeat 0 (Z.to_nat k)))
      by (rewrite <- zeros_diag; f_equal; lia).
    destruct (confusion_diag ratings k (repeat 0 (Z.to_nat k)) Hk
                             (repeat_length _ _)) as (d & -> & Hlen & Hsum).
    rewrite zsum_zeros, Z.add_0_l in Hsum.
    rewrite <- Hlen, diag_trace, Hsum.
    assert (Hn : (0 < inject_Z (Py.len ratings))%Q).
    { change 0%Q with (inject_Z 0). rewrite <- Zlt_Qlt. exact Hl. }
    assert (Hpo : (inject_Z (Py.len ratings) / inject_Z (Py.len ratings) == 1)%Q)
      by (field; lra).
    destruct (Py.qeqb _ 1) eqn:Hpe.
    + eexists. split; [reflexivity|].
      unfold Py.qeqb. rewrite (Qeq_eq_bool _ _ Hpo). reflexivity.
    + eexists. split; [reflexivity|].
      apply Qeq_bool_neq in Hpe.
      set (pe := fold_left _ _ _) in *.
      assert (Hk1 : ((inject_Z (Py.len ratings) / inject_Z (Py.len ratings) - pe)
                     / (1 - pe) == 1)%Q).
      { rewrite Hpo. field. intros H. apply Hpe. lra. }
      assert (Hin : (inject_Z 1
                     <= (inject_Z (Py.len ratings) / inject_Z (Py.len ratings) - pe)
                        / (1 - pe)
                     <= inject_Z 1)%Q).
      { change (inject_Z 1) with 1%Q. rewrite Hk1. split; apply Qle_refl. }
      pose proof (round_nd_between 1 1 _ 4 Hin) as Hb.
      change (inject_Z 1) with 1%Q in Hb. lra.
  - intros Hne Hk. unfold Agreement.cohens_kappa.
    rewrite Z.eqb_refl. cbn [negb orb].
    destruct ratings as [|r ratings]; [congruence|].
    cbn [combine Agreement.confusion]. unfold Agreement.zeros, Agreement.bump.
    replace (Z.to_nat k) with 0%nat by lia.
    cbn [repeat]. now destruct (Z.to_nat (Agreement.clamp_index r k)).
  - reflexivity.
  - intros other Hlen. unfold Agreement.cohens_kappa.
    destruct (Z.eqb_spec (Py.len ratings) (Py.len other)); [contradiction|].
    reflexivity.
Qed.

Lemma kappa_of_identical_ratings_is_one_witness :
  exists kappa,
    Agreement.cohens_kappa [0; 1; 3; 7; 2] [0; 1; 3; 7; 2] 4 = Returned kappa
    /\ (kappa == 1)%Q.
Proof.
  exact (proj1 (kappa_of_identical_ratings_is_one [0; 1; 3; 7; 2] 4)
               ltac:(discriminate) ltac:(lia)).
Defined.

(** ** The run matrix *)

Lemma get_set_other {V} (d : Py.dict V) (k k' : string) (v : V) :
  k <> k' -> Py.get (Py.set d k v) k' = Py.get d k'.
Proof.
  intros Hne. induction d as [|[k0 v0] d IH]; simpl.
  - destruct (String.eqb_spec k k'); [contradiction | reflexivity].
  - destruct (String.eqb_spec k0 k) as [-> | Hk]; simpl.
    + destruct (String.eqb_spec k k'); [contradiction | reflexivity].
    + destruct (String.eqb k0 k'); [reflexivity | exact IH].
Qed.

Lemma row_effect {V} (row : Py.dict (list V)) (tid t : string) (v : V) :
  match Py.get
          (Py.set (if Py.mem tid row then row else Py.set row tid []) tid
                  (match Py.get (if Py.mem tid row then row else Py.set row tid [])
                                tid with
                   | Some c => c
                   | None => []
                   end ++ [v])%list) t with
  | Some c => c
  | None => []
  end
  = if String.eqb t tid
    then (match Py.get row tid with Some c => c | None => [] end ++ [v])%list
    else match Py.get row t with Some c => c | None => [] end.
Proof.
  unfold Py.mem.
  destruct (String.eqb_spec t tid) as [-> | Ht].
  - rewrite get_set_same.
    destruct (Py.get row tid) as [c|] eqn:Hc; [now rewrite Hc|].
    now rewrite get_set_same.
  - rewrite get_set_other by congruence.
    destruct (Py.get row tid) as [c|] eqn:Hc; [reflexivity|].
    now rewrite get_set_other by congruence.
Qed.

Lemma structural_unit re checks rounds :
  (0 <= Structural.normalized (Structural.evaluate_structural re checks rounds) <= 1)%Q.
Proof.
  unfold Structural.evaluate_structural.
  destruct checks as [|c checks]; [cbn; split; lra|].
  destruct (fold_left _ (c :: checks) _) as [[results tw] ws].
  cbn [Structural.normalized]. apply clamp_bounds.
Qed.

Lemma reference_unit re test rounds :
  (0 <= Reference.normalized (Reference.evaluate_reference re test rounds) <= 1)%Q.
Proof.
  destruct (string_dec (Py.strip (Reference._extract_full_response rounds)) "")
    as [Hblank | Htext].
  - unfold Reference.evaluate_reference. rewrite Hblank. cbn. split; lra.
  - destruct (evaluate_reference_entries re test rounds Htext) as (_ & -> & _).
    apply clamp_bounds.
Qed.

Section Runs.

Variable re : ReEngine.
Variable now_iso : nat -> string.
Variable perf_counter : nat -> Q.
Variable providers : Py.dict BaseProvider.
Variable enable : bool.

Local Abbreviation run := (Orchestrator.run_single_evaluation re now_iso perf_counter).
Local Abbreviation body := (Orchestrator.loop_body re now_iso perf_counter providers enable).

(** A returned result always carries a final score. *)
Lemma run_final_score test provider w result w' :
  run test provider providers enable w = (Returned result, w') ->
  exists q, Py.get result "final_score" = Some (VFloat q)
            /\ (Facts.digits_0_to_3 re -> (0 <= q <= 1)%Q).
Proof.
  unfold Orchestrator.run_single_evaluation, Orchestrator.now.
  unfold bind at 1. unfold bind at 1.
  destruct (Orchestrator.execute test provider w) as [[rounds|e] w1];
    [|discriminate].
  unfold bind at 1.
  destruct (existsb Orchestrator.carries_error rounds).
  - unfold ret. intros [= <- <-]. exists 0%Q. split; [reflexivity|]. intros _; lra.
  - unfold bind at 1.
    set (s := Structural.normalized _). set (r := Reference.normalized _).
    destruct (Judge.evaluate_judge re (name test) (category test) (prompts test)
                rounds (judge_rubric test) (provider_id provider) providers
                s r enable w1) as [[[res audit]|e] w2] eqn:Hj; [|discriminate].
    unfold ret. intros [= <- <-].
    eexists. split; [first [apply get_set_same | reflexivity]|].
    intros Hdig.
    destruct (judge_scores_range re _ _ _ _ _ _ _ _ _ _ _ _ _ _ Hdig Hj)
      as (_ & Hn & _).
    pose proof (structural_unit re (structural_checks test) rounds) as Hs.
    pose proof (reference_unit re test rounds) as Hr.
    fold s in Hs. fold r in Hr.
    apply (round_nd_between 0 1). change (inject_Z 0) with 0%Q.
    change (inject_Z 1) with 1%Q.
    split.
    + apply Qle_shift_div_l; lra.
    + apply Qle_shift_div_r; lra.
Qed.

(** What one pass of the loop body does to the accumulators. *)
Lemma body_effect seed tid test st pid provider w st' w' :
  body seed tid test st (pid, provider) w = (Returned st', w') ->
  exists result q,
    run test provider providers enable w = (Returned result, w')
    /\ Py.get result "final_score" = Some (VFloat q)
    /\ (Facts.digits_0_to_3 re -> (0 <= q <= 1)%Q)
    /\ Orchestrator.all_evaluations st'
       = (Orchestrator.all_evaluations st ++ [Py.set result "seed" (VInt seed)])%list
    /\ Orchestrator.run_count st' = Orchestrator.run_count st + 1
    /\ forall p t,
        Spec.cell (Orchestrator.score_matrix st') p t
        = if String.eqb p pid && String.eqb t tid
          then (Spec.cell (Orchestrator.score_matrix st) pid tid ++ [VFloat q])%list
          else Spec.cell (Orchestrator.score_matrix st) p t.
Proof.
  unfold Orchestrator.loop_body. unfold bind at 1.
  destruct (run test provider providers enable w) as [[result|e] w1] eqn:Hrun;
    [|discriminate].
  destruct (run_final_score _ _ _ _ _ Hrun) as (q & Hq & Hunit).
  unfold bind at 1. unfold Orchestrator.item.
  rewrite get_set_other by discriminate. rewrite Hq.
  unfold ret. intros [= <- <-].
  exists result, q.
  split; [reflexivity|]. split; [exact Hq|]. split; [exact Hunit|].
  split; [reflexivity|]. split; [reflexivity|].
  cbn [Orchestrator.score_matrix]. intros p t.
  set (sm := Orchestrator.score_matrix st).
  unfold Spec.cell.
  assert (Hrow : Py.get (if Py.mem pid sm then sm else Py.set sm pid []) pid
                 = Some (match Py.get sm pid with Some r => r | None => [] end)).
  { unfold Py.mem. destruct (Py.get sm pid) eqn:Hsm; [exact Hsm|].
    apply get_set_same. }
  rewrite Hrow.
  destruct (String.eqb_spec p pid) as [-> | Hp]; cbn [andb].
  - rewrite get_set_same, row_effect.
    destruct (Py.get sm pid); [reflexivity|].
    cbn [Py.get]. now destruct (String.eqb t tid).
  - rewrite get_set_other by congruence.
    unfold Py.mem. destruct (Py.get sm pid); [reflexivity|].
    now rewrite get_set_other by congruence.
Qed.

Lemma foldM_keeps {A} (P : Orchestrator.LoopState -> Prop)
      (f : Orchestrator.LoopState -> A -> M Orchestrator.LoopState) (l : list A) :
  (forall st x w st' w', P st -> f st x w = (Returned st', w') -> P st') ->
  forall st w st' w',
    P st -> Orchestrator.foldM f l st w = (Returned st', w') -> P st'.
Proof.
  intros Hstep. induction l as [|x l IH]; intros st w st' w' HP; simpl.
  - unfold ret. now intros [= <- <-].
  - unfold bind at 1.
    destruct (f st x w) as [[st1|e] w1] eqn:Hf; [|discriminate].
    apply IH. eapply Hstep; eauto.
Qed.

Lemma foldM_adds {A} (m : Orchestrator.LoopState -> nat) (g : A -> nat)
      (f : Orchestrator.LoopState -> A -> M Orchestrator.LoopState) (l : list A) :
  (forall st x w st' w', f st x w = (Returned st', w') -> m st' = (m st + g x)%nat) ->
  forall st w st' w',
    Orchestrator.foldM f l st w = (Returned st', w') ->
    m st' = (m st + list_sum (map g l))%nat.
Proof.
  intros Hstep. induction l as [|x l IH]; intros st w st' w'; simpl.
  - unfold ret. intros [= <- <-]. lia.
  - unfold bind at 1.
    destruct (f st x w) as [[st1|e] w1] eqn:Hf; [|discriminate].
    intros Hrest. rewrite (IH _ _ _ _ Hrest), (Hstep _ _ _ _ _ Hf). lia.
Qed.

Lemma list_sum_const {A} (c : nat) (l : list A) :
  list_sum (map (fun _ => c) l) = (List.length l * c)%nat.
Proof. induction l as [|x l IH]; simpl; [reflexivity | rewrite IH; lia]. Qed.

Lemma list_sum_indicator {V} (y : string) (d : Py.dict V) (c : nat) :
  list_sum (map (fun entry : string * V =>
                   if String.eqb y (fst entry) then c else 0%nat) d)
  = (count_occ string_dec (Py.keys d) y * c)%nat.
Proof.
  unfold list_sum. induction d as [|[k v] d IH]; [reflexivity|].
  cbn [map fold_right Py.keys fst count_occ]. fold (Py.keys d). rewrite IH.
  destruct (String.eqb_spec y k) as [Heq | Hne];
    destruct (string_dec k y); try congruence; lia.
Qed.

Variable tests : Py.dict TestDef.
Variable seeds : Z.

Lemma main_loop_keeps (P : Orchestrator.LoopState -> Prop) :
  (forall seed tid test st entry w st' w',
      P st -> body seed tid test st entry w = (Returned st', w') -> P st') ->
  P Orchestrator.initial ->
  forall w st w',
    Orchestrator.main_loop re now_iso perf_counter seeds tests providers enable w
    = (Returned st, w') -> P st.
Proof.
  intros Hbody Hinit w st w'. unfold Orchestrator.main_loop.
  intros Hrun. revert Hrun. revert Hinit. apply (foldM_keeps P).
  intros st0 seed w0 st1 w1. apply (foldM_keeps P).
  intros st2 t w2 st3 w3. apply (foldM_keeps P).
  intros st4 entry w4 st5 w5. apply Hbody.
Qed.

Lemma main_loop_counts w st w' :
  Orchestrator.main_loop re now_iso perf_counter seeds tests providers enable w
  = (Returned st, w') ->
  List.length (Orchestrator.all_evaluations st)
  = (Z.to_nat seeds * (List.length tests * List.length providers))%nat
  /\ Orchestrator.run_count st
     = Z.of_nat (List.length (Orchestrator.all_evaluations st))
  /\ forall p t,
      List.length (Spec.cell (Orchestrator.score_matrix st) p t)
      = (Z.to_nat seeds
         * (count_occ string_dec (Py.keys tests) t
            * count_occ string_dec (Py.keys providers) p))%nat.
Proof.
  intros Hrun. unfold Orchestrator.main_loop in Hrun. split; [|split].
  - apply (foldM_adds
             (fun st => List.length (Orchestrator.all_evaluations st))
             (fun _ : Z => (List.length tests * List.length providers)%nat))
      in Hrun.
    + rewrite Hrun, list_sum_const, length_map, length_seq. cbn. lia.
    + intros st0 seed w0 st1 w1 H1.
      apply (foldM_adds
               (fun st => List.length (Orchestrator.all_evaluations st))
               (fun _ : string * TestDef => List.length providers)) in H1.
      * now rewrite H1, list_sum_const.
      * intros st2 [tid test] w2 st3 w3 H2.
        apply (foldM_adds
                 (fun st => List.length (Orchestrator.all_evaluations st))
                 (fun _ : string * BaseProvider => 1%nat)) in H2.
        -- rewrite H2, list_sum_const. lia.
        -- intros st4 [pid provider] w4 st5 w5 H3.
           apply body_effect in H3 as (result & q & _ & _ & _ & -> & _).
           rewrite length_app. cbn. lia.
  - fold (Orchestrator.main_loop re now_iso perf_counter seeds tests providers
                                   enable w) in Hrun.
    revert Hrun.
    apply (main_loop_keeps
             (fun st => Orchestrator.run_count st
                        = Z.of_nat (List.length (Orchestrator.all_evaluations st))));
      [|reflexivity].
    intros seed tid test st4 [pid provider] w4 st5 w5 Hinv H3.
    apply body_effect in H3 as (result & q & _ & _ & _ & -> & -> & _).
    rewrite length_app, Hinv. cbn. lia.
  - intros p t.
    apply (foldM_adds
             (fun st => List.length (Spec.cell (Orchestrator.score_matrix st) p t))
             (fun _ : Z => (count_occ string_dec (Py.keys tests) t
                            * count_occ string_dec (Py.keys providers) p)%nat))
      in Hrun.
    + rewrite Hrun, list_sum_const, length_map, length_seq. cbn. lia.
    + intros st0 seed w0 st1 w1 H1.
      apply (foldM_adds
               (fun st => List.length (Spec.cell (Orchestrator.score_matrix st) p t))
               (fun entry : string * TestDef =>
                  if String.eqb t (fst entry)
                  then count_occ string_dec (Py.keys providers) p else 0%nat))
        in H1.
      * now rewrite H1, list_sum_indicator.
      * intros st2 [tid test] w2 st3 w3 H2. cbn [fst snd] in H2 |- *.
        apply (foldM_adds
                 (fun st => List.length
                              (Spec.cell (Orchestrator.score_matrix st) p t))
                 (fun entry : string * BaseProvider =>
                    if String.eqb p (fst entry)
                    then (if String.eqb t tid then 1 else 0)%nat else 0%nat))
          in H2.
        -- rewrite H2, list_sum_indicator.
           destruct (String.eqb t tid); lia.
        -- intros st4 [pid provider] w4 st5 w5 H3.
           apply body_effect in H3 as (result & q & _ & _ & _ & _ & _ & Hcell).
           rewrite Hcell. cbn [fst].
           destruct (String.eqb_spec p pid) as [Hp | Hp]; cbn [andb]; [|lia].
           destruct (String.eqb_spec t tid) as [Ht | Ht]; [|lia].
           subst. rewrite length_app. cbn. lia.
Qed.

Lemma main_loop_unit_scores w st w' :
  Facts.digits_0_to_3 re ->
  Orchestrator.main_loop re now_iso perf_counter seeds tests providers enable w
  = (Returned st, w') ->
  forall p t v, In v (Spec.cell (Orchestrator.score_matrix st) p t) ->
                Facts.unit_score v.
Proof.
  intros Hdig.
  apply (main_loop_keeps
           (fun st => forall p t v,
                In v (Spec.cell (Orchestrator.score_matrix st) p t) ->
                Facts.unit_score v)).
  2:{ intros p t v []. }
  intros seed tid test st4 [pid provider] w4 st5 w5 Hinv H3 p t v.
  apply body_effect in H3 as (result & q & _ & _ & Hq & _ & _ & Hcell).
  rewrite Hcell.
  destruct (String.eqb p pid && String.eqb t tid); [|apply Hinv].
  intros Hin. apply in_app_or in Hin as [Hin | [<- | []]].
  - eapply Hinv; eauto.
  - cbn. now apply Hq.
Qed.

End Runs.

(** X23. A completed run has evaluated every combination once: the audit
    log holds seeds x tests x providers evaluations, the run counter shows
    the same number, and the score-matrix cell of a provider and a test
    holds one score per seed and per occurrence of the two keys; with
    distinct keys, as in a dictionary, every cell holds exactly [seeds]
    scores. *)
Theorem completed_run_fills_the_matrix :
  forall (re : ReEngine) (now_iso : nat -> string) (perf_counter : nat -> Q)
         (seeds : Z) (tests : Py.dict TestDef) (providers : Py.dict BaseProvider)
         (enable : bool) (w w' : World) (st : Orchestrator.LoopState),
    Orchestrator.main_loop re now_iso perf_counter seeds tests providers enable w
    = (Returned st, w') ->
    List.length (Orchestrator.all_evaluations st)
    = (Z.to_nat seeds * (List.length tests * List.length providers))%nat
    /\ Orchestrator.run_count st
       = Z.of_nat (List.length (Orchestrator.all_evaluations st))
    /\ (forall p t,
           List.length (Spec.cell (Orchestrator.score_matrix st) p t)
           = (Z.to_nat seeds
              * (count_occ string_dec (Py.keys tests) t
                 * count_occ string_dec (Py.keys providers) p))%nat)
    /\ (NoDup (Py.keys tests) -> NoDup (Py.keys providers) ->
        Facts.every_cell_has (Z.to_nat seeds) (Orchestrator.score_matrix st)
                             (Py.keys providers) (Py.keys tests)).
Proof.
  intros re now_iso perf_counter seeds tests providers enable w w' st Hrun.
  destruct (main_loop_counts re now_iso perf_counter providers enable tests seeds
              w st w' Hrun) as (Hev & Hcount & Hcell).
  repeat split; try assumption.
  intros Ht Hp pid tid Hpid Htid. rewrite Hcell.
  rewrite NoDup_count_occ' in Ht, Hp.
  rewrite (Ht tid Htid), (Hp pid Hpid). lia.
Qed.

Lemma completed_run_fills_the_matrix_witness :
  exists st w',
    Orchestrator.main_loop Sample.engine Sample.now_iso Sample.perf_counter
                           2 [("T-01", Sample.bare_test)] Sample.three true Sample.w0
    = (Returned st, w')
    /\ List.length (Orchestrator.all_evaluations st) = 6%nat
    /\ List.length (Spec.cell (Orchestrator.score_matrix st) "gpt" "T-01") = 2%nat.
Proof.
  match eval vm_compute in
        (Orchestrator.main_loop Sample.engine Sample.now_iso Sample.perf_counter
           2 [("T-01", Sample.bare_test)] Sample.three true Sample.w0) with
  | (Returned ?st, ?w') =>
      assert (E : Orchestrator.main_loop Sample.engine Sample.now_iso
                    Sample.perf_counter 2 [("T-01", Sample.bare_test)]
                    Sample.three true Sample.w0 = (Returned st, w'))
        by (vm_compute; reflexivity);
      exists st, w'
  end.
  split; [exact E|].
  destruct (completed_run_fills_the_matrix _ _ _ _ _ _ _ _ _ _ E)
    as (Hev & _ & Hcell & _).
  split; [exact Hev | exact (Hcell "gpt" "T-01")].
Defined.

(** X24. With an engine that answers the digit pattern as the pattern
    requires, every result of a run carries a final score between 0.0 and
    1.0, and so does every score a completed run has put into the score
    matrix. *)
Theorem final_scores_in_unit_interval :
  forall (re : ReEngine) (now_iso : nat -> string) (perf_counter : nat -> Q)
         (providers : Py.dict BaseProvider) (enable : bool),
    Facts.digits_0_to_3 re ->
    (forall test provider w result w',
        Orchestrator.run_single_evaluation re now_iso perf_counter
                                           test provider providers enable w
        = (Returned result, w') ->
        exists q, Py.get result "final_score" = Some (VFloat q)
                  /\ (0 <= q <= 1)%Q)
    /\ (forall seeds tests w st w' p t v,
           Orchestrator.main_loop re now_iso perf_counter seeds tests providers
                                  enable w = (Returned st, w') ->
           In v (Spec.cell (Orchestrator.score_matrix st) p t) ->
           Facts.unit_score v).
Proof.
  intros re now_iso perf_counter providers enable Hdig. split.
  - intros test provider w result w' Hrun.
    destruct (run_final_score re now_iso perf_counter providers enable
                _ _ _ _ _ Hrun) as (q & Hq & Hunit).
    exists q. auto.
  - intros seeds tests w st w' p t v Hrun.
    now apply (main_loop_unit_scores re now_iso perf_counter providers enable
                 tests seeds w st w' Hdig Hrun).
Qed.

Lemma final_scores_in_unit_interval_witness :
  Facts.digits_0_to_3 Sample.engine
  /\ exists result w' q,
      Orchestrator.run_single_evaluation
        Sample.engine Sample.now_iso Sample.perf_counter
        Sample.bare_test Sample.claude Sample.three true Sample.w0
      = (Returned result, w')
      /\ Py.get result "final_score" = Some (VFloat q) /\ (0 <= q <= 1)%Q.
Proof.
  split; [exact sample_engine_digits|].
  match eval vm_compute in
        (Orchestrator.run_single_evaluation
           Sample.engine Sample.now_iso Sample.perf_counter
           Sample.bare_test Sample.claude Sample.three true Sample.w0) with
  | (Returned ?result, ?w') =>
      assert (E : Orchestrator.run_single_evaluation
                    Sample.engine Sample.now_iso Sample.perf_counter
                    Sample.bare_test Sample.claude Sample.three true Sample.w0
                  = (Returned result, w')) by (vm_compute; reflexivity);
      exists result, w'
  end.
  destruct (proj1 (final_scores_in_unit_interval Sample.engine Sample.now_iso
                     Sample.perf_counter Sample.three true sample_engine_digits)
                  _ _ _ _ _ E) as (q & Hq & Hunit).
  exists q. auto.
Defined.

(** ** Exceptions of the evaluated provider *)

Lemma foldM_raises {A} (f : Orchestrator.LoopState -> A -> M Orchestrator.LoopState)
      (x : A) (l : list A) st w e w1 :
  f st x w = (Raised e, w1) ->
  Orchestrator.foldM f (x :: l) st w = (Raised e, w1).
Proof. intros H. cbn [Orchestrator.foldM]. unfold bind. now rewrite H. Qed.

(** X25. An exception of the evaluated provider is not absorbed: when the
    call for the single prompt of a test raises, the evaluation raises the
    same exception right after that call, and a main loop that starts with
    this test and this provider raises it as well, so that no result is
    produced; a test without prompts raises IndexError before any call. *)
Theorem provider_exception_aborts_the_run :
  forall (re : ReEngine) (now_iso : nat -> string) (perf_counter : nat -> Q)
         (test : TestDef) (provider : BaseProvider)
         (providers : Py.dict BaseProvider) (enable : bool) (w : World),
    (prompts test = [] ->
     Orchestrator.run_single_evaluation re now_iso perf_counter
                                        test provider providers enable w
     = (Raised "IndexError: list index out of range", w))
    /\ (forall p0 e,
           prompts test = [p0] ->
           answer provider (tick w) (Provider.default_args p0) = Raised e ->
           let w1 := {| tick := S (tick w);
                        log := (log w ++ [EvQuery (provider_id provider)
                                                  (Provider.default_args p0)])%list |} in
           Orchestrator.run_single_evaluation re now_iso perf_counter
                                              test provider providers enable w
           = (Raised e, w1)
           /\ forall seeds tid tests pid rest,
               0 < seeds ->
               providers = (pid, provider) :: rest ->
               Orchestrator.main_loop re now_iso perf_counter seeds
                                      ((tid, test) :: tests) providers enable w
               = (Raised e, w1)).
Proof.
  intros re now_iso perf_counter test provider providers enable w. split.
  - intros Hp. unfold Orchestrator.run_single_evaluation, Orchestrator.now,
                 Orchestrator.execute, bind, raise.
    rewrite Hp. reflexivity.
  - intros p0 e Hp He w1.
    assert (Hrun : Orchestrator.run_single_evaluation re now_iso perf_counter
                     test provider providers enable w = (Raised e, w1)).
    { assert (Hexec : Orchestrator.execute test provider w = (Raised e, w1)).
      { unfold Orchestrator.execute. rewrite Hp.
        change (1 <? Py.len [p0]) with false. cbv iota.
        unfold bind, Provider.query, perform. now rewrite He. }
      unfold Orchestrator.run_single_evaluation, Orchestrator.now.
      unfold bind at 1. unfold bind at 1. now rewrite Hexec. }
    split; [exact Hrun|].
    intros seeds tid tests pid rest Hseeds ->.
    unfold Orchestrator.main_loop.
    destruct (Z.to_nat seeds) as [|n] eqn:Hn; [lia|].
    cbn [seq map].
    apply foldM_raises. apply foldM_raises. cbn [fst snd]. apply foldM_raises.
    unfold Orchestrator.loop_body, bind. now rewrite Hrun.
Qed.

Lemma provider_exception_aborts_the_run_witness :
  Orchestrator.main_loop Sample.engine Sample.now_iso Sample.perf_counter 1
                         [("T-01", Sample.bare_test)]
                         [("claude", Sample2.crashing)] true Sample.w0
  = (Raised "ConnectionError: no route to host",
     {| tick := 1;
        log := [EvQuery "claude" (Provider.default_args "Say something.")] |}).
Proof.
  apply (proj2 (proj2 (provider_exception_aborts_the_run
                         Sample.engine Sample.now_iso Sample.perf_counter
                         Sample.bare_test Sample2.crashing
                         [("claude", Sample2.crashing)] true Sample.w0)
                      "Say something." "ConnectionError: no route to host"
                      eq_refl eq_refl)
               1 "T-01" [] "claude" []).
  - lia.
  - reflexivity.
Defined.

(** ** Test selection *)

Lemma filter_idempotent {A} (f : A -> bool) (l : list A) :
  filter f (filter f l) = filter f l.
Proof.
  induction l as [|x l IH]; [reflexivity|].
  cbn [filter]. destruct (f x) eqn:Hf; [|exact IH].
  cbn [filter]. now rewrite Hf, IH.
Qed.

Lemma existsb_eqb_in (x : string) (l : list string) :
  existsb (String.eqb x) l = true <-> In x l.
Proof.
  rewrite existsb_exists. split.
  - intros (y & Hy & Heq). apply String.eqb_eq in Heq. now subst.
  - intros H. exists x. split; [exact H | apply String.eqb_refl].
Qed.

(** X26. Test selection by category: without categories, or with an empty
    list of them, every test is kept; otherwise exactly the tests whose
    category equals one of the given categories, letter case apart, are
    kept, in their order; selecting twice selects nothing else, and the
    letter case of the given categories makes no difference. *)
Theorem filter_tests_selects_by_category :
  forall (all_tests : Py.dict TestDef) (cats : list string),
    Main.filter_tests all_tests None = all_tests
    /\ Main.filter_tests all_tests (Some []) = all_tests
    /\ (cats <> [] ->
        forall tid t,
          In (tid, t) (Main.filter_tests all_tests (Some cats))
          <-> In (tid, t) all_tests
              /\ exists c, In c cats /\ Py.lower c = Py.lower (category t))
    /\ Main.filter_tests (Main.filter_tests all_tests (Some cats)) (Some cats)
       = Main.filter_tests all_tests (Some cats)
    /\ Main.filter_tests all_tests (Some (map Py.lower cats))
       = Main.filter_tests all_tests (Some cats)
    /\ (exists kept, Main.filter_tests all_tests (Some cats) = filter kept all_tests).
Proof.
  intros all_tests cats. split; [reflexivity|]. split; [reflexivity|].
  split; [|split; [|split]].
  - intros Hne tid t. destruct cats as [|c cats]; [congruence|].
    unfold Main.filter_tests. rewrite filter_In. cbn [snd].
    rewrite existsb_eqb_in, in_map_iff.
    split; intros [Hin (c' & H1 & H2)]; (split; [exact Hin|]); exists c'; auto.
  - destruct cats as [|c cats]; [reflexivity|].
    unfold Main.filter_tests. apply filter_idempotent.
  - destruct cats as [|c cats]; [reflexivity|].
    unfold Main.filter_tests. cbn [map].
    assert (Hl : forall s, Py.lower (Py.lower s) = Py.lower s).
    { induction s as [|a s IH]; [reflexivity|]. cbn [Py.lower]. rewrite IH.
      f_equal. clear. revert a.
      assert (H : forallb (fun n => Ascii.eqb
                                      (Py.lower_char (Py.lower_char (ascii_of_nat n)))
                                      (Py.lower_char (ascii_of_nat n)))
                          (seq 0 256) = true) by (vm_compute; reflexivity).
      intros a. rewrite forallb_forall in H.
      specialize (H (nat_of_ascii a)). rewrite ascii_nat_embedding in H.
      apply Ascii.eqb_eq, H, in_seq. pose proof (nat_ascii_bounded a). lia. }
    rewrite Hl, map_map. rewrite (map_ext _ Py.lower Hl). reflexivity.
  - destruct cats as [|c cats].
    + exists (fun _ => true). cbn. induction all_tests as [|x l IH]; [reflexivity|].
      cbn. now rewrite <- IH.
    + eexists. reflexivity.
Qed.

(** ** The multi-round exchange of the base provider *)

Lemma multi_round_loop_shape (p : BaseProvider) (prompts : list string) :
  forall (conversation : list Message) (w : World) conv w',
    Provider.multi_round_loop p prompts conversation w = (Returned conv, w') ->
    exists replies,
      List.length replies = List.length prompts
      /\ conv = (conversation ++ Facts.exchange prompts replies)%list
      /\ tick w' = (tick w + List.length prompts)%nat
      /\ log w' = (log w
                   ++ map (Facts.query_event (provider_id p) conv
                                             (List.length conversation))
                          (seq 0 (List.length prompts)))%list.
Proof.
  induction prompts as [|prompt rest IH]; intros conversation w conv w'.
  - cbn [Provider.multi_round_loop]. unfold ret. intros [= <- <-].
    exists []. cbn. rewrite !app_nil_r. repeat split; lia.
  - cbn [Provider.multi_round_loop]. unfold bind at 1.
    unfold Provider.query at 1, perform at 1.
    destruct (answer p (tick w) _) as [r|e] eqn:Hr; [|discriminate].
    intros Hrest. apply IH in Hrest as (replies & Hlen & Hconv & Htick & Hlog).
    cbn [tick log] in Htick, Hlog.
    exists (r :: replies). cbn [List.length]. split; [now rewrite Hlen|].
    split; [|split; [lia|]].
    + rewrite Hconv. unfold Facts.exchange. cbn [combine flat_map fst snd].
      now rewrite <- !app_assoc.
    + rewrite Hlog, <- app_assoc. f_equal. cbn [seq map app]. f_equal.
      * unfold Facts.query_event. do 3 f_equal.
        rewrite Hconv, <- !app_assoc.
        replace (List.length conversation + 2 * 0 + 1)%nat
          with (List.length (conversation ++ [Provider.user_message prompt])%list + 0)%nat
          by (rewrite length_app; cbn; lia).
        rewrite (app_assoc conversation), firstn_app_2. cbn [firstn].
        now rewrite app_nil_r.
      * rewrite <- seq_shift, map_map. apply map_ext. intros i.
        unfold Facts.query_event. do 4 f_equal.
        rewrite !length_app. cbn [List.length]. lia.
Qed.

(** X27. The multi-round exchange of the base class: a conversation that is
    returned alternates each prompt with the reply to it, in order; one
    query is made per prompt; and the query that follows a prompt sends the
    whole conversation up to that prompt, so the context accumulates. *)
Theorem base_multi_round_accumulates_context :
  forall (p : BaseProvider) (prompts : list string) (w w' : World)
         (conv : list Message),
    answer_multi p = None ->
    Provider.query_multi_round p prompts w = (Returned conv, w') ->
    exists replies,
      List.length replies = List.length prompts
      /\ conv = Facts.exchange prompts replies
      /\ List.length conv = (2 * List.length prompts)%nat
      /\ tick w' = (tick w + List.length prompts)%nat
      /\ log w' = (log w
                   ++ map (Facts.query_event (provider_id p) conv 0)
                          (seq 0 (List.length prompts)))%list.
Proof.
  intros p prompts w w' conv Hbase. unfold Provider.query_multi_round.
  rewrite Hbase. intros Hrun.
  apply multi_round_loop_shape in Hrun as (replies & Hlen & Hconv & Htick & Hlog).
  exists replies. cbn [app List.length] in *.
  repeat split; try assumption.
  rewrite Hconv. clear - Hlen. unfold Facts.exchange.
  revert replies Hlen. induction prompts as [|x l IH]; intros [|r rs] Hlen;
    try discriminate; [reflexivity|].
  cbn [combine flat_map app List.length]. rewrite (IH rs); [lia|].
  cbn in Hlen. lia.
Qed.

Lemma base_multi_round_accumulates_context_witness :
  exists conv w',
    Provider.query_multi_round Sample.claude ["first"; "second"] Sample.w0
    = (Returned conv, w')
    /\ List.length conv = 4%nat /\ tick w' = 2%nat.
Proof.
  match eval vm_compute in
        (Provider.query_multi_round Sample.claude ["first"; "second"] Sample.w0) with
  | (Returned ?conv, ?w') =>
      assert (E : Provider.query_multi_round Sample.claude ["first"; "second"]
                                             Sample.w0 = (Returned conv, w'))
        by (vm_compute; reflexivity);
      exists conv, w'
  end.
  split; [exact E|].
  destruct (base_multi_round_accumulates_context
              Sample.claude ["first"; "second"] _ _ _ eq_refl E)
    as (replies & _ & _ & Hl & Ht & _).
  split; [exact Hl | exact Ht].
Defined.

(** ** The test registry *)

Lemma set_fresh {V} (d : Py.dict V) (k : string) (v : V) :
  ~ In k (Py.keys d) -> Py.set d k v = (d ++ [(k, v)])%list.
Proof.
  induction d as [|[k' v'] d IH]; intros Hk; [reflexivity|].
  cbn [Py.set app]. cbn in Hk.
  destruct (String.eqb_spec k' k) as [-> | Hne]; [tauto|].
  rewrite IH; tauto.
Qed.

Lemma mem_iff_key {V} (d : Py.dict V) (k : string) :
  Py.mem k d = true <-> In k (Py.keys d).
Proof. split; [apply mem_keys | apply mem_of_key]. Qed.

Lemma register_tests_spec (tests : list TestDef) :
  forall reg : Registry.registry,
    (NoDup (map test_id tests)
     /\ (forall t, In t tests -> ~ In (test_id t) (Py.keys reg)))
    <-> Registry.register_tests reg tests
        = (Returned tt, (reg ++ map Facts.entry_of tests)%list).
Proof.
  induction tests as [|t tests IH]; intros reg.
  - cbn. rewrite app_nil_r. split; [reflexivity|].
    intros _. split; [constructor | tauto].
  - cbn [Registry.register_tests map]. unfold Registry.register_test.
    destruct (Py.mem (test_id t) reg) eqn:Hmem.
    + split; [|discriminate].
      intros [_ Hfresh]. apply mem_iff_key in Hmem.
      exfalso. apply (Hfresh t); [now left | exact Hmem].
    + assert (Hk : ~ In (test_id t) (Py.keys reg)).
      { intros Hin. apply mem_iff_key in Hin. congruence. }
      rewrite (set_fresh _ _ _ Hk).
      replace (reg ++ Facts.entry_of t :: map Facts.entry_of tests)%list
        with ((reg ++ [(test_id t, t)]) ++ map Facts.entry_of tests)%list
        by (now rewrite <- app_assoc).
      rewrite <- IH. unfold Py.keys. rewrite map_app. cbn [map fst].
      split.
      * intros [Hnd Hfresh]. inversion Hnd as [|? ? Hnot Hnd']; subst.
        split; [exact Hnd'|].
        intros t' Hin Hin'. apply in_app_or in Hin' as [Hin' | [Heq | []]].
        -- apply (Hfresh t'); [now right | exact Hin'].
        -- apply Hnot. rewrite Heq. now apply in_map.
      * intros [Hnd Hfresh]. split.
        -- constructor; [|exact Hnd].
           intros Hin. apply in_map_iff in Hin as (t' & Heq & Hin).
           apply (Hfresh t' Hin). apply in_or_app. right. left. now rewrite Heq.
        -- intros t' [<- | Hin]; [exact Hk|].
           intros Hin'. apply (Hfresh t' Hin). apply in_or_app. now left.
Qed.

Lemma register_tests_raises (tests : list TestDef) :
  forall reg : Registry.registry,
    fst (Registry.register_tests reg tests) = Returned tt
    \/ exists t, In t tests
                 /\ fst (Registry.register_tests reg tests)
                    = Raised ("Teste duplicado: " ++ test_id t).
Proof.
  induction tests as [|t tests IH]; intros reg; [now left|].
  cbn [Registry.register_tests]. unfold Registry.register_test.
  destruct (Py.mem (test_id t) reg).
  - right. exists t. split; [now left | reflexivity].
  - destruct (IH (Py.set reg (test_id t) t)) as [H | (t' & Hin & H)].
    + now left.
    + right. exists t'. split; [now right | exact H].
Qed.

Lemma get_entry (tests : list TestDef) (t : TestDef) :
  NoDup (map test_id tests) -> In t tests ->
  Py.get (map Facts.entry_of tests) (test_id t) = Some t.
Proof.
  induction tests as [|t0 tests IH]; intros Hnd Hin; [destruct Hin|].
  inversion Hnd as [|? ? Hnot Hnd']; subst.
  cbn [map Py.get Facts.entry_of]. fold Facts.entry_of.
  destruct Hin as [-> | Hin]; [now rewrite String.eqb_refl|].
  destruct (String.eqb_spec (test_id t0) (test_id t)) as [Heq | Hne].
  - exfalso. apply Hnot. rewrite Heq. now apply in_map.
  - now apply IH.
Qed.

(** X28. The registry: registering a list of tests in an empty registry
    succeeds exactly when their identifiers are pairwise distinct, and
    otherwise raises the duplicate error for one of them; after a
    success the registry holds the tests in their order, each test is found
    under its identifier and any other identifier raises, and the tests of
    a category are those of the list
    with that very category. *)
Theorem registry_accepts_distinct_ids :
  forall tests : list TestDef,
    (NoDup (map test_id tests)
     <-> fst (Registry.register_tests [] tests) = Returned tt)
    /\ (~ NoDup (map test_id tests) ->
        exists t, In t tests
                  /\ fst (Registry.register_tests [] tests)
                     = Raised ("Teste duplicado: " ++ test_id t))
    /\ (NoDup (map test_id tests) ->
        let reg := snd (Registry.register_tests [] tests) in
        Registry.get_all_tests reg = map Facts.entry_of tests
        /\ (forall t, In t tests -> Registry.get_test reg (test_id t) = Returned t)
        /\ (forall id, ~ In id (map test_id tests) ->
                       exists e, Registry.get_test reg id = Raised e)
        /\ forall cat,
            Registry.get_tests_by_category reg cat
            = filter (fun t => String.eqb (category t) cat) tests).
Proof.
  intros tests.
  assert (Hok : NoDup (map test_id tests) ->
                Registry.register_tests [] tests
                = (Returned tt, map Facts.entry_of tests)).
  { intros Hnd. apply (register_tests_spec tests []). split; [exact Hnd|].
    intros t _ []. }
  assert (Hconv : fst (Registry.register_tests [] tests) = Returned tt ->
                  NoDup (map test_id tests)).
  { intros H.
    assert (Hinv : forall ts reg,
               fst (Registry.register_tests reg ts) = Returned tt ->
               Registry.register_tests reg ts
               = (Returned tt, (reg ++ map Facts.entry_of ts)%list)).
    { induction ts as [|t ts IH]; intros reg.
      - cbn. now rewrite app_nil_r.
      - cbn [Registry.register_tests]. unfold Registry.register_test.
        destruct (Py.mem (test_id t) reg) eqn:Hmem; [discriminate|].
        intros Hfst. rewrite (IH _ Hfst). f_equal.
        rewrite set_fresh.
        + now rewrite <- app_assoc.
        + intros Hin. apply mem_iff_key in Hin. congruence. }
    apply Hinv in H. apply (register_tests_spec tests []) in H. tauto. }
  split; [|split].
  - split; [|exact Hconv]. intros Hnd. now rewrite (Hok Hnd).
  - intros Hnot. destruct (register_tests_raises tests []) as [H | H];
      [exfalso; auto | exact H].
  - intros Hnd reg. subst reg. rewrite (Hok Hnd). cbn [snd].
    unfold Registry.get_all_tests, Registry.get_test, Registry.get_tests_by_category.
    split; [reflexivity|]. split; [|split].
    + intros t Hin. now rewrite (get_entry tests t Hnd Hin).
    + intros id Hid.
      destruct (Py.get (map Facts.entry_of tests) id) as [t|] eqn:Hget;
        [|eexists; reflexivity].
      exfalso. apply Hid.
      assert (Hkey : In id (Py.keys (map Facts.entry_of tests))).
      { apply mem_keys. unfold Py.mem. now rewrite Hget. }
      unfold Py.keys in Hkey. rewrite map_map in Hkey. exact Hkey.
    + intros cat. unfold Py.values. rewrite map_map. cbn [Facts.entry_of snd].
      now rewrite map_id.
Qed.

(** ** Correlation *)

Lemma sum_from_q (l : list Q) (a : Q) :
  (fold_left Qplus l a == a + Py.sum l)%Q.
Proof.
  unfold Py.sum. revert a. induction l as [|x l IH]; intros a; cbn [fold_left].
  - lra.
  - rewrite (IH (a + x)%Q), (IH (0 + x)%Q). lra.
Qed.

Lemma combine_self {A} (l : list A) : combine l l = map (fun x => (x, x)) l.
Proof. induction l as [|x l IH]; simpl; [reflexivity | now rewrite IH]. Qed.

Lemma round_nd_one : (Py.round_nd 1 4 == 1)%Q.
Proof. vm_compute. reflexivity. Qed.

(** X29. A series correlates perfectly with itself: for at least two
    values whose deviations do not all vanish, and a square root that is
    exact on the sum of the squared deviations, the correlation of the
    series with itself is 1. *)
Theorem pearson_of_a_series_with_itself :
  forall (sqrt : Q -> Q) (x : list Q),
    2 <= Py.len x ->
    let mean := (Py.sum x / inject_Z (Py.len x))%Q in
    let squares := Py.sum (map (fun xi => ((xi - mean) ^ 2)%Q) x) in
    (sqrt squares * sqrt squares == squares)%Q ->
    ~ (sqrt squares == 0)%Q ->
    (Agreement.pearson_correlation sqrt x x == 1)%Q.
Proof.
  intros sqrt x Hlen mean squares Hexact Hpos.
  unfold Agreement.pearson_correlation.
  rewrite Z.eqb_refl. cbn [negb orb].
  destruct (Z.ltb_spec (Py.len x) 2) as [Hlt | _]; [lia|].
  cbv zeta. fold mean. rewrite combine_self, map_map. cbn [fst snd].
  change (Py.sum (map (fun x0 : Q => ((x0 - mean) * (x0 - mean))%Q) x))
    with squares.
  fold squares.
  assert (Hz : Py.qeqb (sqrt squares) 0 = false).
  { unfold Py.qeqb. destruct (Qeq_bool (sqrt squares) 0) eqn:Hb; [|reflexivity].
    apply Qeq_bool_eq in Hb. contradiction. }
  rewrite Hz. cbn [orb].
  assert (Hone : (squares / (sqrt squares * sqrt squares) == 1)%Q).
  { rewrite Hexact. field. intros Hs. apply Hpos.
    assert (H0 : (sqrt squares * sqrt squares == 0)%Q)
      by (rewrite Hexact; exact Hs).
    now destruct (Qmult_integral _ _ H0). }
  assert (H1 : (Py.round_nd (squares / (sqrt squares * sqrt squares)) 4
                <= Py.round_nd 1 4)%Q) by (apply round_nd_mono; lra).
  assert (H2 : (Py.round_nd 1 4
                <= Py.round_nd (squares / (sqrt squares * sqrt squares)) 4)%Q)
    by (apply round_nd_mono; lra).
  pose proof round_nd_one. lra.
Qed.

Lemma pearson_of_a_series_with_itself_witness :
  (Agreement.pearson_correlation Sample.sqrt Sample2.square_wave
                                 Sample2.square_wave == 1)%Q.
Proof.
  apply (pearson_of_a_series_with_itself Sample.sqrt Sample2.square_wave).
  - vm_compute. discriminate.
  - vm_compute. reflexivity.
  - vm_compute. discriminate.
Defined.
